(** * Holidaze: the entity extraction engine and the itinerary groupings

    A shallow embedding of [src/extractor.py] (class [EntityExtractor]), of
    the two groupings of [src/models.py] (class [Itinerary]) and of the
    parser of the chat export, [src/parser.py] (class [WhatsAppParser]),
    with the properties of the specification proved about them, followed by
    further properties of the same code.

    Conventions of the embedding.
    - A Python [str] is a [string]: the bytes of its UTF-8 encoding.  The
      character classes and case mappings below are the ASCII ones, so the
      embedding agrees with Python on ASCII text (the pound sign and the
      arrow of the titles are literal byte sequences).
    - The regular expressions of the source are values of [regex], run by a
      backtracking matcher that lists the outcomes in the priority order of
      Python's [re]: its head is the match [re] reports.
    - [urlparse], [parse_qs], [date.fromisoformat] and [dateparser.parse]
      are library functions outside the repository: they are the fields of
      the class [Library], over which the engine is parametrised.
    - The mutable state of an extractor (the id counter) and of a detector
      loop (its list of items and its set of seen keys) is passed
      explicitly. *)

From Stdlib Require Import String Ascii List Arith NArith Bool Lia
  DecimalString Permutation Sorted.
From stdpp Require Import gmap strings list.
From Stdlib Require Import DecimalNat.
From Stdlib Require OrderedTypeEx.

Import ListNotations.
Local Open Scope string_scope.

(** ** Python [str] primitives *)

Module PyStr.

Definition code (c : ascii) : nat := nat_of_ascii c.

Definition between (lo hi : nat) (c : ascii) : bool :=
  Nat.leb lo (code c) && Nat.leb (code c) hi.

Definition is_upper : ascii -> bool := between 65 90.
Definition is_lower : ascii -> bool := between 97 122.
Definition is_alpha (c : ascii) : bool := is_upper c || is_lower c.
Definition is_digit : ascii -> bool := between 48 57.

(** [str.isspace] on ASCII: TAB..CR, FS..US and the blank. *)
Definition is_space (c : ascii) : bool := between 9 13 c || between 28 32 c.

(** [\w] on ASCII. *)
Definition is_word (c : ascii) : bool :=
  is_alpha c || is_digit c || Nat.eqb (code c) 95.

Definition to_lower (c : ascii) : ascii :=
  if is_upper c then ascii_of_nat (code c + 32) else c.

Definition to_upper (c : ascii) : ascii :=
  if is_lower c then ascii_of_nat (code c - 32) else c.

Fixpoint smap (f : ascii -> ascii) (s : string) : string :=
  match s with
  | EmptyString => EmptyString
  | String c t => String (f c) (smap f t)
  end.

(** [s.lower()], [s.upper()] *)
Definition lower : string -> string := smap to_lower.
Definition upper : string -> string := smap to_upper.

(** [sub in s] *)
Fixpoint contains (sub s : string) : bool :=
  String.prefix sub s ||
  match s with
  | EmptyString => false
  | String _ t => contains sub t
  end.

(** [not s]: the empty string is falsy. *)
Definition falsy (s : string) : bool :=
  match s with EmptyString => true | _ => false end.

Fixpoint lstrip (s : string) : string :=
  match s with
  | String c t => if is_space c then lstrip t else s
  | EmptyString => EmptyString
  end.

Fixpoint rstrip (s : string) : string :=
  match s with
  | EmptyString => EmptyString
  | String c t =>
      match rstrip t with
      | EmptyString => if is_space c then EmptyString else String c EmptyString
      | t' => String c t'
      end
  end.

(** [s.strip()] *)
Definition strip (s : string) : string := rstrip (lstrip s).

(** [s.title()]: a letter is upper-cased after a character that is not a
    letter and lower-cased after a letter. *)
Fixpoint title_from (prev_cased : bool) (s : string) : string :=
  match s with
  | EmptyString => EmptyString
  | String c t =>
      String (if is_alpha c then (if prev_cased then to_lower c else to_upper c) else c)
             (title_from (is_alpha c) t)
  end.

Definition title : string -> string := title_from false.

(** [s.replace(old, new)]: the occurrences of [old] are replaced from left
    to right without overlap; [skip] counts the characters of an occurrence
    still to be dropped. *)
Fixpoint replace_from (old new : string) (skip : nat) (s : string) : string :=
  match s with
  | EmptyString => EmptyString
  | String c t =>
      match skip with
      | S k => replace_from old new k t
      | O =>
          if String.prefix old s
          then new ++ replace_from old new (String.length old - 1) t
          else String c (replace_from old new 0 t)
      end
  end.

Fixpoint intersperse (new s : string) : string :=
  match s with
  | EmptyString => new
  | String c t => new ++ String c (intersperse new t)
  end.

Definition replace (old new s : string) : string :=
  if falsy old then intersperse new s else replace_from old new 0 s.

(** [sep.join(parts)] *)
Fixpoint join (sep : string) (parts : list string) : string :=
  match parts with
  | [] => EmptyString
  | [p] => p
  | p :: ps => p ++ sep ++ join sep ps
  end.

(** [sorted(parts)] on strings: a stable insertion sort; [<] on [str] is
    the order of the code points, which on UTF-8 is the order of the bytes. *)
Fixpoint insert_str (x : string) (l : list string) : list string :=
  match l with
  | [] => [x]
  | y :: l' => if String.ltb x y then x :: l else y :: insert_str x l'
  end.

Definition sorted (l : list string) : list string :=
  fold_right (fun x acc => insert_str x acc) [] (rev l).

(** [str(n)] for a natural number. *)
Definition of_nat (n : nat) : string := NilEmpty.string_of_uint (Nat.to_uint n).

(** Zero-padded decimal of width [w] (the [%0wd] of [date.isoformat]). *)
Fixpoint zeros (n : nat) : string :=
  match n with O => EmptyString | S k => String "0" (zeros k) end.

Definition pad (w : nat) (n : N) : string :=
  let s := NilEmpty.string_of_uint (N.to_uint n) in
  zeros (w - String.length s) ++ s.

End PyStr.


(** ** Regular expressions: the fragment of Python's [re] the source uses *)

Module Re.

(** Repetition is only ever applied to a single character class in the
    source ([\s*], [\d{1,4}], [[^!]+?], ...), so [RRep] takes the class,
    the bounds and whether the quantifier is greedy. *)
Inductive regex : Type :=
| REps
| RLit (c : ascii)
| RSet (p : ascii -> bool)
| RSeq (r1 r2 : regex)
| RAlt (r1 r2 : regex)
| RRep (greedy : bool) (lo : nat) (hi : option nat) (p : ascii -> bool)
| RGroup (n : nat) (r : regex)
| RWordB
| RNotAhead (r : regex).

(** A literal string, and [r?]. *)
Fixpoint RStr (s : string) : regex :=
  match s with
  | EmptyString => REps
  | String c EmptyString => RLit c
  | String c t => RSeq (RLit c) (RStr t)
  end.

Definition ROpt (r : regex) : regex := RAlt r REps.

Fixpoint RSeqs (rs : list regex) : regex :=
  match rs with
  | [] => REps
  | [r] => r
  | r :: rs' => RSeq r (RSeqs rs')
  end.

Fixpoint RAlts (rs : list regex) : regex :=
  match rs with
  | [] => RSet (fun _ => false)
  | [r] => r
  | r :: rs' => RAlt r (RAlts rs')
  end.

(** A position in the subject: the character before it, the text after it,
    and the groups captured on the way (latest first). *)
Record cursor : Type := Cursor {
  prev : option ascii;
  rest : string;
  caps : list (nat * string)
}.

Definition word_before (k : cursor) : bool :=
  match prev k with Some c => PyStr.is_word c | None => false end.

Definition word_after (k : cursor) : bool :=
  match rest k with String c _ => PyStr.is_word c | EmptyString => false end.

Definition step (k : cursor) : option cursor :=
  match rest k with
  | String c t => Some (Cursor (Some c) t (caps k))
  | EmptyString => None
  end.

(** The text between two positions of the same subject. *)
Definition consumed (k k' : cursor) : string :=
  String.substring 0 (String.length (rest k) - String.length (rest k')) (rest k).

(** The positions after 0, 1, 2, ... characters of the class [p]. *)
Fixpoint run (p : ascii -> bool) (pv : option ascii) (s : string)
    (cs : list (nat * string)) : list cursor :=
  Cursor pv s cs ::
  match s with
  | String c t => if p c then run p (Some c) t cs else []
  | EmptyString => []
  end.

Definition window (lo : nat) (hi : option nat) (l : list cursor) : list cursor :=
  let upto := match hi with Some h => firstn (S h) l | None => l end in
  skipn lo upto.

Definition char_eq (ignorecase : bool) (a b : ascii) : bool :=
  if ignorecase then Ascii.eqb (PyStr.to_lower a) (PyStr.to_lower b)
  else Ascii.eqb a b.

(** All the ways [r] matches at [k], best first. *)
Fixpoint outcomes (ic : bool) (r : regex) (k : cursor) : list cursor :=
  match r with
  | REps => [k]
  | RLit c =>
      match rest k with
      | String d t => if char_eq ic c d then [Cursor (Some d) t (caps k)] else []
      | EmptyString => []
      end
  | RSet p =>
      match rest k with
      | String d t => if p d then [Cursor (Some d) t (caps k)] else []
      | EmptyString => []
      end
  | RSeq r1 r2 => flat_map (outcomes ic r2) (outcomes ic r1 k)
  | RAlt r1 r2 => (outcomes ic r1 k ++ outcomes ic r2 k)%list
  | RRep greedy lo hi p =>
      let w := window lo hi (run p (prev k) (rest k) (caps k)) in
      if greedy then rev w else w
  | RGroup n r1 =>
      List.map (fun k' => Cursor (prev k') (rest k') ((n, consumed k k') :: caps k'))
               (outcomes ic r1 k)
  | RWordB => if xorb (word_before k) (word_after k) then [k] else []
  | RNotAhead r1 =>
      match outcomes ic r1 k with
      | [] => [k]
      | _ :: _ => []
      end
  end.

(** A match object: [m.group(0)] and the numbered groups. *)
Record rmatch : Type := Match {
  whole : string;
  captured : list (nat * string)
}.

Fixpoint assoc (n : nat) (l : list (nat * string)) : option string :=
  match l with
  | [] => None
  | (m, s) :: l' => if Nat.eqb n m then Some s else assoc n l'
  end.

(** [m.group(n)]: [None] when the group took no part in the match. *)
Definition group (n : nat) (m : rmatch) : option string := assoc n (captured m).

Definition match_at (ic : bool) (r : regex) (k : cursor) : option rmatch :=
  match outcomes ic r k with
  | k' :: _ => Some (Match (consumed k k') (caps k'))
  | [] => None
  end.

(** [pattern.search(s)]: the leftmost position with a match. *)
Fixpoint search_from (ic : bool) (r : regex) (pv : option ascii) (s : string)
    : option rmatch :=
  match match_at ic r (Cursor pv s []) with
  | Some m => Some m
  | None =>
      match s with
      | String c t => search_from ic r (Some c) t
      | EmptyString => None
      end
  end.

Definition search (ic : bool) (r : regex) (s : string) : option rmatch :=
  search_from ic r None s.

Definition matches (ic : bool) (r : regex) (s : string) : bool :=
  match search ic r s with Some _ => true | None => false end.

(** [pattern.finditer(s)]: the matches from left to right, without
    overlap; [skip] counts the characters of the last match still to be
    passed. *)
Fixpoint finditer_from (ic : bool) (r : regex) (skip : nat) (pv : option ascii)
    (s : string) : list rmatch :=
  match skip with
  | S j =>
      match s with
      | String c t => finditer_from ic r j (Some c) t
      | EmptyString => []
      end
  | O =>
      match match_at ic r (Cursor pv s []) with
      | Some m =>
          m :: match s with
               | String c t =>
                   finditer_from ic r (String.length (whole m) - 1) (Some c) t
               | EmptyString => []
               end
      | None =>
          match s with
          | String c t => finditer_from ic r 0 (Some c) t
          | EmptyString => []
          end
      end
  end.

Definition finditer (ic : bool) (r : regex) (s : string) : list rmatch :=
  finditer_from ic r 0 None s.

End Re.

(** ** The data model *)

(** [datetime.date]: compared field by field, printed as [YYYY-MM-DD]. *)
Record date : Type := Date { year : N; month : N; day : N }.

(** [a < b] *)
Definition date_ltb (a b : date) : bool :=
  N.ltb (year a) (year b) ||
  (N.eqb (year a) (year b) &&
   (N.ltb (month a) (month b) ||
    (N.eqb (month a) (month b) && N.ltb (day a) (day b)))).

Definition date_leb (a b : date) : bool := negb (date_ltb b a).

Definition date_eqb (a b : date) : bool :=
  N.eqb (year a) (year b) && N.eqb (month a) (month b) && N.eqb (day a) (day b).

(** [date.max] *)
Definition date_max : date := Date 9999 12 31.

(** [str(d)] *)
Definition isoformat (d : date) : string :=
  PyStr.pad 4 (year d) ++ "-" ++ PyStr.pad 2 (month d) ++ "-" ++ PyStr.pad 2 (day d).

Inductive ItemCategory : Type := FLIGHT | HOTEL | TRANSFER | ACTIVITY.

(** Modelled from the spec: [ItemStatus] is imported by [extractor.py] from
    [models.py], whose version under [src/] does not declare it; section 3
    of the specification gives its two values. *)
Inductive ItemStatus : Type := CONFIRMED | TENTATIVE.

(** Modelled from the spec: [Message] is imported by [extractor.py] from
    [models.py], whose version under [src/] does not declare it; section 3
    of the specification gives its fields ([parser.py] builds it with the
    same four).  The timestamp is the instant as a number. *)
Record Message : Type := mkMessage {
  timestamp : nat;
  sender : string;
  content : string;
  is_system : bool
}.

(** Modelled from the spec: the [TravelItem] that [extractor.py] builds
    (keywords [status], [proposed_by], [booking_links], [source_messages])
    is not the one declared in the [models.py] under [src/]; section 3 of
    the specification gives its fields.  The fields [id], [category],
    [title], [start_date], [end_date] and [details] are those of
    [models.py], and the groupings of [Itinerary] read only [start_date]
    and [category]. *)
Record TravelItem : Type := mkTravelItem {
  id : string;
  category : ItemCategory;
  status : ItemStatus;
  title : string;
  start_date : option date;
  end_date : option date;
  proposed_by : string;
  details : list (string * string);
  booking_links : list string;
  source_messages : list Message
}.

Record Itinerary : Type := mkItinerary {
  it_title : string;
  destination : string;
  participants : list string;
  it_start_date : option date;
  it_end_date : option date;
  items : list TravelItem
}.

Definition category_eqb (a b : ItemCategory) : bool :=
  match a, b with
  | FLIGHT, FLIGHT | HOTEL, HOTEL | TRANSFER, TRANSFER | ACTIVITY, ACTIVITY => true
  | _, _ => false
  end.

Definition status_eqb (a b : ItemStatus) : bool :=
  match a, b with
  | CONFIRMED, CONFIRMED | TENTATIVE, TENTATIVE => true
  | _, _ => false
  end.

(** ** The pattern tables of [extractor.py] *)

(** [re.compile(r, flags)] *)
Record pattern : Type := compile { re : Re.regex; ignorecase : bool }.

Definition pattern_search (p : pattern) (s : string) : option Re.rmatch :=
  Re.search (ignorecase p) (re p) s.

Definition pattern_findall (p : pattern) (s : string) : list Re.rmatch :=
  Re.finditer (ignorecase p) (re p) s.

Definition found (m : option Re.rmatch) : bool :=
  match m with Some _ => true | None => false end.

Import Re.

Definition digits (lo hi : nat) : regex := RRep true lo (Some hi) PyStr.is_digit.
Definition spaces0 : regex := RRep true 0 None PyStr.is_space.
Definition spaces1 : regex := RRep true 1 None PyStr.is_space.
Definition not_in (cs : string) (c : ascii) : bool :=
  negb (PyStr.contains (String c EmptyString) cs).

(** [https?://(?:www\.)?booking\.com/[^\s]+] *)
Definition BOOKING_URL_PATTERN : pattern :=
  compile (RSeqs [RStr "http"; ROpt (RLit "s"); RStr "://"; ROpt (RStr "www.");
                  RStr "booking.com/";
                  RRep true 1 None (fun c => negb (PyStr.is_space c))]) true.

(** [£(\d{1,4}(?:\.\d{2})?)\s*(?:pp|per person|each)?] *)
Definition COST_PATTERN : pattern :=
  compile (RSeqs [RStr "£";
                  RGroup 1 (RSeq (digits 1 4) (ROpt (RSeq (RLit ".") (digits 2 2))));
                  spaces0;
                  ROpt (RAlts [RStr "pp"; RStr "per person"; RStr "each"])]) true.

(** [Jan(?:uary)?], ... *)
Definition month_name (short long_tail : string) : regex :=
  RSeq (RStr short) (ROpt (RStr long_tail)).

(** [(\d{1,2})(?:st|nd|rd|th)?\s+(Jan(?:uary)?|...|Dec(?:ember)?)\s*(\d{4})?] *)
Definition DATE_PATTERN : pattern :=
  compile (RSeqs [RGroup 1 (digits 1 2);
                  ROpt (RAlts [RStr "st"; RStr "nd"; RStr "rd"; RStr "th"]);
                  spaces1;
                  RGroup 2 (RAlts [month_name "Jan" "uary"; month_name "Feb" "ruary";
                                   month_name "Mar" "ch"; month_name "Apr" "il";
                                   RStr "May"; month_name "Jun" "e";
                                   month_name "Jul" "y"; month_name "Aug" "ust";
                                   month_name "Sep" "tember"; month_name "Oct" "ober";
                                   month_name "Nov" "ember"; month_name "Dec" "ember"]);
                  spaces0;
                  ROpt (RGroup 3 (digits 4 4))]) true.

(** [\bA\s*B\b] *)
Definition two_words (a b : string) : regex :=
  RSeqs [RWordB; RStr a; spaces0; RStr b; RWordB].

Definition AIRLINE_PATTERNS : list (pattern * string) :=
  [ (compile (RSeqs [RWordB; RStr "Etihad"; RWordB]) true, "Etihad");
    (compile (two_words "Air" "Asia") true, "Air Asia");
    (compile (two_words "Thai" "Airways") true, "Thai Airways");
    (compile (RSeqs [RWordB; RStr "Qatar"; RWordB;
                     RNotAhead (RSeq spaces1 (RAlt (RStr "hotel") (RStr "resort")))]) true,
     "Qatar");
    (compile (two_words "British" "Airways") true, "British Airways");
    (compile (two_words "Viet" "Jet") true, "VietJet");
    (compile (two_words "Oman" "Air") true, "Oman Air") ].

Definition FLIGHT_CONTEXT : list string :=
  ["flight"; "fly"; "flying"; "depart"; "arrive"; "layover"; "airport";
   "LHR"; "BKK"; "booking"; "£"].

Definition TRANSFER_KEYWORDS : list string := ["ferry"; "speedboat"; "longtail boat"].

(** [\bphrase\b] *)
Definition phrase (s : string) : pattern :=
  compile (RSeqs [RWordB; RStr s; RWordB]) true.

Definition CONFIRMATION_PATTERNS : list pattern :=
  [ compile (RSeqs [RWordB; RStr "booked"; ROpt (RLit "!"); RWordB]) true;
    phrase "all done";
    phrase "all booked";
    phrase "just booked";
    phrase "sorted";
    phrase "confirmed";
    phrase "This is booked" ].

(** [Check out ([^!]+?) on Booking\.com], local to [_extract_hotels] *)
Definition checkout_pattern : pattern :=
  compile (RSeqs [RStr "Check out "; RGroup 1 (RRep false 1 None (not_in "!"));
                  RStr " on Booking.com"]) true.

(** [/hotel/\w+/([^/.]+)], used by [_extract_hotel_name_from_url] *)
Definition hotel_path_pattern : pattern :=
  compile (RSeqs [RStr "/hotel/"; RRep true 1 None PyStr.is_word; RLit "/";
                  RGroup 1 (RRep true 1 None (not_in "/."))]) false.

(** [(\d{1,2})[:.:](\d{2})], used by [_extract_transfers] *)
Definition time_pattern : pattern :=
  compile (RSeqs [RGroup 1 (digits 1 2); RSet (fun c => negb (not_in ":.:" c));
                  RGroup 2 (digits 2 2)]) false.


(** ** The extractor *)

(** [x[start:stop]] for [0 <= start]. *)
Definition slice {A : Type} (start stop : nat) (l : list A) : list A :=
  firstn (stop - start) (skipn start l).

(** [for i, x in enumerate(l)], from index [i]. *)
Fixpoint for_enumerate {St : Type} (body : nat -> Message -> St -> St)
    (i : nat) (l : list Message) (st : St) : St :=
  match l with
  | [] => st
  | x :: l' => for_enumerate body (S i) l' (body i x st)
  end.

(** Truthiness of an optional string: [None] and [""] are falsy. *)
Definition truthy (o : option string) : bool :=
  match o with Some s => negb (PyStr.falsy s) | None => false end.

Definition is_some {A : Type} (o : option A) : bool :=
  match o with Some _ => true | None => false end.

(** [a or b] on optional dates (a [date] is always truthy). *)
Definition or_date (a b : option date) : option date :=
  match a with Some _ => a | None => b end.

Record EntityExtractor : Type := mkExtractor {
  messages : list Message;
  item_counter : nat
}.

(** [EntityExtractor(messages)] *)
Definition __init__ (msgs : list Message) : EntityExtractor :=
  mkExtractor (List.filter (fun m => negb (is_system m)) msgs) 0.

(** The state of a detector loop: the list under construction, the set of
    seen keys and the extractor, whose counter [_generate_id] advances. *)
Record detector : Type := mkDetector {
  found_items : list TravelItem;
  seen : gset string;
  self_ : EntityExtractor
}.

Definition _generate_id (self : EntityExtractor) : string * EntityExtractor :=
  let self' := mkExtractor (messages self) (item_counter self + 1) in
  ("item-" ++ PyStr.of_nat (item_counter self'), self').

Definition confirms (msg : Message) : bool :=
  existsb (fun p => found (pattern_search p (content msg))) CONFIRMATION_PATTERNS.

Definition _check_confirmation (self : EntityExtractor) (message_index window : nat)
    : ItemStatus :=
  let start := Nat.max 0 (message_index - 3) in
  let stop := Nat.min (length (messages self)) (message_index + window) in
  if existsb confirms (slice start stop (messages self)) then CONFIRMED else TENTATIVE.

(** The airports of [_identify_route], in the order of the dictionary. *)
Definition airports : list (string * string) :=
  [("LHR", "London"); ("BKK", "Bangkok"); ("Phuket", "Phuket");
   ("Krabi", "Krabi"); ("Lanta", "Koh Lanta")].

Definition _identify_route (text : string) : option string :=
  let content_upper := PyStr.upper text in
  let hits := List.filter (fun code => PyStr.contains (PyStr.upper code) content_upper)
                     (List.map fst airports) in
  match hits with
  | a :: b :: _ => Some (a ++ " → " ++ b)
  | _ => None
  end.

(** The table of [_dedupe_by_location], in the order of the dictionary. *)
Definition location_keywords : list (string * string) :=
  [("lipe", "Koh Lipe"); ("kradan", "Koh Kradan"); ("libong", "Koh Libong");
   ("lanta", "Koh Lanta"); ("bangkok", "Bangkok"); ("sukhumvit", "Bangkok");
   ("riverside", "Bangkok")].

(** The loop [for keyword, loc in location_keywords.items()] with its
    [break]: the location of the first keyword found in the title. *)
Fixpoint first_location (table : list (string * string)) (title_lower : string)
    : option string :=
  match table with
  | [] => None
  | (keyword, loc) :: table' =>
      if PyStr.contains keyword title_lower then Some loc
      else first_location table' title_lower
  end.

Definition location_of (item : TravelItem) : option string :=
  first_location location_keywords (PyStr.lower (title item)).

(** The body of the loop of [_dedupe_by_location], on the pair of [result]
    and [seen_locations]. *)
Definition dedupe_step (st : list TravelItem * gset string) (item : TravelItem)
    : list TravelItem * gset string :=
  let '(result, seen_locations) := st in
  if negb (category_eqb (category item) HOTEL) then ((result ++ [item])%list, seen_locations)
  else
    match location_of item with
    | None => ((result ++ [item])%list, seen_locations)
    | Some loc =>
        if bool_decide (loc ∈ seen_locations) then st
        else ((result ++ [item])%list,
              if PyStr.falsy loc then seen_locations else {[loc]} ∪ seen_locations)
    end.

Definition _dedupe_by_location (items : list TravelItem) : list TravelItem :=
  fst (fold_left dedupe_step items ([], ∅)).

(** [x.start_date or date.max], the key of the sort of [extract_all]. *)
Definition sort_key (x : TravelItem) : date :=
  match start_date x with Some d => d | None => date_max end.

(** [items.sort(key=...)]: Python's sort is stable, and a stable sort has
    one result; it is computed here by insertion, each item going after the
    items already placed whose key is not greater. *)
Fixpoint insert_by_key (x : TravelItem) (l : list TravelItem) : list TravelItem :=
  match l with
  | [] => [x]
  | y :: l' =>
      if date_ltb (sort_key x) (sort_key y) then x :: l else y :: insert_by_key x l'
  end.

Definition sort_by_key (l : list TravelItem) : list TravelItem :=
  fold_left (fun acc x => insert_by_key x acc) l [].

(** [min(dates)] and [max(dates)], which raise [ValueError] on an empty
    list and return the first extremal element otherwise. *)
Inductive exn : Type := ValueError.

Inductive result (A : Type) : Type :=
| Ok (a : A)
| Raise (e : exn).
Arguments Ok {A} a.
Arguments Raise {A} e.

Definition py_min (l : list date) : result date :=
  match l with
  | [] => Raise ValueError
  | x :: l' => Ok (fold_left (fun m y => if date_ltb y m then y else m) l' x)
  end.

Definition py_max (l : list date) : result date :=
  match l with
  | [] => Raise ValueError
  | x :: l' => Ok (fold_left (fun m y => if date_ltb m y then y else m) l' x)
  end.

Definition bind {A B : Type} (r : result A) (k : A -> result B) : result B :=
  match r with Ok a => k a | Raise e => Raise e end.

(** The bounds of a [datetime.date] object ([MINYEAR] to [MAXYEAR]). *)
Definition valid_date (d : date) : bool :=
  (N.leb 1 (year d) && N.leb (year d) 9999) &&
  (N.leb 1 (month d) && N.leb (month d) 12) &&
  (N.leb 1 (day d) && N.leb (day d) 31).

(** The library functions the extractor calls: [urlparse(url).path],
    [urlparse(url).query], [parse_qs(query)] (a value of the dictionary is
    a list with at least one element), [date.fromisoformat(s)] ([None] for
    a [ValueError]) and [dateparser.parse(s)] followed by [.date()].  The
    dates they build are [date] objects, hence within the bounds.
    [dateparser.parse] completes a date string from the current date: the
    field is its value on the day of the run, and a [Calendar], further
    down, lets that day vary. *)
Class Library : Type := {
  urlparse_path : string -> string;
  urlparse_query : string -> string;
  parse_qs : string -> gmap string (string * list string);
  date_fromisoformat : string -> option date;
  dateparser_parse : string -> option date;
  date_fromisoformat_valid :
    forall s d, date_fromisoformat s = Some d -> valid_date d = true;
  dateparser_parse_valid :
    forall s d, dateparser_parse s = Some d -> valid_date d = true
}.

Section Engine.

Context {L : Library}.

Definition date_of_match (m : Re.rmatch) : option date :=
  match Re.group 1 m, Re.group 2 m with
  | Some d, Some mo =>
      let y := match Re.group 3 m with Some y => y | None => "2026" end in
      dateparser_parse (d ++ " " ++ mo ++ " " ++ y)
  | _, _ => None
  end.

(** The loop of [_extract_date_from_context]: the first message of the
    window whose date phrase the parser accepts. *)
Fixpoint first_date (l : list Message) : option date :=
  match l with
  | [] => None
  | msg :: l' =>
      match pattern_search DATE_PATTERN (content msg) with
      | Some m =>
          match date_of_match m with
          | Some d => Some d
          | None => first_date l'
          end
      | None => first_date l'
      end
  end.

Definition _extract_date_from_context (self : EntityExtractor)
    (message_index window : nat) : option date :=
  let start := Nat.max 0 (message_index - window) in
  let stop := Nat.min (length (messages self)) (message_index + window) in
  first_date (slice start stop (messages self)).

Definition _extract_hotel_name_from_url (url : string) : option string :=
  let path := urlparse_path url in
  match pattern_search hotel_path_pattern path with
  | Some m =>
      match Re.group 1 m with
      | Some name => Some (PyStr.title (PyStr.replace "-" " " name))
      | None => None
      end
  | None => None
  end.

Definition query_date (params : gmap string (string * list string)) (key : string)
    : option date :=
  match params !! key with
  | Some (v, _) => date_fromisoformat v
  | None => None
  end.

Definition _extract_dates_from_booking_url (url : string) : option date * option date :=
  let params := parse_qs (urlparse_query url) in
  (query_date params "checkin", query_date params "checkout").

Fixpoint first_checkin (urls : list string) : option date :=
  match urls with
  | [] => None
  | url :: urls' =>
      match fst (_extract_dates_from_booking_url url) with
      | Some d => Some d
      | None => first_checkin urls'
      end
  end.

Definition _extract_date_from_booking_url_in_text (text : string) : option date :=
  first_checkin (List.map Re.whole (pattern_findall BOOKING_URL_PATTERN text)).

(** *** The hotel detector *)

(** The variables assigned in the body of the loop of [_extract_hotels]. *)
Record hotel_locals : Type := mkLocals {
  hotel_name : option string;
  check_in : option date;
  check_out : option date;
  booking_link : option string
}.

(** The body of [for url in urls]. *)
Definition hotel_url_step (loc : hotel_locals) (url : string) : hotel_locals :=
  let url_hotel_name := _extract_hotel_name_from_url url in
  let name := if truthy url_hotel_name && negb (truthy (hotel_name loc))
              then url_hotel_name else hotel_name loc in
  let '(url_check_in, url_check_out) := _extract_dates_from_booking_url url in
  if is_some url_check_in
  then mkLocals name url_check_in url_check_out (Some url)
  else mkLocals name (check_in loc) (check_out loc) (Some url).

(** The body of the loop up to the test [if not hotel_name]. *)
Definition hotel_scan (self : EntityExtractor) (i : nat) (msg : Message) : hotel_locals :=
  let urls := List.map Re.whole (pattern_findall BOOKING_URL_PATTERN (content msg)) in
  let from_phrase :=
    match pattern_search checkout_pattern (content msg) with
    | Some m => option_map PyStr.strip (Re.group 1 m)
    | None => None
    end in
  let loc := fold_left hotel_url_step urls (mkLocals from_phrase None None None) in
  if is_some (check_in loc) then loc
  else mkLocals (hotel_name loc) (_extract_date_from_context self i 5)
                (check_out loc) (booking_link loc).

Definition hotel_body (i : nat) (msg : Message) (st : detector) : detector :=
  let self := self_ st in
  let loc := hotel_scan self i msg in
  match hotel_name loc with
  | None => st
  | Some name =>
      if PyStr.falsy name then st
      else
        let hotel_key := PyStr.strip (PyStr.lower name) in
        if bool_decide (hotel_key ∈ seen st) then st
        else
          let status := _check_confirmation self i 8 in
          let '(new_id, self') := _generate_id self in
          let item :=
            mkTravelItem new_id HOTEL status name (check_in loc) (check_out loc)
              (sender msg) []
              (match booking_link loc with
               | Some url => if PyStr.falsy url then [] else [url]
               | None => []
               end)
              [msg] in
          mkDetector (found_items st ++ [item]) ({[hotel_key]} ∪ seen st) self'
  end.

Definition _extract_hotels (self : EntityExtractor) : list TravelItem * EntityExtractor :=
  let st := for_enumerate hotel_body 0 (messages self) (mkDetector [] ∅ self) in
  (found_items st, self_ st).

(** *** The flight detector *)

Definition has_flight_context (content_lower : string) : bool :=
  existsb (fun ctx => PyStr.contains (PyStr.lower ctx) content_lower) FLIGHT_CONTEXT.

(** [f"{d or 'nodate'}"] *)
Definition date_or_nodate (d : option date) : string :=
  match d with Some x => isoformat x | None => "nodate" end.

(** The loop over [AIRLINE_PATTERNS] for the message [msg] at index [i]:
    [continue] moves on to the next pattern, [break] ends the loop. *)
Fixpoint flight_patterns (i : nat) (msg : Message) (pats : list (pattern * string))
    (st : detector) : detector :=
  match pats with
  | [] => st
  | (pat, airline_name) :: pats' =>
      if found (pattern_search pat (content msg)) then
        let self := self_ st in
        let costs := List.map (Re.group 1) (pattern_findall COST_PATTERN (content msg)) in
        let cost := match costs with c :: _ => c | [] => None end in
        let route := _identify_route (content msg) in
        let flight_date :=
          or_date (_extract_date_from_booking_url_in_text (content msg))
                  (_extract_date_from_context self i 5) in
        let dedup_key :=
          airline_name ++ "-" ++
          (if truthy route then default "" route else "unknown") ++ "-" ++
          date_or_nodate flight_date in
        if bool_decide (dedup_key ∈ seen st) then flight_patterns i msg pats' st
        else
          let st1 := mkDetector (found_items st) ({[dedup_key]} ∪ seen st) self in
          let status := _check_confirmation self i 8 in
          if negb (status_eqb status CONFIRMED) && negb (is_some flight_date)
          then flight_patterns i msg pats' st1
          else
            let details :=
              match cost with
              | Some c => if PyStr.falsy c then [] else [("cost", "£" ++ c)]
              | None => []
              end in
            let title :=
              if truthy route then airline_name ++ " " ++ default "" route
              else airline_name ++ " Flight" in
            let '(new_id, self') := _generate_id self in
            let item :=
              mkTravelItem new_id FLIGHT status title flight_date None
                (sender msg) details [] [msg] in
            mkDetector (found_items st1 ++ [item]) (seen st1) self'
      else flight_patterns i msg pats' st
  end.

Definition flight_body (i : nat) (msg : Message) (st : detector) : detector :=
  let content_lower := PyStr.lower (content msg) in
  if negb (has_flight_context content_lower) then st
  else flight_patterns i msg AIRLINE_PATTERNS st.

Definition _extract_flights (self : EntityExtractor) : list TravelItem * EntityExtractor :=
  let st := for_enumerate flight_body 0 (messages self) (mkDetector [] ∅ self) in
  (found_items st, self_ st).

(** *** The transfer detector *)

Definition islands : list string :=
  ["Koh Lipe"; "Koh Lanta"; "Koh Kradan"; "Koh Libong"; "Koh Mook"; "Koh Ngai";
   "Lipe"; "Lanta"; "Kradan"; "Libong"].

(** The body of [for island in islands]. *)
Definition route_step (content_lower : string) (route_parts : list string)
    (island : string) : list string :=
  if PyStr.contains (PyStr.lower island) content_lower then
    let normalized := PyStr.replace "Koh " "" island in
    if existsb (String.eqb normalized) route_parts then route_parts
    else route_parts ++ [normalized]
  else route_parts.

Definition find_route_parts (content_lower : string) : list string :=
  fold_left (route_step content_lower) islands [].

Definition find_time (text : string) : option string :=
  match pattern_search time_pattern text with
  | Some m =>
      match Re.group 1 m, Re.group 2 m with
      | Some h, Some mi => Some (h ++ ":" ++ mi)
      | _, _ => None
      end
  | None => None
  end.

Definition transfer_title (keyword : string) (route_parts : list string) : string :=
  match route_parts with
  | a :: b :: _ => PyStr.title keyword ++ " " ++ a ++ " → " ++ b
  | [a] => PyStr.title keyword ++ " to " ++ a
  | [] => PyStr.title keyword
  end.

(** The loop over [TRANSFER_KEYWORDS] for the message [msg] at index [i]. *)
Fixpoint transfer_keywords (i : nat) (msg : Message) (keywords : list string)
    (st : detector) : detector :=
  match keywords with
  | [] => st
  | keyword :: keywords' =>
      let content_lower := PyStr.lower (content msg) in
      if PyStr.contains keyword content_lower then
        let self := self_ st in
        let time_str := find_time (content msg) in
        let route_parts := find_route_parts content_lower in
        let status := _check_confirmation self i 8 in
        let transfer_date := _extract_date_from_context self i 5 in
        if negb (status_eqb status CONFIRMED) &&
           negb (negb (Nat.eqb (length route_parts) 0) || truthy time_str)
        then transfer_keywords i msg keywords' st
        else
          let title := transfer_title keyword route_parts in
          let dedup_key :=
            keyword ++ "-" ++ PyStr.join "-" (PyStr.sorted route_parts) ++ "-" ++
            date_or_nodate transfer_date in
          if bool_decide (dedup_key ∈ seen st) then transfer_keywords i msg keywords' st
          else
            let details :=
              match time_str with
              | Some t => if PyStr.falsy t then [] else [("time", t)]
              | None => []
              end in
            let '(new_id, self') := _generate_id self in
            let item :=
              mkTravelItem new_id TRANSFER status title transfer_date None
                (sender msg) details [] [msg] in
            mkDetector (found_items st ++ [item]) ({[dedup_key]} ∪ seen st) self'
      else transfer_keywords i msg keywords' st
  end.

Definition transfer_body (i : nat) (msg : Message) (st : detector) : detector :=
  transfer_keywords i msg TRANSFER_KEYWORDS st.

Definition _extract_transfers (self : EntityExtractor) : list TravelItem * EntityExtractor :=
  let st := for_enumerate transfer_body 0 (messages self) (mkDetector [] ∅ self) in
  (found_items st, self_ st).

(** *** Orchestration *)

Definition is_confirmed (item : TravelItem) : bool := status_eqb (status item) CONFIRMED.

(** The three detectors in the order of [extract_all], on one extractor. *)
Definition detect_all (self : EntityExtractor) : list TravelItem * EntityExtractor :=
  let '(hotels, self1) := _extract_hotels self in
  let '(flights, self2) := _extract_flights self1 in
  let '(transfers, self3) := _extract_transfers self2 in
  ((hotels ++ flights ++ transfers)%list, self3).

Definition extract_all (self : EntityExtractor) (confirmed_only : bool)
    : list TravelItem * EntityExtractor :=
  let '(items, self') := detect_all self in
  let items :=
    if confirmed_only then _dedupe_by_location (List.filter is_confirmed items)
    else items in
  (sort_by_key items, self').

(** The dates with which [build_itinerary] computes the range. *)
Definition item_dates (items : list TravelItem) : list date :=
  omap start_date items.

Definition build_itinerary (self : EntityExtractor) (title : string)
    (participants : list string) (confirmed_only : bool)
    : result (Itinerary * EntityExtractor) :=
  let '(items, self') := extract_all self confirmed_only in
  let dates := item_dates items in
  bind (match dates with [] => Ok (Date 2026 3 14) | _ :: _ => py_min dates end)
    (fun start_date =>
  bind (match dates with [] => Ok (Date 2026 3 28) | _ :: _ => py_max dates end)
    (fun end_date =>
  Ok (mkItinerary title "Thailand" participants (Some start_date) (Some end_date) items,
      self'))).

End Engine.

(** ** The groupings of [Itinerary] ([models.py])

    [models.py] annotates [start_date] as a string; the extractor stores
    [date] objects there, and the groupings only test the field for
    truthiness, use it as a dictionary key and order the keys, which they do
    alike on both.  The fields [title], [start_date] and [end_date] of
    [Itinerary] are [it_title], [it_start_date] and [it_end_date] here. *)

(** A dictionary whose order matters is the list of its entries in the
    order of insertion.  [grouped[k].append(x)], after [grouped[k] = []]
    when [k] is new. *)
Fixpoint group_append {K : Type} (eqb : K -> K -> bool) (k : K) (x : TravelItem)
    (grouped : list (K * list TravelItem)) : list (K * list TravelItem) :=
  match grouped with
  | [] => [(k, [x])]
  | (k', xs) :: grouped' =>
      if eqb k k' then (k', (xs ++ [x])%list) :: grouped'
      else (k', xs) :: group_append eqb k x grouped'
  end.

(** [sorted(grouped.items())]: the keys of a dictionary are distinct, so
    the pairs are ordered by their keys. *)
Fixpoint insert_entry (e : date * list TravelItem) (l : list (date * list TravelItem))
    : list (date * list TravelItem) :=
  match l with
  | [] => [e]
  | e' :: l' => if date_ltb (fst e) (fst e') then e :: l else e' :: insert_entry e l'
  end.

Definition sorted_entries (l : list (date * list TravelItem))
    : list (date * list TravelItem) :=
  fold_left (fun acc e => insert_entry e acc) l [].

Definition items_by_date (it : Itinerary) : list (date * list TravelItem) :=
  let grouped :=
    fold_left (fun grouped item =>
                 match start_date item with
                 | Some d => group_append date_eqb d item grouped
                 | None => grouped
                 end) (items it) [] in
  sorted_entries grouped.

Definition items_by_category (it : Itinerary) : list (ItemCategory * list TravelItem) :=
  fold_left (fun grouped item => group_append category_eqb (category item) item grouped)
            (items it) [].

(** ** A plain instance of the library

    The engine is run on examples with this instance: URLs without
    escapes, ISO dates written [YYYY-MM-DD], and the day-month-year phrases
    that [_extract_date_from_context] builds. *)

Module Plain.

Definition drop (n : nat) (s : string) : string :=
  String.substring n (String.length s - n) s.

Fixpoint take_until (p : ascii -> bool) (s : string) : string :=
  match s with
  | EmptyString => EmptyString
  | String c t => if p c then EmptyString else String c (take_until p t)
  end.

(** From the first character that satisfies [p] on. *)
Fixpoint from_first (p : ascii -> bool) (s : string) : string :=
  match s with
  | EmptyString => EmptyString
  | String c t => if p c then s else from_first p t
  end.

Fixpoint after_sub (sub s : string) : string :=
  if String.prefix sub s then drop (String.length sub) s
  else match s with
       | EmptyString => EmptyString
       | String _ t => after_sub sub t
       end.

Definition one_of (cs : string) (c : ascii) : bool :=
  PyStr.contains (String c EmptyString) cs.

Definition path_and_more (url : string) : string :=
  from_first (one_of "/?#") (after_sub "://" url).

Definition path (url : string) : string :=
  take_until (one_of "?#") (path_and_more url).

Definition query (url : string) : string :=
  take_until (one_of "#") (drop 1 (from_first (one_of "?#") (path_and_more url))).

Fixpoint split_acc (sep : ascii) (cur s : string) : list string :=
  match s with
  | EmptyString => [cur]
  | String c t =>
      if Ascii.eqb c sep then cur :: split_acc sep EmptyString t
      else split_acc sep (cur ++ String c EmptyString) t
  end.

Definition split (sep : ascii) (s : string) : list string := split_acc sep EmptyString s.

Definition add_field (m : gmap string (string * list string)) (field : string)
    : gmap string (string * list string) :=
  let name := take_until (one_of "=") field in
  let value := drop 1 (from_first (one_of "=") field) in
  if PyStr.falsy value then m
  else match m !! name with
       | Some (v, vs) => <[name := (v, (vs ++ [value])%list)]> m
       | None => <[name := (value, [])]> m
       end.

Definition qs (q : string) : gmap string (string * list string) :=
  fold_left add_field (split "&" q) ∅.

Definition number (s : string) : option N :=
  if PyStr.falsy s then None
  else option_map N.of_uint (NilEmpty.uint_of_string s).

Definition leap (y : N) : bool :=
  (N.eqb (y mod 4) 0 && negb (N.eqb (y mod 100) 0)) || N.eqb (y mod 400) 0.

Definition days_in_month (y m : N) : N :=
  if N.eqb m 2 then (if leap y then 29 else 28)
  else if N.eqb m 4 || N.eqb m 6 || N.eqb m 9 || N.eqb m 11 then 30 else 31.

(** [date(y, m, d)], [None] when it raises. *)
Definition make_date (y m d : option N) : option date :=
  match y, m, d with
  | Some y, Some m, Some d =>
      if valid_date (Date y m d) && N.leb d (days_in_month y m)
      then Some (Date y m d) else None
  | _, _, _ => None
  end.

Definition fromisoformat (s : string) : option date :=
  match split "-" s with
  | [y; m; d] =>
      if Nat.eqb (String.length y) 4 && Nat.eqb (String.length m) 2 &&
         Nat.eqb (String.length d) 2
      then make_date (number y) (number m) (number d) else None
  | _ => None
  end.

Definition month_table : list (string * N) :=
  [("jan", 1); ("feb", 2); ("mar", 3); ("apr", 4); ("may", 5); ("jun", 6);
   ("jul", 7); ("aug", 8); ("sep", 9); ("oct", 10); ("nov", 11); ("dec", 12)]%N.

Fixpoint month_number (table : list (string * N)) (name : string) : option N :=
  match table with
  | [] => None
  | (k, n) :: table' =>
      if String.eqb k (String.substring 0 3 (PyStr.lower name)) then Some n
      else month_number table' name
  end.

Definition parse_day_month_year (s : string) : option date :=
  match split " " s with
  | [d; m; y] => make_date (number y) (month_number month_table m) (number d)
  | _ => None
  end.

Definition make_date_valid (y m d : option N) (x : date)
  : make_date y m d = Some x -> valid_date x = true.
Proof.
  unfold make_date.
  destruct y as [y|]; [|discriminate].
  destruct m as [m|]; [|discriminate].
  destruct d as [d|]; [|discriminate].
  destruct (valid_date (Date y m d)) eqn:V; simpl; [|discriminate].
  destruct (N.leb d (days_in_month y m)); [|discriminate].
  intros H. injection H as <-. exact V.
Defined.

Definition fromisoformat_valid (s : string) (x : date)
  : fromisoformat s = Some x -> valid_date x = true.
Proof.
  unfold fromisoformat.
  destruct (split "-" s) as [|y [|m [|d [|? ?]]]]; try discriminate.
  destruct (_ && _); [|discriminate].
  apply make_date_valid.
Defined.

Definition parse_day_month_year_valid (s : string) (x : date)
  : parse_day_month_year s = Some x -> valid_date x = true.
Proof.
  unfold parse_day_month_year.
  destruct (split " " s) as [|d [|m [|y [|? ?]]]]; try discriminate.
  apply make_date_valid.
Defined.

Definition library : Library := {|
  urlparse_path := path;
  urlparse_query := query;
  parse_qs := qs;
  date_fromisoformat := fromisoformat;
  dateparser_parse := parse_day_month_year;
  date_fromisoformat_valid := fromisoformat_valid;
  dateparser_parse_valid := parse_day_month_year_valid
|}.

End Plain.

(** * Notions used by the statements *)

(** ** Groupings *)

Definition has_date (x : TravelItem) : bool := is_some (start_date x).

Definition dated_on (d : date) (x : TravelItem) : bool :=
  match start_date x with Some d' => date_eqb d d' | None => false end.

Definition in_category (c : ItemCategory) (x : TravelItem) : bool :=
  category_eqb c (category x).

(** The items of a grouping, group after group. *)
Definition flatten {K : Type} (g : list (K * list TravelItem)) : list TravelItem :=
  concat (List.map snd g).

(** The distinct elements of a list in the order of their first occurrence. *)
Fixpoint first_occurrences {K : Type} (eqb : K -> K -> bool) (l : list K) : list K :=
  match l with
  | [] => []
  | k :: l' => k :: List.filter (fun k' => negb (eqb k' k)) (first_occurrences eqb l')
  end.

(** The step of the two grouping loops of [Itinerary]: [key] is [None] for
    an item the loop leaves out. *)
Definition group_step {K : Type} (eqb : K -> K -> bool) (key : TravelItem -> option K)
    (grouped : list (K * list TravelItem)) (item : TravelItem)
    : list (K * list TravelItem) :=
  match key item with
  | Some k => group_append eqb k item grouped
  | None => grouped
  end.

Definition keyed {K : Type} (eqb : K -> K -> bool) (key : TravelItem -> option K)
    (k : K) (x : TravelItem) : bool :=
  match key x with Some k' => eqb k k' | None => false end.

(** A grouping as the specification words it: the keys in the order of
    their first occurrence, each with the items of that key in the order
    of the list. *)
Definition grouping {K : Type} (eqb : K -> K -> bool) (key : TravelItem -> option K)
    (l : list TravelItem) : list (K * list TravelItem) :=
  List.map (fun k => (k, List.filter (keyed eqb key k) l))
           (first_occurrences eqb (omap key l)).

(** ** The order of the sort *)

Definition date_lt (a b : date) : Prop := date_ltb a b = true.
Definition date_le (a b : date) : Prop := date_leb a b = true.

(** The order of the sort of [extract_all]. *)
Definition key_le (x y : TravelItem) : Prop := date_le (sort_key x) (sort_key y).

Definition valid_start (it : TravelItem) : Prop :=
  match start_date it with Some d => valid_date d = true | None => True end.

(** Undated items last, to the letter: no item without a start date
    comes before an item with one. *)
Definition undated_last (l : list TravelItem) : Prop :=
  forall i j x y,
    l !! i = Some x -> l !! j = Some y ->
    start_date x = None -> start_date y <> None -> j < i.

(** The items that [extract_all] sorts: those of the detectors, after the
    filter and the location pass in the confirmed-only mode. *)
Definition kept_items (confirmed_only : bool) (made : list TravelItem) : list TravelItem :=
  if confirmed_only then _dedupe_by_location (List.filter is_confirmed made) else made.

(** An item without a start date. *)
Definition without_date (item : TravelItem) : bool :=
  match start_date item with None => true | Some _ => false end.

(** ** The location pass *)

Definition is_hotel (x : TravelItem) : bool := category_eqb (category x) HOTEL.

(** A hotel that [_dedupe_by_location] assigns to the location [loc]. *)
Definition hotel_at (loc : string) (x : TravelItem) : bool :=
  is_hotel x &&
  match location_of x with Some l => String.eqb l loc | None => false end.

(** A hotel whose title contains no keyword of the table. *)
Definition hotel_nowhere (x : TravelItem) : bool :=
  is_hotel x && negb (is_some (location_of x)).

(** ** Detector loops *)

(** A loop body that leaves the list of items as it is or appends one item
    that satisfies [P], numbered by the counter, on an extractor whose
    messages are [msgs]. *)
Definition appends_one (P : nat -> Message -> TravelItem -> Prop)
    (body : nat -> Message -> detector -> detector) (msgs : list Message) : Prop :=
  forall i msg st,
    messages (self_ st) = msgs ->
    messages (self_ (body i msg st)) = msgs /\
    ((found_items (body i msg st) = found_items st /\
      item_counter (self_ (body i msg st)) = item_counter (self_ st)) \/
     (exists it,
        found_items (body i msg st) = (found_items st ++ [it])%list /\
        item_counter (self_ (body i msg st)) = S (item_counter (self_ st)) /\
        id it = "item-" ++ PyStr.of_nat (S (item_counter (self_ st))) /\
        P i msg it)).

(** The items [new] were made, in this order, from messages of [msgs] at
    strictly increasing indices, each as [P] says. *)
Definition made_from (P : nat -> Message -> TravelItem -> Prop) (msgs : list Message)
    (new : list TravelItem) : Prop :=
  exists idx,
    StronglySorted lt idx /\
    Forall2 (fun i it => exists msg, msgs !! i = Some msg /\ P i msg it) idx new.

(** The ids that a run starting at counter [c] gives to [n] items. *)
Definition ids_from (c n : nat) : list string :=
  List.map (fun k => "item-" ++ PyStr.of_nat k) (seq (S c) n).

(** An item without its id. *)
Definition erase_id (x : TravelItem) : TravelItem :=
  mkTravelItem EmptyString (category x) (status x) (title x) (start_date x)
    (end_date x) (proposed_by x) (details x) (booking_links x) (source_messages x).

(** Two states of a detector loop that differ at most in the ids of the
    items and in the counter. *)
Definition same_content (st st' : detector) : Prop :=
  List.map erase_id (found_items st) = List.map erase_id (found_items st') /\
  seen st = seen st' /\
  messages (self_ st) = messages (self_ st').

(** Two items built with different ids have the same content. *)
Ltac erased :=
  unfold erase_id;
  cbn [category status title start_date end_date proposed_by details
       booking_links source_messages];
  reflexivity.

(** ** What the detectors make *)

(** The key under which [_extract_hotels] remembers a hotel name. *)
Definition hotel_key (name : string) : string := PyStr.strip (PyStr.lower name).

(** The items whose title has the key [k]. *)
Definition keyed_as (k : string) (x : TravelItem) : bool :=
  String.eqb (hotel_key (title x)) k.

(** The title [_extract_flights] gives to a flight. *)
Definition flight_title (airline_name : string) (route : option string) : string :=
  if truthy route then airline_name ++ " " ++ default "" route
  else airline_name ++ " Flight".

(** The airline of the first pattern of the table that matches a text. *)
Definition first_airline (text : string) : option string :=
  match List.filter (fun p => found (pattern_search (fst p) text)) AIRLINE_PATTERNS with
  | (_, name) :: _ => Some name
  | [] => None
  end.


(** The [details] of a transfer with the time [t]. *)
Definition time_details (t : option string) : list (string * string) :=
  match t with
  | Some t => if PyStr.falsy t then [] else [("time", t)]
  | None => []
  end.

(** The route of a text as the table of islands orders it: the islands of
    the table found in the text, normalized, without repetition. *)
Definition route_in_table_order (content_lower : string) : list string :=
  first_occurrences String.eqb
    (List.map (PyStr.replace "Koh " "")
       (List.filter (fun island => PyStr.contains (PyStr.lower island) content_lower)
                    islands)).

Section EngineNotions.

Context {L : Library}.

(** The hotel that the message [msg] at index [i] names, if any. *)
Definition named_hotel (self : EntityExtractor) (i : nat) (msg : Message)
    : option string :=
  match hotel_name (hotel_scan self i msg) with
  | Some name => if PyStr.falsy name then None else Some name
  | None => None
  end.

(** The message at index [j] names a hotel whose key is [k]. *)
Definition mentions (self : EntityExtractor) (k : string) (j : nat) : Prop :=
  exists msg name,
    messages self !! j = Some msg /\
    named_hotel self j msg = Some name /\
    hotel_key name = k.

(** The date [_extract_flights] finds for the message [msg] at index [i]. *)
Definition flight_date_of (self : EntityExtractor) (i : nat) (msg : Message)
    : option date :=
  or_date (_extract_date_from_booking_url_in_text (content msg))
          (_extract_date_from_context self i 5).

(** The dedup key of [_extract_flights] for an airline and the message
    [msg] at index [i]. *)
Definition flight_key (self : EntityExtractor) (i : nat) (msg : Message)
    (airline_name : string) : string :=
  airline_name ++ "-" ++
  (if truthy (_identify_route (content msg))
   then default "" (_identify_route (content msg)) else "unknown") ++ "-" ++
  date_or_nodate (flight_date_of self i msg).

(** [it] is a hotel item made from the message [msg] at index [i]. *)
Definition hotel_made (self : EntityExtractor) (i : nat) (msg : Message)
    (it : TravelItem) : Prop :=
  category it = HOTEL /\
  source_messages it = [msg] /\
  proposed_by it = sender msg /\
  named_hotel self i msg = Some (title it) /\
  status it = _check_confirmation self i 8 /\
  start_date it = check_in (hotel_scan self i msg) /\
  end_date it = check_out (hotel_scan self i msg).

(** [it] is a flight item made from the message [msg] at index [i]. *)
Definition flight_made (self : EntityExtractor) (i : nat) (msg : Message)
    (it : TravelItem) : Prop :=
  category it = FLIGHT /\
  source_messages it = [msg] /\
  proposed_by it = sender msg /\
  has_flight_context (PyStr.lower (content msg)) = true /\
  (exists pat airline_name,
     In (pat, airline_name) AIRLINE_PATTERNS /\
     found (pattern_search pat (content msg)) = true /\
     title it = flight_title airline_name (_identify_route (content msg))) /\
  status it = _check_confirmation self i 8 /\
  start_date it = flight_date_of self i msg /\
  end_date it = None /\
  (status it = CONFIRMED \/ is_some (start_date it) = true).

(** [it] is a transfer item made from the message [msg] at index [i]. *)
Definition transfer_made (self : EntityExtractor) (i : nat) (msg : Message)
    (it : TravelItem) : Prop :=
  category it = TRANSFER /\
  source_messages it = [msg] /\
  proposed_by it = sender msg /\
  (exists keyword,
     In keyword TRANSFER_KEYWORDS /\
     PyStr.contains keyword (PyStr.lower (content msg)) = true /\
     title it = transfer_title keyword (find_route_parts (PyStr.lower (content msg)))) /\
  details it = time_details (find_time (content msg)) /\
  status it = _check_confirmation self i 8 /\
  start_date it = _extract_date_from_context self i 5 /\
  end_date it = None /\
  (status it = CONFIRMED \/
   find_route_parts (PyStr.lower (content msg)) <> [] \/
   find_time (content msg) <> None).

(** The state of the loop of [_extract_hotels] before the message at index
    [i]: the set holds the keys mentioned so far, and each of them has one
    item, made from the first message that mentions it. *)
Definition hotels_inv (self : EntityExtractor) (i : nat) (st : detector) : Prop :=
  messages (self_ st) = messages self /\
  (forall k, k ∈ seen st <-> exists j, j < i /\ mentions self k j) /\
  (forall it, In it (found_items st) -> hotel_key (title it) ∈ seen st) /\
  (forall k, k ∈ seen st ->
     exists it j msg,
       List.filter (keyed_as k) (found_items st) = [it] /\
       messages self !! j = Some msg /\
       hotel_made self j msg it /\
       hotel_key (title it) = k /\
       j < i /\
       forall j', j' < j -> ~ mentions self k j').

End EngineNotions.

(** ** The day of the run *)

Section MoreNotions.

Context {L : Library}.

(** The date that a message gives on its own: the first date phrase of its
    text, if the parser accepts it. *)
Definition message_date (msg : Message) : option date :=
  match pattern_search DATE_PATTERN (content msg) with
  | Some m => date_of_match m
  | None => None
  end.

End MoreNotions.

(** [_extract_date_from_context] calls [dateparser.parse(date_str)] with
    the default settings, and no other place of the repository gives
    [dateparser] a date of reference: what the date string leaves out is
    then taken from the current date.  [Library] is the library within one
    run; a [Calendar] is the library from one run to the next: the
    functions of the standard library, which never look at the clock, and
    [dateparser.parse] on the day of the run. *)
Class Calendar : Type := {
  calendar_urlparse_path : string -> string;
  calendar_urlparse_query : string -> string;
  calendar_parse_qs : string -> gmap string (string * list string);
  calendar_fromisoformat : string -> option date;
  dateparser_parse_on : date -> string -> option date;
  calendar_fromisoformat_valid :
    forall s d, calendar_fromisoformat s = Some d -> valid_date d = true;
  dateparser_parse_on_valid :
    forall today s d, dateparser_parse_on today s = Some d -> valid_date d = true
}.

(** The library of a run that takes place on the day [today]. *)
Definition library_on {C : Calendar} (today : date) : Library := {|
  urlparse_path := calendar_urlparse_path;
  urlparse_query := calendar_urlparse_query;
  parse_qs := calendar_parse_qs;
  date_fromisoformat := calendar_fromisoformat;
  dateparser_parse := dateparser_parse_on today;
  date_fromisoformat_valid := calendar_fromisoformat_valid;
  dateparser_parse_valid := dateparser_parse_on_valid today
|}.

(** The plain instance from day to day.  The pattern of the extractor
    takes one or two digits for the day: out of "1500 March" it takes 00,
    and the date string is "00 March 2026".  No month has a day 0, so the
    string gives a month and a year only, and the day of the month is that
    of the day of the run ([PREFER_DAY_OF_MONTH] is ['current'] by
    default). *)
Definition day_or_today (today : date) (d : option N) : option N :=
  match d with
  | Some 0%N => Some (day today)
  | _ => d
  end.

Definition parse_day_month_year_on (today : date) (s : string) : option date :=
  match Plain.split " " s with
  | [d; m; y] =>
      Plain.make_date (Plain.number y) (Plain.month_number Plain.month_table m)
                      (day_or_today today (Plain.number d))
  | _ => None
  end.

Definition parse_day_month_year_on_valid (today : date) (s : string) (x : date)
  : parse_day_month_year_on today s = Some x -> valid_date x = true.
Proof.
  unfold parse_day_month_year_on.
  destruct (Plain.split " " s) as [|d [|m [|y [|? ?]]]]; try discriminate.
  apply Plain.make_date_valid.
Defined.

Definition plain_calendar : Calendar := {|
  calendar_urlparse_path := Plain.path;
  calendar_urlparse_query := Plain.query;
  calendar_parse_qs := Plain.qs;
  calendar_fromisoformat := Plain.fromisoformat;
  dateparser_parse_on := parse_day_month_year_on;
  calendar_fromisoformat_valid := Plain.fromisoformat_valid;
  dateparser_parse_on_valid := parse_day_month_year_on_valid
|}.

(** ** The inputs of the examples *)

(** A message from Ann. *)
Definition said (text : string) : Message := mkMessage 0 "Ann" text false.

(** A confirmed hotel item with the given title and start date. *)
Definition hotel_item (n : nat) (name : string) (d : option date) : TravelItem :=
  mkTravelItem ("item-" ++ PyStr.of_nat n) HOTEL CONFIRMED name d None "Ann" [] [] [].

Definition itinerary_of (l : list TravelItem) : Itinerary :=
  mkItinerary "Trip" "Thailand" [] None None l.


(** The items of the sort example: two dated hotels and an undated one. *)
Definition on_14th : TravelItem := hotel_item 1 "Alpha" (Some (Date 2026 3 14)).
Definition on_20th : TravelItem := hotel_item 2 "Beta" (Some (Date 2026 3 20)).
Definition undated : TravelItem := hotel_item 3 "Gamma" None.

(** The example for the transfer gate: a tentative ferry with a route and
    no date, and the item the transfer detector makes of it. *)
Definition ferry_messages : list Message := [said "ferry to Koh Lipe"].

Definition ferry_item : TravelItem :=
  mkTravelItem "item-1" TRANSFER TENTATIVE "Ferry to Lipe" None None "Ann" [] []
    [said "ferry to Koh Lipe"].

(** The two messages of the route example. *)
Definition ferry_lipe_lanta : list Message := [said "ferry from Koh Lipe to Koh Lanta"].
Definition ferry_lanta_lipe : list Message := [said "ferry from Koh Lanta to Koh Lipe"].



(** The example for the key registered before the gate: a tentative,
    undated mention, seven other messages, and a confirmed mention of the
    same airline and route. *)
Definition tentative_then_confirmed : list Message :=
  [said "Etihad flight"; said "ok"; said "ok"; said "ok"; said "ok"; said "ok";
   said "ok"; said "ok"; said "Etihad flight booked"].

Definition confirmed_alone : list Message := [said "Etihad flight booked"].

Definition confirmed_alone_item : TravelItem :=
  mkTravelItem "item-1" FLIGHT CONFIRMED "Etihad Flight" None None "Ann" [] []
    [said "Etihad flight booked"].

(** The two messages of the hotel example. *)
Definition reef_messages : list Message :=
  [said "Check out The Reef on Booking.com"; said "check out the reef  on booking.com"].

(** A hotel without a date and, out of reach of its window, a ferry on the
    last day a [date] can hold; the two items made of them. *)
Definition last_day_messages : list Message :=
  [said "Check out Gamma on Booking.com"; said "ok"; said "ok"; said "ok"; said "ok";
   said "ferry to Koh Lipe 31 December 9999"].

Definition gamma_item : TravelItem :=
  mkTravelItem "item-1" HOTEL TENTATIVE "Gamma" None None "Ann" [] []
    [said "Check out Gamma on Booking.com"].

Definition last_day_ferry : TravelItem :=
  mkTravelItem "item-2" TRANSFER TENTATIVE "Ferry to Lipe" (Some (Date 9999 12 31)) None
    "Ann" [] [] [said "ferry to Koh Lipe 31 December 9999"].

(** A conversation whose items are made in another order than that of
    their dates: a hotel without a date, a flight on the 20th and a ferry on
    the 14th, each out of reach of the windows of the others. *)
Definition sorted_messages : list Message :=
  [said "Check out Gamma on Booking.com"; said "ok"; said "ok"; said "ok"; said "ok";
   said "Etihad flight on 20 March 2026";
   said "ok"; said "ok"; said "ok"; said "ok"; said "ok";
   said "ferry to Koh Lipe on 14 March 2026"].

(** A price next to the name of a month, and the item made of it on a run
    of the day [d] of a month; a date written out. *)
Definition price_messages : list Message := [said "ferry to Koh Lipe 1500 March"].

Definition ferry_on (d : N) : TravelItem :=
  mkTravelItem "item-1" TRANSFER TENTATIVE "Ferry to Lipe" (Some (Date 2026 3 d)) None
    "Ann" [] [] [said "ferry to Koh Lipe 1500 March"].

Definition dated_messages : list Message :=
  [said "Check out Gamma on Booking.com"; said "ferry to Koh Lipe on 14 March"].

(** * Notions of the further properties *)

(** The message an item was made from: its only source message, whose
    sender proposed it. *)
Definition sourced_from (msg : Message) (it : TravelItem) : Prop :=
  source_messages it = [msg] /\ proposed_by it = sender msg.

(** What the detectors put into an item besides its title, dates and
    status: a hotel has no details and at most one booking link; a flight or
    a transfer has no end date, no booking link and at most one detail, the
    cost of the flight or the time of the transfer; no item is an activity. *)
Definition well_shaped (it : TravelItem) : Prop :=
  match category it with
  | HOTEL => details it = [] /\ length (booking_links it) <= 1
  | FLIGHT =>
      end_date it = None /\ booking_links it = [] /\
      (details it = [] \/ exists c, details it = [("cost", "£" ++ c)])
  | TRANSFER =>
      end_date it = None /\ booking_links it = [] /\
      (details it = [] \/ exists t, details it = [("time", t)])
  | ACTIVITY => False
  end.

(** The text names the airport [code] ([code.upper() in content_upper]). *)
Definition names_airport (text code : string) : bool :=
  PyStr.contains (PyStr.upper code) (PyStr.upper text).

Section ScanNotions.

Context {L : Library}.

(** The booking.com URLs of a message, in the order of the text. *)
Definition booking_urls (msg : Message) : list string :=
  List.map Re.whole (pattern_findall BOOKING_URL_PATTERN (content msg)).

(** The hotel that the phrase "Check out ... on Booking.com" names. *)
Definition phrase_hotel (msg : Message) : option string :=
  match pattern_search checkout_pattern (content msg) with
  | Some m => option_map PyStr.strip (Re.group 1 m)
  | None => None
  end.

(** The URL carries a check-in date. *)
Definition has_check_in (url : string) : bool :=
  is_some (fst (_extract_dates_from_booking_url url)).

(** The URL names a hotel. *)
Definition names_hotel (url : string) : bool :=
  truthy (_extract_hotel_name_from_url url).

End ScanNotions.

(** The dedup key of [_extract_flights] for an airline, a route and a date. *)
Definition flight_key_of (airline_name : string) (route : option string)
    (flight_date : option date) : string :=
  airline_name ++ "-" ++
  (if truthy route then default "" route else "unknown") ++ "-" ++
  date_or_nodate flight_date.

(** The state of the loop of [_extract_flights]: the flights found differ
    in title or date, and each is titled after an airline of the table and
    a route of [_identify_route] whose key, with its date, is in the set. *)
Definition flights_inv (st : detector) : Prop :=
  List.NoDup (List.map (fun it => (title it, start_date it)) (found_items st)) /\
  Forall (fun it => exists airline_name text,
            In airline_name (List.map snd AIRLINE_PATTERNS) /\
            title it = flight_title airline_name (_identify_route text) /\
            flight_key_of airline_name (_identify_route text) (start_date it) ∈ seen st)
         (found_items st).

(** * The parser of the chat export ([parser.py])

    [_read_content] reads the file or the archive; the parser is modelled
    from the text on.  [datetime.strptime(s, "%d/%m/%Y %H:%M:%S")] is a
    library function: it is the parameter [strptime] of [_parse_message],
    [None] for a [ValueError], the instant as a number otherwise.  As in
    the extractor, [\d] and [strip] are the ASCII ones. *)

Definition newline : string := String "010"%char EmptyString.

(** [content.split("\n")] *)
Definition split_lines (content : string) : list string := Plain.split "010"%char content.

(** [pattern.match(s)]: the match at the start of [s]. *)
Definition pattern_match (p : pattern) (s : string) : option Re.rmatch :=
  Re.match_at (ignorecase p) (re p) (Re.Cursor None s []).

Definition any_char (c : ascii) : bool := true.

(** [\d{2}/\d{2}/\d{4}] and [\d{2}:\d{2}:\d{2}] *)
Definition date_stamp : regex :=
  RSeqs [digits 2 2; RLit "/"; digits 2 2; RLit "/"; digits 4 4].

Definition time_stamp : regex :=
  RSeqs [digits 2 2; RLit ":"; digits 2 2; RLit ":"; digits 2 2].

(** [$] without [re.MULTILINE]: the end of the text, or the newline that
    ends it. *)
Definition at_end : regex :=
  RAlt (RNotAhead (RSet any_char))
       (RNotAhead (RNotAhead (RSeq (RLit "010") (RNotAhead (RSet any_char))))).

(** [^\[\d{2}/\d{2}/\d{4}, \d{2}:\d{2}:\d{2}\]], used with [re.match]. *)
Definition HEADER_PATTERN : pattern :=
  compile (RSeqs [RLit "["; date_stamp; RStr ", "; time_stamp; RLit "]"]) false.

(** [^\[(\d{2}/\d{2}/\d{4}), (\d{2}:\d{2}:\d{2})\] ([^:]+): (.+)$] with
    [re.DOTALL], under which [.] is any character. *)
Definition MESSAGE_PATTERN : pattern :=
  compile (RSeqs [RLit "["; RGroup 1 date_stamp; RStr ", "; RGroup 2 time_stamp;
                  RStr "] "; RGroup 3 (RRep true 1 None (not_in ":")); RStr ": ";
                  RGroup 4 (RRep true 1 None any_char); at_end]) false.

Definition SYSTEM_INDICATORS : list string :=
  ["Messages and calls are end-to-end encrypted"; "created group"; "added you";
   "changed the group"; "pinned a message"; "image omitted"; "video omitted";
   "document omitted"; "GIF omitted"; "Voice call"; "Waiting for this message";
   "This message was deleted"; "POLL:"; "sticker omitted"; "audio omitted"].

(** The line starts a new message. *)
Definition is_header (line : string) : bool :=
  found (pattern_match HEADER_PATTERN line).

(** The body of the loop of [_split_messages], on the pair of [messages]
    and [current_message]. *)
Definition split_step (st : list string * list string) (line : string)
    : list string * list string :=
  let '(messages, current_message) := st in
  if is_header line then
    (match current_message with
     | [] => messages
     | _ :: _ => (messages ++ [PyStr.join newline current_message])%list
     end, [line])
  else
    (messages,
     match current_message with
     | [] => current_message
     | _ :: _ => (current_message ++ [line])%list
     end).

Definition _split_messages (content : string) : list string :=
  let '(messages, current_message) :=
    fold_left split_step (split_lines content) ([], []) in
  match current_message with
  | [] => messages
  | _ :: _ => (messages ++ [PyStr.join newline current_message])%list
  end.

(** U+200E, the left-to-right mark, in UTF-8. *)
Definition left_to_right_mark : string :=
  String (ascii_of_nat 226) (String (ascii_of_nat 128)
    (String (ascii_of_nat 142) EmptyString)).

Section Parser.

Variable strptime : string -> option nat.

(** The four groups of [MESSAGE_PATTERN] take part in every match, so
    [match.groups()] holds four strings. *)
Definition _parse_message (raw : string) : option Message :=
  let raw := PyStr.replace left_to_right_mark "" raw in
  match pattern_match MESSAGE_PATTERN raw with
  | None => None
  | Some m =>
      match Re.group 1 m, Re.group 2 m, Re.group 3 m, Re.group 4 m with
      | Some date_str, Some time_str, Some sender, Some content =>
          match strptime (date_str ++ " " ++ time_str) with
          | None => None
          | Some timestamp =>
              let is_system :=
                existsb (fun indicator => PyStr.contains indicator content)
                        SYSTEM_INDICATORS in
              Some (mkMessage timestamp (PyStr.strip sender) (PyStr.strip content)
                      is_system)
          end
      | _, _, _, _ => None
      end
  end.

(** [parse], from the text that [_read_content] returns: a [Message]
    object is truthy, so every parsed message is kept. *)
Definition parse (content : string) : list Message :=
  omap _parse_message (_split_messages content).

End Parser.

(** [system_senders] *)
Definition system_senders : gset string := {["Birkencrocs Crew"]}.

(** The body of the loop of [get_participants]. *)
Definition participants_step (participants : gset string) (msg : Message) : gset string :=
  if negb (is_system msg) && negb (bool_decide (sender msg ∈ system_senders))
  then {[sender msg]} ∪ participants
  else participants.

(** [sorted(participants)]: the elements of the set in the order of the
    strings; the order in which the set yields them plays no part. *)
Definition get_participants (messages : list Message) : list string :=
  PyStr.sorted (elements (fold_left participants_step messages ∅)).

(** A message of the export as lines: a line that starts a message,
    followed by lines that do not. *)
Definition is_chunk (ch : list string) : Prop :=
  exists h cont,
    ch = h :: cont /\ is_header h = true /\ Forall (fun l => is_header l = false) cont.

(** The order of [str]. *)
Definition string_lt (a b : string) : Prop := String.ltb a b = true.

(** ** Notions of the parser *)

(** A text of fixed width, given by the class of each of its characters. *)
Definition shape : Type := list (ascii -> bool).

(** The position after a prefix of the shape [sh], if the text at [k]
    starts with one. *)
Fixpoint walk (sh : shape) (k : cursor) : option cursor :=
  match sh with
  | [] => Some k
  | p :: sh' =>
      match rest k with
      | String c t => if p c then walk sh' (Cursor (Some c) t (caps k)) else None
      | EmptyString => None
      end
  end.

(** What follows a prefix of the shape [sh] in the text [s], if [s]
    starts with one. *)
Fixpoint fit (sh : shape) (s : string) : option string :=
  match sh with
  | [] => Some s
  | p :: sh' =>
      match s with
      | String c t => if p c then fit sh' t else None
      | EmptyString => None
      end
  end.

(** The whole text [s] has the shape [sh]. *)
Definition has_shape (sh : shape) (s : string) : bool :=
  match fit sh s with
  | Some t => PyStr.falsy t
  | None => false
  end.

(** The shape of a regular expression made of literals and of classes
    repeated a fixed number of times. *)
Fixpoint shape_of (r : regex) : option shape :=
  match r with
  | REps => Some []
  | RLit c => Some [Ascii.eqb c]
  | RSet p => Some [p]
  | RSeq r1 r2 =>
      match shape_of r1, shape_of r2 with
      | Some a, Some b => Some (a ++ b)%list
      | _, _ => None
      end
  | RRep _ lo (Some hi) p => if Nat.eqb lo hi then Some (repeat p lo) else None
  | _ => None
  end.

Definition digit : ascii -> bool := PyStr.is_digit.
Definition just (c : ascii) : ascii -> bool := Ascii.eqb c.

(** [DD/MM/YYYY] and [HH:MM:SS] as shapes. *)
Definition date_shape : shape :=
  [digit; digit; just "/"; digit; digit; just "/"; digit; digit; digit; digit].

Definition time_shape : shape :=
  [digit; digit; just ":"; digit; digit; just ":"; digit; digit].

(** [[DD/MM/YYYY, HH:MM:SS]] *)
Definition header_shape : shape :=
  ([just "["] ++ date_shape ++ [just ","; just " "] ++ time_shape ++ [just "]"])%list.

(** The longest prefix of [s] whose characters are in the class [p], and
    what follows it. *)
Fixpoint span (p : ascii -> bool) (s : string) : string * string :=
  match s with
  | String c t =>
      if p c then (String c (fst (span p t)), snd (span p t)) else (EmptyString, s)
  | EmptyString => (EmptyString, EmptyString)
  end.

(** The position [k'] with the group [n] recorded from [k] on. *)
Definition with_group (n : nat) (k k' : cursor) : cursor :=
  Cursor (prev k') (rest k') ((n, consumed k k') :: caps k').

Definition one {A : Type} (o : option A) : list A :=
  match o with Some a => [a] | None => [] end.

(** The match of [MESSAGE_PATTERN] at the start of [s], read off the text:
    the stamps have their shapes, the sender is the longest text without a
    colon, followed by a colon, a blank and the content. *)
Definition message_groups (s : string) : option (list (nat * string)) :=
  match fit [just "["] s with
  | Some s1 =>
      match fit date_shape s1 with
      | Some s2 =>
          match fit [just ","; just " "] s2 with
          | Some s3 =>
              match fit time_shape s3 with
              | Some s4 =>
                  match fit [just "]"; just " "] s4 with
                  | Some s5 =>
                      let sender := fst (span (not_in ":") s5) in
                      if PyStr.falsy sender then None
                      else
                        match fit [just ":"; just " "] (snd (span (not_in ":") s5)) with
                        | Some content =>
                            if PyStr.falsy content then None
                            else Some [(4, content); (3, sender);
                                       (2, String.substring 0 8 s3);
                                       (1, String.substring 0 10 s1)]
                        | None => None
                        end
                  | None => None
                  end
              | None => None
              end
          | None => None
          end
      | None => None
      end
  | None => None
  end.

(** A step of a fixed shape in the match of a pattern: [W] relates [walk]
    and [fit] at the position [k]; the match goes on from [k'] or fails. *)
Ltac stage W sh k k' Ef Hc :=
  let H := fresh "H" in
  let Ew := fresh "Ew" in
  let s' := fresh "s" in
  let Hr := fresh "Hr" in
  pose proof (W sh k) as H;
  destruct (walk sh k) as [k'|] eqn:Ew;
  destruct (fit sh (rest k)) as [s'|] eqn:Ef;
  try contradiction; [destruct H as [Hr Hc]; subst s'|reflexivity].

(** ** The inputs of the further examples *)

(** The hotel item of [reef_messages]. *)
Definition reef_item : TravelItem :=
  mkTravelItem "item-1" HOTEL TENTATIVE "The Reef" None None "Ann" [] []
    [said "Check out The Reef on Booking.com"].

(** A chat of two messages, the first over two lines. *)
Definition two_message_chat : string :=
  "[12/03/2026, 10:45:00] Ann: ferry at 10.45" ++ newline ++ "from Koh Lipe" ++
  newline ++ "[12/03/2026, 10:46:00] Bob : image omitted".

(** A sample [strptime] for the examples: the minute of the day of a
    stamp [DD/MM/YYYY HH:MM:SS], [None] when the hour or the minute is out
    of range. *)
Definition minute_of_day (s : string) : option nat :=
  match list_ascii_of_string (String.substring 11 5 s) with
  | [h1; h2; _; m1; m2] =>
      let h := 10 * (PyStr.code h1 - 48) + (PyStr.code h2 - 48) in
      let m := 10 * (PyStr.code m1 - 48) + (PyStr.code m2 - 48) in
      if Nat.ltb h 24 && Nat.ltb m 60 then Some (60 * h + m) else None
  | _ => None
  end.

(** * Properties *)

(** ** The embedding on examples *)

Example lower_example : PyStr.lower "Check OUT" = "check out".
Proof. reflexivity. Qed.

Example title_example :
  PyStr.title "longtail boat" = "Longtail Boat" /\
  PyStr.title "3rd o'neil" = "3Rd O'Neil" /\
  PyStr.title (PyStr.replace "-" " " "the-reef-lipe") = "The Reef Lipe".
Proof. repeat split. Qed.

Example strip_example : PyStr.strip "  the reef  " = "the reef".
Proof. reflexivity. Qed.

Example replace_example :
  PyStr.replace "Koh " "" "Koh Lipe" = "Lipe" /\
  PyStr.replace "-" " " "a-b--c" = "a b  c".
Proof. repeat split. Qed.

Example sorted_example :
  PyStr.sorted ["Lipe"; "Lanta"; "Kradan"; "lipe"] = ["Kradan"; "Lanta"; "Lipe"; "lipe"].
Proof. reflexivity. Qed.

Example isoformat_example : isoformat (Date 2026 3 14) = "2026-03-14".
Proof. reflexivity. Qed.

Example date_pattern_example :
  pattern_search DATE_PATTERN "leaving on the 14th March 2026 ok" =
    Some (Re.Match "14th March 2026" [(3, "2026"); (2, "March"); (1, "14")]) /\
  pattern_search DATE_PATTERN "on 3 mar" = Some (Re.Match "3 mar" [(2, "mar"); (1, "3")]) /\
  option_map Re.whole (pattern_search DATE_PATTERN "123 marchbanks 20261") = Some "23 march" /\
  pattern_search DATE_PATTERN "in march" = None.
Proof. repeat split. Qed.

Example cost_pattern_example :
  List.map (Re.group 1) (pattern_findall COST_PATTERN "it is £450pp or £12.50 each, £12345") =
  [Some "450"; Some "12.50"; Some "1234"].
Proof. reflexivity. Qed.

Example booking_url_example :
  List.map Re.whole
    (pattern_findall BOOKING_URL_PATTERN
       "see https://www.booking.com/hotel/th/a-b.html?checkin=2026-03-14 and HTTP://Booking.com/x") =
  ["https://www.booking.com/hotel/th/a-b.html?checkin=2026-03-14"; "HTTP://Booking.com/x"].
Proof. reflexivity. Qed.

Example confirmation_example :
  List.map (fun p => found (pattern_search p "that is all Booked!")) CONFIRMATION_PATTERNS =
    [true; false; true; false; false; false; false] /\
  List.map (fun p => found (pattern_search p "booked!x")) CONFIRMATION_PATTERNS =
    [true; false; false; false; false; false; false] /\
  confirms (said "prebooked, unsorted") = false.
Proof. repeat split. Qed.

Example airline_example :
  first_airline "the Qatar resort and air  asia thing, etihads" = Some "Air Asia" /\
  first_airline "Qatar  Hotel" = None /\
  first_airline "qatarflight" = None /\
  first_airline "fly Qatar" = Some "Qatar".
Proof. repeat split. Qed.

Example checkout_example :
  pattern_search checkout_pattern "hey check out The Reef on Lipe on booking.com now" =
    Some (Re.Match "check out The Reef on Lipe on booking.com" [(1, "The Reef on Lipe")]) /\
  option_map (Re.group 1) (pattern_search checkout_pattern "Check out   on Booking.com") =
    Some (Some " ").
Proof. repeat split. Qed.

Example hotel_path_example :
  option_map (Re.group 1)
    (pattern_search hotel_path_pattern "/hotel/th/the-reef-lipe.en-gb.html") =
  Some (Some "the-reef-lipe").
Proof. reflexivity. Qed.

Example time_example :
  find_time "ferry at 110.456 or 9:30" = Some "10:45" /\ find_time "at ten" = None.
Proof. repeat split. Qed.

(** A conversation with a booking link, a flight and a ferry, run with the
    plain library. *)
Example conversation_example :
  List.map (fun it => (id it, category it, status it, title it, start_date it))
    (fst (extract_all (L := Plain.library)
            (__init__
               [said "https://www.booking.com/hotel/th/the-reef-lipe.html?checkin=2026-03-20&checkout=2026-03-22";
                mkMessage 1 "Bob" "booked" false;
                mkMessage 2 "System" "image omitted" true;
                said "Etihad flight LHR to BKK on 14th March for £450pp";
                said "ferry to Koh Lanta";
                said "Check out Alpha on Booking.com"]) true)) =
  [("item-2", HOTEL, CONFIRMED, "Alpha", Some (Date 2026 3 14));
   ("item-3", FLIGHT, CONFIRMED, "Etihad LHR → BKK", Some (Date 2026 3 14));
   ("item-4", TRANSFER, CONFIRMED, "Ferry to Lanta", Some (Date 2026 3 14));
   ("item-1", HOTEL, CONFIRMED, "The Reef Lipe", Some (Date 2026 3 20))].
Proof. vm_compute. reflexivity. Qed.

(** ** The order on dates *)

Lemma date_ltb_iff (a b : date) :
  date_ltb a b = true <->
  (year a < year b \/
   (year a = year b /\ (month a < month b \/ (month a = month b /\ day a < day b))))%N.
Proof.
  unfold date_ltb.
  rewrite !orb_true_iff, !andb_true_iff, !orb_true_iff, !andb_true_iff,
    !N.ltb_lt, !N.eqb_eq.
  reflexivity.
Qed.

Lemma date_leb_iff (a b : date) : date_leb a b = true <-> ~ date_ltb b a = true.
Proof.
  unfold date_leb. destruct (date_ltb b a); simpl; split; intros H;
    try easy; exfalso; apply H; reflexivity.
Qed.

Lemma date_eqb_eq (a b : date) : date_eqb a b = true <-> a = b.
Proof.
  destruct a as [y1 m1 d1], b as [y2 m2 d2]. unfold date_eqb. simpl.
  rewrite !andb_true_iff, !N.eqb_eq. split.
  - intros [[-> ->] ->]. reflexivity.
  - intros H. injection H as -> -> ->. auto.
Qed.

Lemma date_le_refl (a : date) : date_le a a.
Proof. apply date_leb_iff. rewrite date_ltb_iff. lia. Qed.

Lemma date_le_trans (a b c : date) : date_le a b -> date_le b c -> date_le a c.
Proof.
  unfold date_le. rewrite !date_leb_iff, !date_ltb_iff. lia.
Qed.

Lemma date_le_total (a b : date) : date_le a b \/ date_le b a.
Proof.
  unfold date_le. rewrite !date_leb_iff, !date_ltb_iff. lia.
Qed.

Lemma date_not_lt_le (a b : date) : date_ltb a b = false -> date_le b a.
Proof. intros H. apply date_leb_iff. rewrite H. discriminate. Qed.

Lemma date_lt_le (a b : date) : date_lt a b -> date_le a b.
Proof.
  unfold date_lt, date_le. rewrite date_leb_iff, !date_ltb_iff. lia.
Qed.

Lemma date_le_neq_lt (a b : date) : date_le a b -> a <> b -> date_lt a b.
Proof.
  unfold date_lt, date_le. rewrite date_leb_iff, !date_ltb_iff.
  intros H Hne.
  assert (Hc : ~ (year a = year b /\ month a = month b /\ day a = day b)).
  { intros (Hy & Hm & Hd). apply Hne. destruct a, b; simpl in *; congruence. }
  lia.
Qed.

Lemma valid_date_le_max (d : date) : valid_date d = true -> date_le d date_max.
Proof.
  unfold valid_date, date_le. rewrite date_leb_iff, date_ltb_iff.
  rewrite !andb_true_iff, !N.leb_le. simpl. lia.
Qed.

(** ** The stable sort by key *)

Lemma insert_by_key_perm (x : TravelItem) (l : list TravelItem) :
  Permutation (insert_by_key x l) (x :: l).
Proof.
  induction l as [|y l IH]; simpl; [reflexivity|].
  destruct (date_ltb (sort_key x) (sort_key y)); [reflexivity|].
  rewrite IH. apply perm_swap.
Qed.

Lemma insert_by_key_sorted (x : TravelItem) (l : list TravelItem) :
  StronglySorted key_le l -> StronglySorted key_le (insert_by_key x l).
Proof.
  induction 1 as [|y l Hs IH Hall]; simpl.
  - repeat constructor.
  - destruct (date_ltb (sort_key x) (sort_key y)) eqn:E.
    + apply date_lt_le in E.
      constructor; [constructor; assumption|].
      constructor; [exact E|].
      eapply Forall_impl; [exact Hall|].
      intros z Hz. exact (date_le_trans _ _ _ E Hz).
    + constructor; [exact IH|].
      apply List.Forall_forall. intros z Hz.
      apply (Permutation_in _ (insert_by_key_perm x l)) in Hz.
      destruct Hz as [<-|Hz].
      * apply date_not_lt_le, E.
      * rewrite List.Forall_forall in Hall. apply Hall, Hz.
Qed.

Lemma sort_from_perm (l acc : list TravelItem) :
  Permutation (fold_left (fun acc x => insert_by_key x acc) l acc) (acc ++ l).
Proof.
  revert acc. induction l as [|x l IH]; intros acc; simpl.
  - rewrite app_nil_r. reflexivity.
  - rewrite IH, insert_by_key_perm. apply Permutation_middle.
Qed.

Lemma sort_from_sorted (l acc : list TravelItem) :
  StronglySorted key_le acc ->
  StronglySorted key_le (fold_left (fun acc x => insert_by_key x acc) l acc).
Proof.
  revert acc. induction l as [|x l IH]; intros acc Hacc; simpl; [exact Hacc|].
  apply IH, insert_by_key_sorted, Hacc.
Qed.

Lemma sort_by_key_perm (l : list TravelItem) : Permutation (sort_by_key l) l.
Proof. apply (sort_from_perm l []). Qed.

Lemma sort_by_key_sorted (l : list TravelItem) : StronglySorted key_le (sort_by_key l).
Proof. apply sort_from_sorted. constructor. Qed.

(** The sort is stable: the items of one key keep their order. *)
Lemma insert_by_key_stable (k : date) (x : TravelItem) (l : list TravelItem) :
  StronglySorted key_le l ->
  List.filter (fun y => date_eqb (sort_key y) k) (insert_by_key x l) =
  (List.filter (fun y => date_eqb (sort_key y) k) l ++
   List.filter (fun y => date_eqb (sort_key y) k) [x])%list.
Proof.
  induction 1 as [|y l Hs IH Hall]; simpl; [reflexivity|].
  destruct (date_ltb (sort_key x) (sort_key y)) eqn:E.
  - simpl. destruct (date_eqb (sort_key x) k) eqn:Ex; simpl.
    + apply date_eqb_eq in Ex. subst k.
      assert (Hnone : forall z, In z (y :: l) -> date_eqb (sort_key z) (sort_key x) = false).
      { intros z Hz. apply not_true_iff_false. intros Hzk. apply date_eqb_eq in Hzk.
        assert (Hle : date_le (sort_key y) (sort_key z)).
        { destruct Hz as [<-|Hz]; [apply date_le_refl|].
          rewrite List.Forall_forall in Hall. apply Hall, Hz. }
        rewrite Hzk in Hle. apply date_leb_iff in Hle. contradiction. }
      rewrite (Hnone y (or_introl eq_refl)).
      replace (List.filter (fun y0 => date_eqb (sort_key y0) (sort_key x)) l) with (@nil TravelItem).
      * reflexivity.
      * symmetry. clear -Hnone. induction l as [|z l IHl]; simpl; [reflexivity|].
        rewrite (Hnone z (or_intror (or_introl eq_refl))).
        apply IHl. intros w [<-|Hw]; apply Hnone; simpl; auto.
    + rewrite app_nil_r. reflexivity.
  - simpl. rewrite IH. destruct (date_eqb (sort_key y) k); reflexivity.
Qed.

Lemma sort_from_stable (k : date) (l acc : list TravelItem) :
  StronglySorted key_le acc ->
  List.filter (fun y => date_eqb (sort_key y) k)
              (fold_left (fun acc x => insert_by_key x acc) l acc) =
  (List.filter (fun y => date_eqb (sort_key y) k) acc ++
   List.filter (fun y => date_eqb (sort_key y) k) l)%list.
Proof.
  revert acc. induction l as [|x l IH]; intros acc Hacc; simpl.
  - rewrite app_nil_r. reflexivity.
  - rewrite IH by (apply insert_by_key_sorted, Hacc).
    rewrite insert_by_key_stable by exact Hacc.
    simpl. rewrite <- app_assoc. f_equal.
    destruct (date_eqb (sort_key x) k); reflexivity.
Qed.

Lemma sort_by_key_stable (k : date) (l : list TravelItem) :
  List.filter (fun y => date_eqb (sort_key y) k) (sort_by_key l) =
  List.filter (fun y => date_eqb (sort_key y) k) l.
Proof. apply (sort_from_stable k l []). constructor. Qed.

(** ** Grouping by a key *)

Section Grouping.

Context {K : Type} (eqb : K -> K -> bool).
Hypothesis eqb_eq : forall a b, eqb a b = true <-> a = b.
Variable key : TravelItem -> option K.

Lemma eqb_refl (a : K) : eqb a a = true.
Proof. apply eqb_eq. reflexivity. Qed.

Lemma group_append_flatten (k : K) (x : TravelItem) (g : list (K * list TravelItem)) :
  Permutation (flatten (group_append eqb k x g)) (x :: flatten g).
Proof.
  unfold flatten. induction g as [|[k' xs] g IH]; simpl; [reflexivity|].
  destruct (eqb k k'); simpl.
  - rewrite <- app_assoc. simpl. symmetry. apply Permutation_middle.
  - rewrite IH. symmetry. apply Permutation_middle.
Qed.

Lemma group_fold_flatten (l : list TravelItem) :
  Permutation (flatten (fold_left (group_step eqb key) l []))
              (List.filter (fun x => is_some (key x)) l).
Proof.
  induction l as [|x l IH] using rev_ind; [reflexivity|].
  rewrite fold_left_app, List.filter_app. simpl. unfold group_step at 1.
  destruct (key x) as [k|]; simpl.
  - rewrite group_append_flatten, IH. apply Permutation_cons_append.
  - rewrite app_nil_r. exact IH.
Qed.

Lemma existsb_false_iff (k : K) (l : list K) :
  existsb (eqb k) l = false <-> ~ In k l.
Proof.
  rewrite <- not_true_iff_false, existsb_exists. split.
  - intros H Hin. apply H. exists k. split; [exact Hin|apply eqb_refl].
  - intros H (k' & Hin & E). apply eqb_eq in E. subst k'. contradiction.
Qed.

Lemma existsb_true_iff (k : K) (l : list K) :
  existsb (eqb k) l = true <-> In k l.
Proof.
  rewrite existsb_exists. split.
  - intros (k' & Hin & E). apply eqb_eq in E. subst k'. exact Hin.
  - intros Hin. exists k. split; [exact Hin|apply eqb_refl].
Qed.

Lemma in_first_occurrences (k : K) (l : list K) :
  In k (first_occurrences eqb l) <-> In k l.
Proof.
  induction l as [|a l IH]; [reflexivity|].
  cbn [first_occurrences]. split.
  - intros [H|H]; [left; exact H|].
    apply List.filter_In in H. right. apply IH, H.
  - intros [H|H]; [left; exact H|].
    destruct (eqb k a) eqn:E.
    + left. symmetry. apply eqb_eq, E.
    + right. apply List.filter_In. split; [apply IH, H|].
      rewrite E. reflexivity.
Qed.

Lemma NoDup_first_occurrences (l : list K) : List.NoDup (first_occurrences eqb l).
Proof.
  induction l as [|a l IH]; cbn [first_occurrences]; constructor.
  - intros H. apply List.filter_In in H. destruct H as [_ H].
    rewrite eqb_refl in H. discriminate.
  - apply List.NoDup_filter, IH.
Qed.

Lemma first_occurrences_snoc (k : K) (l : list K) :
  first_occurrences eqb (l ++ [k]) =
  if existsb (eqb k) l then first_occurrences eqb l
  else (first_occurrences eqb l ++ [k])%list.
Proof.
  induction l as [|a l IH]; simpl; [reflexivity|].
  rewrite IH. destruct (eqb k a) eqn:E; simpl.
  - apply eqb_eq in E. subst a.
    destruct (existsb (eqb k) l); [reflexivity|].
    rewrite List.filter_app. simpl. rewrite eqb_refl. simpl.
    rewrite app_nil_r. reflexivity.
  - destruct (existsb (eqb k) l); [reflexivity|].
    rewrite List.filter_app. simpl. rewrite E. reflexivity.
Qed.

(** Appending to a grouping whose entries are [F] of distinct keys. *)
Lemma group_append_map (k : K) (x : TravelItem) (F : K -> list TravelItem) (ks : list K) :
  List.NoDup ks ->
  group_append eqb k x (List.map (fun k' => (k', F k')) ks) =
  if existsb (eqb k) ks
  then List.map (fun k' => (k', if eqb k k' then (F k' ++ [x])%list else F k')) ks
  else (List.map (fun k' => (k', F k')) ks ++ [(k, [x])])%list.
Proof.
  induction 1 as [|k0 ks Hnot Hnd IH]; simpl; [reflexivity|].
  destruct (eqb k k0) eqn:E; simpl.
  - f_equal. apply eqb_eq in E. subst k0.
    apply map_ext_in. intros k' Hin.
    destruct (eqb k k') eqn:E'; [|reflexivity].
    apply eqb_eq in E'. subst k'. contradiction.
  - rewrite IH. destruct (existsb (eqb k) ks); reflexivity.
Qed.

Lemma filter_keyed_absent (k : K) (l : list TravelItem) :
  existsb (eqb k) (omap key l) = false -> List.filter (keyed eqb key k) l = [].
Proof.
  induction l as [|x l IH]; simpl; [reflexivity|].
  unfold keyed at 1. destruct (key x) as [k'|]; simpl.
  - destruct (eqb k k'); simpl; [discriminate|]. exact IH.
  - exact IH.
Qed.

(** The grouping loop computes the grouping of the specification. *)
Lemma group_fold_grouping (l : list TravelItem) :
  fold_left (group_step eqb key) l [] = grouping eqb key l.
Proof.
  induction l as [|x l IH] using rev_ind; [reflexivity|].
  rewrite fold_left_app. simpl. rewrite IH. unfold group_step, grouping.
  rewrite omap_app. simpl. destruct (key x) as [k|] eqn:Kx; simpl.
  - rewrite first_occurrences_snoc.
    rewrite group_append_map by apply NoDup_first_occurrences.
    assert (Hex : existsb (eqb k) (first_occurrences eqb (omap key l)) =
                  existsb (eqb k) (omap key l)).
    { destruct (existsb (eqb k) (omap key l)) eqn:E.
      - apply existsb_true_iff, in_first_occurrences, existsb_true_iff, E.
      - apply existsb_false_iff. rewrite in_first_occurrences.
        apply existsb_false_iff, E. }
    assert (Hk : forall k', keyed eqb key k' x = eqb k' k).
    { intros k'. unfold keyed. rewrite Kx. reflexivity. }
    rewrite Hex. destruct (existsb (eqb k) (omap key l)) eqn:E.
    + apply map_ext. intros k'. f_equal.
      rewrite List.filter_app. simpl. rewrite Hk.
      destruct (eqb k' k) eqn:E1, (eqb k k') eqn:E2; try reflexivity.
      * apply eqb_eq in E1. subst k'. rewrite eqb_refl in E2. discriminate.
      * apply eqb_eq in E2. subst k'. rewrite eqb_refl in E1. discriminate.
      * rewrite app_nil_r. reflexivity.
    + rewrite List.map_app. simpl. f_equal.
      * apply map_ext_in. intros k' Hin. f_equal.
        rewrite List.filter_app. simpl. rewrite Hk.
        destruct (eqb k' k) eqn:E1.
        -- apply eqb_eq in E1. subst k'. exfalso.
           exact (proj1 (existsb_false_iff _ _) E (proj1 (in_first_occurrences _ _) Hin)).
        -- rewrite app_nil_r. reflexivity.
      * rewrite List.filter_app, (filter_keyed_absent k l E). simpl.
        rewrite Hk, eqb_refl. reflexivity.
  - assert (Hk : forall k', keyed eqb key k' x = false).
    { intros k'. unfold keyed. rewrite Kx. reflexivity. }
    rewrite app_nil_r. apply map_ext. intros k'. f_equal.
    rewrite List.filter_app. simpl. rewrite Hk, app_nil_r. reflexivity.
Qed.

End Grouping.

(** ** The groupings of an itinerary *)

Lemma insert_entry_perm (e : date * list TravelItem) (l : list (date * list TravelItem)) :
  Permutation (insert_entry e l) (e :: l).
Proof.
  induction l as [|e' l IH]; simpl; [reflexivity|].
  destruct (date_ltb (fst e) (fst e')); [reflexivity|].
  rewrite IH. apply perm_swap.
Qed.

Lemma insert_entry_sorted (e : date * list TravelItem) (l : list (date * list TravelItem)) :
  StronglySorted (fun a b => date_le (fst a) (fst b)) l ->
  StronglySorted (fun a b => date_le (fst a) (fst b)) (insert_entry e l).
Proof.
  induction 1 as [|e' l Hs IH Hall]; simpl.
  - repeat constructor.
  - destruct (date_ltb (fst e) (fst e')) eqn:E.
    + apply date_lt_le in E.
      constructor; [constructor; assumption|].
      constructor; [exact E|].
      eapply List.Forall_impl; [|exact Hall].
      intros z Hz. exact (date_le_trans _ _ _ E Hz).
    + constructor; [exact IH|].
      apply List.Forall_forall. intros z Hz.
      apply (Permutation_in _ (insert_entry_perm e l)) in Hz.
      destruct Hz as [<-|Hz].
      * apply date_not_lt_le, E.
      * rewrite List.Forall_forall in Hall. apply Hall, Hz.
Qed.

Lemma sorted_entries_from (l acc : list (date * list TravelItem)) :
  StronglySorted (fun a b => date_le (fst a) (fst b)) acc ->
  Permutation (fold_left (fun acc e => insert_entry e acc) l acc) (acc ++ l) /\
  StronglySorted (fun a b => date_le (fst a) (fst b))
                 (fold_left (fun acc e => insert_entry e acc) l acc).
Proof.
  revert acc. induction l as [|e l IH]; intros acc Hacc; simpl.
  - rewrite app_nil_r. split; [reflexivity|exact Hacc].
  - destruct (IH (insert_entry e acc) (insert_entry_sorted e acc Hacc)) as [Hp Hs].
    split; [|exact Hs].
    rewrite Hp, insert_entry_perm. apply Permutation_middle.
Qed.

Lemma sorted_entries_perm (l : list (date * list TravelItem)) :
  Permutation (sorted_entries l) l.
Proof. apply (sorted_entries_from l []). constructor. Qed.

Lemma sorted_entries_sorted (l : list (date * list TravelItem)) :
  StronglySorted (fun a b => date_le (fst a) (fst b)) (sorted_entries l).
Proof. apply (sorted_entries_from l []). constructor. Qed.

(** Distinct keys in ascending order are in strictly ascending order. *)
Lemma sorted_distinct_strict (l : list (date * list TravelItem)) :
  StronglySorted (fun a b => date_le (fst a) (fst b)) l ->
  List.NoDup (List.map fst l) ->
  StronglySorted date_lt (List.map fst l).
Proof.
  induction 1 as [|e l Hs IH Hall]; simpl; intros Hnd; [constructor|].
  apply List.NoDup_cons_iff in Hnd. destruct Hnd as [Hnot Hnd].
  constructor; [apply IH, Hnd|].
  apply List.Forall_forall. intros d Hd.
  apply in_map_iff in Hd. destruct Hd as (e' & <- & Hin).
  rewrite List.Forall_forall in Hall.
  apply date_le_neq_lt; [apply Hall, Hin|].
  intros Heq. apply Hnot. rewrite Heq. apply in_map, Hin.
Qed.

Lemma flatten_perm {K : Type} (g g' : list (K * list TravelItem)) :
  Permutation g g' -> Permutation (flatten g) (flatten g').
Proof.
  unfold flatten. induction 1 as [|e g g' Hp IH|e e' g|g g' g'' H1 IH1 H2 IH2]; simpl.
  - reflexivity.
  - rewrite IH. reflexivity.
  - rewrite !app_assoc. apply Permutation_app_tail, Permutation_app_comm.
  - rewrite IH1. exact IH2.
Qed.

Lemma grouping_keys {K : Type} (eqb : K -> K -> bool) (key : TravelItem -> option K)
    (l : list TravelItem) :
  List.map fst (grouping eqb key l) = first_occurrences eqb (omap key l).
Proof.
  unfold grouping. rewrite List.map_map. simpl. apply List.map_id.
Qed.

Lemma omap_total {A B : Type} (f : A -> B) (l : list A) :
  omap (fun x => Some (f x)) l = List.map f l.
Proof. induction l as [|x l IH]; [reflexivity|]. cbn. f_equal; exact IH. Qed.

Lemma category_eqb_eq (a b : ItemCategory) : category_eqb a b = true <-> a = b.
Proof. destruct a, b; simpl; split; congruence. Qed.

Lemma items_by_date_unfold (it : Itinerary) :
  items_by_date it = sorted_entries (grouping date_eqb start_date (items it)).
Proof.
  unfold items_by_date. f_equal.
  apply (group_fold_grouping date_eqb date_eqb_eq start_date).
Qed.

Lemma items_by_category_unfold (it : Itinerary) :
  items_by_category it =
  grouping category_eqb (fun x => Some (category x)) (items it).
Proof.
  apply (group_fold_grouping category_eqb category_eqb_eq (fun x => Some (category x))).
Qed.

(** C2, as stated, fails on an itinerary with an undated item: the date
    grouping has no group for it, so the item is not read back. *)
Lemma items_by_date_omits_undated :
  ~ Permutation (flatten (items_by_date (itinerary_of [hotel_item 1 "Alpha" None])))
                (items (itinerary_of [hotel_item 1 "Alpha" None])).
Proof.
  intros H. apply Permutation_nil in H. discriminate H.
Qed.

(** C2 (amended): for every itinerary, the date grouping reads back every
    item that has a start date exactly once (an item without a start date
    is in no date group), each under its own date and in the order of the
    list, with the dates in strictly ascending order; the category grouping
    reads back every item exactly once, each under its own category, with
    the categories in the order of their first occurrence. *)
Theorem itinerary_groupings_read_back (it : Itinerary) :
  Permutation (flatten (items_by_date it)) (List.filter has_date (items it)) /\
  StronglySorted date_lt (List.map fst (items_by_date it)) /\
  Forall (fun e => snd e = List.filter (dated_on (fst e)) (items it)) (items_by_date it) /\
  Permutation (flatten (items_by_category it)) (items it) /\
  items_by_category it =
    List.map (fun c => (c, List.filter (in_category c) (items it)))
             (first_occurrences category_eqb (List.map category (items it))).
Proof.
  split; [|split; [|split; [|split]]].
  - rewrite items_by_date_unfold, (flatten_perm _ _ (sorted_entries_perm _)).
    rewrite <- (group_fold_grouping date_eqb date_eqb_eq start_date).
    apply (group_fold_flatten date_eqb start_date).
  - rewrite items_by_date_unfold.
    apply sorted_distinct_strict; [apply sorted_entries_sorted|].
    eapply Permutation.Permutation_NoDup.
    + apply Permutation_map. symmetry. apply sorted_entries_perm.
    + rewrite grouping_keys. apply (NoDup_first_occurrences date_eqb date_eqb_eq).
  - rewrite items_by_date_unfold.
    eapply Permutation.Permutation_Forall.
    + symmetry. apply sorted_entries_perm.
    + unfold grouping. apply List.Forall_forall. intros e He.
      apply in_map_iff in He. destruct He as (k & <- & _). reflexivity.
  - eapply Permutation_trans.
    + apply (group_fold_flatten category_eqb (fun x => Some (category x))).
    + simpl. induction (items it) as [|x l IH]; simpl; [reflexivity|].
      apply perm_skip, IH.
  - rewrite items_by_category_unfold. unfold grouping.
    rewrite omap_total. reflexivity.
Qed.

(** ** The location pass *)

Lemma location_not_empty (x : TravelItem) (loc : string) :
  location_of x = Some loc -> PyStr.falsy loc = false.
Proof.
  unfold location_of, location_keywords. simpl.
  repeat match goal with
         | |- context [if ?c then _ else _] => destruct c
         end;
    intros H; inversion H; reflexivity.
Qed.

Lemma filter_snoc {A : Type} (f : A -> bool) (l : list A) (x : A) :
  List.filter f (l ++ [x]) = (List.filter f l ++ if f x then [x] else [])%list.
Proof. rewrite List.filter_app. reflexivity. Qed.

(** The state of the loop of [_dedupe_by_location] after the items [l]:
    the non-hotel items and the hotels without a location are all kept, a
    location has its first hotel and no other, and the set holds the
    locations met so far. *)
Lemma dedupe_fold (l : list TravelItem) :
  let st := fold_left dedupe_step l ([], ∅) in
  List.filter (fun x => negb (is_hotel x)) (fst st) =
    List.filter (fun x => negb (is_hotel x)) l /\
  List.filter hotel_nowhere (fst st) = List.filter hotel_nowhere l /\
  (forall loc, List.filter (hotel_at loc) (fst st) =
               firstn 1 (List.filter (hotel_at loc) l)) /\
  (forall loc, loc ∈ snd st <-> List.filter (hotel_at loc) l <> []).
Proof.
  induction l as [|x l IH] using rev_ind.
  - simpl. repeat split; try reflexivity.
    + intros H. exfalso. revert H. apply not_elem_of_empty.
    + intros H. congruence.
  - rewrite fold_left_app. simpl.
    destruct (fold_left dedupe_step l ([], ∅)) as [res seen_locations].
    simpl in IH. destruct IH as (Hother & Hnowhere & Hfirst & Hseen).
    assert (Hat : forall loc, hotel_at loc x =
              is_hotel x && match location_of x with
                            | Some l => String.eqb l loc | None => false end)
      by reflexivity.
    assert (Hno : hotel_nowhere x = is_hotel x && negb (is_some (location_of x)))
      by reflexivity.
    unfold dedupe_step. fold (is_hotel x).
    destruct (is_hotel x) eqn:Hh; simpl.
    + destruct (location_of x) as [loc0|] eqn:Hl; simpl in *.
      * assert (Hsame : hotel_at loc0 x = true).
        { rewrite Hat. apply String.eqb_refl. }
        assert (Hdiff : forall loc, loc <> loc0 -> hotel_at loc x = false).
        { intros loc Hne. rewrite Hat. apply String.eqb_neq. congruence. }
        rewrite (location_not_empty x loc0 Hl).
        destruct (bool_decide (loc0 ∈ seen_locations)) eqn:Hin; simpl.
        -- apply bool_decide_eq_true in Hin.
           split; [|split; [|split]].
           ++ rewrite filter_snoc, Hh. simpl. rewrite app_nil_r. exact Hother.
           ++ rewrite filter_snoc, Hno, app_nil_r. exact Hnowhere.
           ++ intros loc. rewrite filter_snoc, Hfirst.
              destruct (String.eqb_spec loc loc0) as [->|Hne].
              ** apply Hseen in Hin. rewrite Hsame.
                 destruct (List.filter (hotel_at loc0) l); [congruence|reflexivity].
              ** rewrite (Hdiff loc Hne), app_nil_r. reflexivity.
           ++ intros loc. rewrite filter_snoc. split.
              ** intros H. apply Hseen in H.
                 destruct (List.filter (hotel_at loc) l); [congruence|discriminate].
              ** intros H. destruct (String.eqb_spec loc loc0) as [->|Hne]; [exact Hin|].
                 rewrite (Hdiff loc Hne), app_nil_r in H. apply Hseen, H.
        -- apply bool_decide_eq_false in Hin.
           split; [|split; [|split]].
           ++ rewrite !filter_snoc, Hh. simpl. rewrite !app_nil_r. exact Hother.
           ++ rewrite !filter_snoc, Hno, !app_nil_r. exact Hnowhere.
           ++ intros loc. rewrite !filter_snoc, Hfirst.
              destruct (String.eqb_spec loc loc0) as [->|Hne].
              ** rewrite Hsame.
                 destruct (List.filter (hotel_at loc0) l) eqn:E; [reflexivity|].
                 exfalso. apply Hin, Hseen. congruence.
              ** rewrite (Hdiff loc Hne), !app_nil_r. reflexivity.
           ++ intros loc. rewrite filter_snoc. split.
              ** intros H. apply elem_of_union in H. destruct H as [H|H].
                 --- apply elem_of_singleton in H. subst loc. rewrite Hsame.
                     destruct (List.filter (hotel_at loc0) l); discriminate.
                 --- apply Hseen in H.
                     destruct (List.filter (hotel_at loc) l); [congruence|discriminate].
              ** intros H. apply elem_of_union.
                 destruct (String.eqb_spec loc loc0) as [->|Hne].
                 --- left. apply elem_of_singleton. reflexivity.
                 --- right. apply Hseen.
                     rewrite (Hdiff loc Hne), app_nil_r in H. exact H.
      * assert (Hnone : forall loc, hotel_at loc x = false).
        { intros loc. rewrite Hat. reflexivity. }
        split; [|split; [|split]].
        -- rewrite !filter_snoc, Hh. simpl. rewrite !app_nil_r. exact Hother.
        -- rewrite !filter_snoc, Hno, Hnowhere. reflexivity.
        -- intros loc. rewrite !filter_snoc, Hnone, Hfirst, !app_nil_r. reflexivity.
        -- intros loc. rewrite filter_snoc, Hnone, app_nil_r. apply Hseen.
    + assert (Hnone : forall loc, hotel_at loc x = false).
      { intros loc. rewrite Hat. reflexivity. }
      split; [|split; [|split]].
      * rewrite !filter_snoc, Hh, Hother. reflexivity.
      * rewrite !filter_snoc, Hno, Hnowhere, !app_nil_r. reflexivity.
      * intros loc. rewrite !filter_snoc, Hnone, Hfirst, !app_nil_r. reflexivity.
      * intros loc. rewrite filter_snoc, Hnone, app_nil_r. apply Hseen.
Qed.

(** ** Detector loops *)

Lemma detector_run_from (P : nat -> Message -> TravelItem -> Prop)
    (body : nat -> Message -> detector -> detector) (msgs : list Message) :
  appends_one P body msgs ->
  forall (l : list Message) (i : nat) (st0 : detector),
    (forall j msg, l !! j = Some msg -> msgs !! (i + j) = Some msg) ->
    messages (self_ st0) = msgs ->
    messages (self_ (for_enumerate body i l st0)) = msgs /\
    exists new idx,
      found_items (for_enumerate body i l st0) = (found_items st0 ++ new)%list /\
      item_counter (self_ (for_enumerate body i l st0)) =
        item_counter (self_ st0) + length new /\
      List.map id new = ids_from (item_counter (self_ st0)) (length new) /\
      StronglySorted lt idx /\ Forall (le i) idx /\
      Forall2 (fun i it => exists msg, msgs !! i = Some msg /\ P i msg it) idx new.
Proof.
  intros Hbody. induction l as [|x l IH]; intros i st0 Hl Hm; simpl.
  - split; [exact Hm|]. exists [], []. rewrite app_nil_r, Nat.add_0_r.
    repeat split; constructor.
  - destruct (Hbody i x st0 Hm) as [Hm1 Hstep].
    assert (Hl' : forall j msg, l !! j = Some msg -> msgs !! (S i + j) = Some msg).
    { intros j msg Hj. replace (S i + j) with (i + S j) by lia.
      apply Hl. exact Hj. }
    destruct (IH (S i) (body i x st0) Hl' Hm1)
      as (Hmf & new & idx & Hitems & Hcount & Hids & Hsorted & Hge & Hall).
    split; [exact Hmf|].
    destruct Hstep as [[Hsame Hc]|(it & Happ & Hc & Hid & HP)].
    + exists new, idx. rewrite Hitems, Hcount, Hids, Hsame, Hc.
      repeat split; try assumption.
      eapply List.Forall_impl; [|exact Hge]. intros j Hj. lia.
    + exists (it :: new), (i :: idx). rewrite Hitems, Hcount, Happ, Hc.
      rewrite <- app_assoc. simpl. repeat split.
      * lia.
      * unfold ids_from in *. simpl. rewrite Hid, Hids, Hc. reflexivity.
      * constructor; [exact Hsorted|].
        eapply List.Forall_impl; [|exact Hge]. intros j Hj. lia.
      * constructor; [lia|].
        eapply List.Forall_impl; [|exact Hge]. intros j Hj. lia.
      * constructor; [|exact Hall].
        exists x. split; [|exact HP].
        rewrite <- (Nat.add_0_r i). apply Hl. reflexivity.
Qed.

(** A detector loop over the messages of its extractor, started with no
    item: the items are made from messages at increasing indices, and the
    ids continue the counter. *)
Lemma detector_run (P : nat -> Message -> TravelItem -> Prop)
    (body : nat -> Message -> detector -> detector) (self : EntityExtractor) :
  appends_one P body (messages self) ->
  let st := for_enumerate body 0 (messages self) (mkDetector [] ∅ self) in
  messages (self_ st) = messages self /\
  item_counter (self_ st) = item_counter self + length (found_items st) /\
  List.map id (found_items st) = ids_from (item_counter self) (length (found_items st)) /\
  made_from P (messages self) (found_items st).
Proof.
  intros Hbody.
  destruct (detector_run_from P body (messages self) Hbody (messages self) 0
              (mkDetector [] ∅ self) (fun j msg H => H) eq_refl)
    as (Hm & new & idx & Hitems & Hcount & Hids & Hsorted & _ & Hall).
  simpl in *. subst new. repeat split; try assumption.
  exists idx. split; assumption.
Qed.

Section Detectors.

Context {L : Library}.

Lemma check_confirmation_messages (s1 s2 : EntityExtractor) (i w : nat) :
  messages s1 = messages s2 -> _check_confirmation s1 i w = _check_confirmation s2 i w.
Proof. unfold _check_confirmation. intros ->. reflexivity. Qed.

Lemma date_from_context_messages (s1 s2 : EntityExtractor) (i w : nat) :
  messages s1 = messages s2 ->
  _extract_date_from_context s1 i w = _extract_date_from_context s2 i w.
Proof. unfold _extract_date_from_context. intros ->. reflexivity. Qed.

Lemma hotel_scan_messages (s1 s2 : EntityExtractor) (i : nat) (msg : Message) :
  messages s1 = messages s2 -> hotel_scan s1 i msg = hotel_scan s2 i msg.
Proof.
  intros H. unfold hotel_scan.
  rewrite (date_from_context_messages s1 s2 i 5 H). reflexivity.
Qed.

Lemma hotel_body_appends (self : EntityExtractor) :
  appends_one (hotel_made self) hotel_body (messages self).
Proof.
  intros i msg st Hm. unfold hotel_body.
  assert (Hname : named_hotel self i msg =
                  match hotel_name (hotel_scan (self_ st) i msg) with
                  | Some name => if PyStr.falsy name then None else Some name
                  | None => None
                  end).
  { unfold named_hotel. rewrite (hotel_scan_messages self (self_ st) i msg); auto. }
  rewrite <- (check_confirmation_messages self (self_ st) i 8) by auto.
  rewrite (hotel_scan_messages (self_ st) self i msg Hm) in *.
  destruct (hotel_name (hotel_scan self i msg)) as [name|]; [|auto].
  destruct (PyStr.falsy name); [auto|].
  destruct (bool_decide _); [auto|].
  simpl. split; [exact Hm|]. right. eexists. split; [reflexivity|].
  rewrite Nat.add_1_r. repeat split; auto.
Qed.

Lemma flight_patterns_appends (self : EntityExtractor) (i : nat) (msg : Message)
    (pats : list (pattern * string)) :
  has_flight_context (PyStr.lower (content msg)) = true ->
  (forall p, In p pats -> In p AIRLINE_PATTERNS) ->
  forall st,
    messages (self_ st) = messages self ->
    messages (self_ (flight_patterns i msg pats st)) = messages self /\
    ((found_items (flight_patterns i msg pats st) = found_items st /\
      item_counter (self_ (flight_patterns i msg pats st)) = item_counter (self_ st)) \/
     (exists it,
        found_items (flight_patterns i msg pats st) = (found_items st ++ [it])%list /\
        item_counter (self_ (flight_patterns i msg pats st)) = S (item_counter (self_ st)) /\
        id it = "item-" ++ PyStr.of_nat (S (item_counter (self_ st))) /\
        flight_made self i msg it)).
Proof.
  intros Hctx. induction pats as [|[pat airline_name] pats IH]; intros Hin st Hm.
  - simpl. auto.
  - assert (Hin' : forall p, In p pats -> In p AIRLINE_PATTERNS).
    { intros p Hp. apply Hin. right. exact Hp. }
    specialize (IH Hin'). cbn [flight_patterns].
    destruct (found (pattern_search pat (content msg))) eqn:Hfound; [|apply IH, Hm].
    destruct (bool_decide _); [apply IH, Hm|].
    rewrite (check_confirmation_messages (self_ st) self i 8 Hm).
    rewrite (date_from_context_messages (self_ st) self i 5 Hm).
    fold (flight_date_of self i msg).
    destruct (negb (status_eqb (_check_confirmation self i 8) CONFIRMED) &&
              negb (is_some (flight_date_of self i msg))) eqn:Hgate.
    + match goal with
      | |- context [flight_patterns i msg pats ?st1] =>
          destruct (IH st1 Hm) as [Hm1 Hstep]
      end.
      split; [exact Hm1|exact Hstep].
    + simpl. split; [exact Hm|]. right. eexists. split; [reflexivity|].
      rewrite Nat.add_1_r. repeat split; auto.
      * exists pat, airline_name. repeat split; auto.
        apply Hin. left. reflexivity.
      * simpl. apply andb_false_iff in Hgate. destruct Hgate as [Hg|Hg].
        -- left. destruct (_check_confirmation self i 8); [reflexivity|discriminate].
        -- right. destruct (is_some (flight_date_of self i msg)); [reflexivity|discriminate].
Qed.

Lemma flight_body_appends (self : EntityExtractor) :
  appends_one (flight_made self) flight_body (messages self).
Proof.
  intros i msg st Hm. unfold flight_body.
  destruct (has_flight_context (PyStr.lower (content msg))) eqn:Hctx; cbn [negb].
  - apply flight_patterns_appends; [exact Hctx|auto|exact Hm].
  - split; [exact Hm|]. left. split; reflexivity.
Qed.

Lemma transfer_keywords_appends (self : EntityExtractor) (i : nat) (msg : Message)
    (keywords : list string) :
  (forall k, In k keywords -> In k TRANSFER_KEYWORDS) ->
  forall st,
    messages (self_ st) = messages self ->
    messages (self_ (transfer_keywords i msg keywords st)) = messages self /\
    ((found_items (transfer_keywords i msg keywords st) = found_items st /\
      item_counter (self_ (transfer_keywords i msg keywords st)) = item_counter (self_ st)) \/
     (exists it,
        found_items (transfer_keywords i msg keywords st) = (found_items st ++ [it])%list /\
        item_counter (self_ (transfer_keywords i msg keywords st)) =
          S (item_counter (self_ st)) /\
        id it = "item-" ++ PyStr.of_nat (S (item_counter (self_ st))) /\
        transfer_made self i msg it)).
Proof.
  induction keywords as [|keyword keywords IH]; intros Hin st Hm.
  - simpl. auto.
  - assert (Hin' : forall k, In k keywords -> In k TRANSFER_KEYWORDS).
    { intros k Hk. apply Hin. right. exact Hk. }
    specialize (IH Hin'). cbn [transfer_keywords].
    destruct (PyStr.contains keyword (PyStr.lower (content msg))) eqn:Hkw; [|apply IH, Hm].
    rewrite (check_confirmation_messages (self_ st) self i 8 Hm).
    rewrite (date_from_context_messages (self_ st) self i 5 Hm).
    destruct (negb (status_eqb (_check_confirmation self i 8) CONFIRMED) &&
              negb (negb (Nat.eqb (length (find_route_parts (PyStr.lower (content msg)))) 0)
                    || truthy (find_time (content msg)))) eqn:Hgate;
      [apply IH, Hm|].
    destruct (bool_decide _); [apply IH, Hm|].
    simpl. split; [exact Hm|]. right. eexists. split; [reflexivity|].
    rewrite Nat.add_1_r. repeat split; auto.
    + exists keyword. repeat split; auto. apply Hin. left. reflexivity.
    + simpl. apply andb_false_iff in Hgate. destruct Hgate as [Hg|Hg].
      * left. destruct (_check_confirmation self i 8); [reflexivity|discriminate].
      * right. apply negb_false_iff, orb_true_iff in Hg. destruct Hg as [Hg|Hg].
        -- left. intros E. rewrite E in Hg. discriminate.
        -- right. intros E. rewrite E in Hg. discriminate.
Qed.

Lemma transfer_body_appends (self : EntityExtractor) :
  appends_one (transfer_made self) transfer_body (messages self).
Proof.
  intros i msg st Hm. unfold transfer_body.
  apply transfer_keywords_appends; [auto|exact Hm].
Qed.

(** The three detectors, run on an extractor. *)
Lemma extract_hotels_run (self : EntityExtractor) :
  messages (snd (_extract_hotels self)) = messages self /\
  item_counter (snd (_extract_hotels self)) =
    item_counter self + length (fst (_extract_hotels self)) /\
  List.map id (fst (_extract_hotels self)) =
    ids_from (item_counter self) (length (fst (_extract_hotels self))) /\
  made_from (hotel_made self) (messages self) (fst (_extract_hotels self)).
Proof. exact (detector_run _ _ self (hotel_body_appends self)). Qed.

Lemma extract_flights_run (self : EntityExtractor) :
  messages (snd (_extract_flights self)) = messages self /\
  item_counter (snd (_extract_flights self)) =
    item_counter self + length (fst (_extract_flights self)) /\
  List.map id (fst (_extract_flights self)) =
    ids_from (item_counter self) (length (fst (_extract_flights self))) /\
  made_from (flight_made self) (messages self) (fst (_extract_flights self)).
Proof. exact (detector_run _ _ self (flight_body_appends self)). Qed.

Lemma extract_transfers_run (self : EntityExtractor) :
  messages (snd (_extract_transfers self)) = messages self /\
  item_counter (snd (_extract_transfers self)) =
    item_counter self + length (fst (_extract_transfers self)) /\
  List.map id (fst (_extract_transfers self)) =
    ids_from (item_counter self) (length (fst (_extract_transfers self))) /\
  made_from (transfer_made self) (messages self) (fst (_extract_transfers self)).
Proof. exact (detector_run _ _ self (transfer_body_appends self)). Qed.

(** What holds of every item made holds of the list. *)
Lemma made_from_Forall (P : nat -> Message -> TravelItem -> Prop) (Q : TravelItem -> Prop)
    (msgs : list Message) (new : list TravelItem) :
  (forall i msg it, msgs !! i = Some msg -> P i msg it -> Q it) ->
  made_from P msgs new -> Forall Q new.
Proof.
  intros HPQ (idx & _ & Hall).
  induction Hall as [|i it idx new (msg & Hi & HP) _ IH]; constructor.
  - exact (HPQ i msg it Hi HP).
  - exact IH.
Qed.

Lemma detect_all_unfold (self : EntityExtractor) :
  detect_all self =
  ((fst (_extract_hotels self) ++
    fst (_extract_flights (snd (_extract_hotels self))) ++
    fst (_extract_transfers (snd (_extract_flights (snd (_extract_hotels self))))))%list,
   snd (_extract_transfers (snd (_extract_flights (snd (_extract_hotels self)))))).
Proof.
  unfold detect_all.
  destruct (_extract_hotels self) as [hotels self1]. simpl.
  destruct (_extract_flights self1) as [flights self2]. simpl.
  destruct (_extract_transfers self2) as [transfers self3]. reflexivity.
Qed.

Lemma extract_all_unfold (self : EntityExtractor) (confirmed_only : bool) :
  extract_all self confirmed_only =
  (sort_by_key (if confirmed_only
                then _dedupe_by_location (List.filter is_confirmed (fst (detect_all self)))
                else fst (detect_all self)),
   snd (detect_all self)).
Proof.
  unfold extract_all. destruct (detect_all self) as [items self']. reflexivity.
Qed.

Lemma dedupe_incl (l : list TravelItem) (x : TravelItem) :
  In x (_dedupe_by_location l) -> In x l.
Proof.
  unfold _dedupe_by_location.
  destruct (dedupe_fold l) as (Hother & Hnowhere & Hfirst & _).
  intros Hx. destruct (is_hotel x) eqn:Hh.
  - destruct (location_of x) as [loc|] eqn:Hl.
    + assert (Hat : hotel_at loc x = true).
      { unfold hotel_at. rewrite Hh, Hl. apply String.eqb_refl. }
      assert (H : In x (List.filter (hotel_at loc) (fst (fold_left dedupe_step l ([], ∅))))).
      { apply List.filter_In. split; assumption. }
      rewrite Hfirst in H.
      destruct (List.filter (hotel_at loc) l) as [|y ys] eqn:E; [destruct H|].
      simpl in H. destruct H as [<-|[]].
      assert (H : In y (List.filter (hotel_at loc) l)) by (rewrite E; left; reflexivity).
      apply List.filter_In in H. apply H.
    + assert (H : In x (List.filter hotel_nowhere (fst (fold_left dedupe_step l ([], ∅))))).
      { apply List.filter_In. split; [assumption|].
        unfold hotel_nowhere. rewrite Hh, Hl. reflexivity. }
      rewrite Hnowhere in H. apply List.filter_In in H. apply H.
  - assert (H : In x (List.filter (fun x => negb (is_hotel x))
                        (fst (fold_left dedupe_step l ([], ∅))))).
    { apply List.filter_In. split; [assumption|]. rewrite Hh. reflexivity. }
    rewrite Hother in H. apply List.filter_In in H. apply H.
Qed.

Lemma extract_all_incl (self : EntityExtractor) (b : bool) (x : TravelItem) :
  In x (fst (extract_all self b)) -> In x (fst (detect_all self)).
Proof.
  rewrite extract_all_unfold. simpl. intros Hx.
  apply (Permutation_in _ (sort_by_key_perm _)) in Hx.
  destruct b; [|exact Hx].
  apply dedupe_incl, List.filter_In in Hx. apply Hx.
Qed.

Lemma flight_made_messages (s1 s2 : EntityExtractor) (i : nat) (msg : Message)
    (it : TravelItem) :
  messages s1 = messages s2 -> flight_made s1 i msg it -> flight_made s2 i msg it.
Proof.
  intros H. unfold flight_made, flight_date_of.
  rewrite (check_confirmation_messages s1 s2 i 8 H).
  rewrite (date_from_context_messages s1 s2 i 5 H). auto.
Qed.

Lemma transfer_made_messages (s1 s2 : EntityExtractor) (i : nat) (msg : Message)
    (it : TravelItem) :
  messages s1 = messages s2 -> transfer_made s1 i msg it -> transfer_made s2 i msg it.
Proof.
  intros H. unfold transfer_made.
  rewrite (check_confirmation_messages s1 s2 i 8 H).
  rewrite (date_from_context_messages s1 s2 i 5 H). auto.
Qed.

Lemma made_from_impl (P Q : nat -> Message -> TravelItem -> Prop)
    (msgs : list Message) (new : list TravelItem) :
  (forall i msg it, P i msg it -> Q i msg it) ->
  made_from P msgs new -> made_from Q msgs new.
Proof.
  intros HPQ (idx & Hs & Hall). exists idx. split; [exact Hs|].
  induction Hall as [|i it idx' new' (msg & Hi & HP) _ IH]; constructor.
  - exists msg. split; [exact Hi|apply HPQ, HP].
  - apply IH. inversion Hs; assumption.
Qed.

(** The items of [detect_all]: hotels, then flights, then transfers, each
    made from the messages of the extractor. *)
Lemma detect_all_made (self : EntityExtractor) :
  exists hotels flights transfers,
    fst (detect_all self) = (hotels ++ flights ++ transfers)%list /\
    made_from (hotel_made self) (messages self) hotels /\
    made_from (flight_made self) (messages self) flights /\
    made_from (transfer_made self) (messages self) transfers.
Proof.
  rewrite detect_all_unfold. simpl.
  destruct (extract_hotels_run self) as (Hm1 & _ & _ & Hh).
  destruct (extract_flights_run (snd (_extract_hotels self))) as (Hm2 & _ & _ & Hf).
  destruct (extract_transfers_run (snd (_extract_flights (snd (_extract_hotels self)))))
    as (_ & _ & _ & Ht).
  rewrite Hm1 in Hf. rewrite Hm2, Hm1 in Ht.
  eexists _, _, _. split; [reflexivity|]. split; [exact Hh|]. split.
  - eapply made_from_impl; [|exact Hf].
    intros i msg it. apply flight_made_messages. exact Hm1.
  - eapply made_from_impl; [|exact Ht].
    intros i msg it. apply transfer_made_messages. rewrite Hm2. exact Hm1.
Qed.

End Detectors.

(** ** The inclusion gates of the flight and transfer detectors *)

(** C1, as stated, fails on a single message "ferry to Koh Lipe" when
    [extract_all] is called with [confirmed_only=False]: whatever the
    library returns, the list holds a TRANSFER item with no start date
    whose status is TENTATIVE. *)
Lemma undated_tentative_transfer_returned :
  ~ (exists L : Library,
       Forall (fun it => category it = FLIGHT \/ category it = TRANSFER ->
                         start_date it = None -> status it = CONFIRMED)
              (fst (extract_all (L := L) (__init__ ferry_messages) false))).
Proof.
  intros [L H].
  assert (E : fst (extract_all (__init__ ferry_messages) false) = [ferry_item])
    by (vm_compute; reflexivity).
  rewrite E in H. inversion H as [|x l Hx _].
  specialize (Hx (or_intror eq_refl) eq_refl). discriminate Hx.
Qed.

(** C1 (amended): every item the flight detector makes is a FLIGHT item
    that has a start date or is CONFIRMED, by the gate of the detector, and
    so is every FLIGHT item of the list [extract_all] returns; the gate of
    the transfer detector is another one: every item it makes is a TRANSFER
    item that is CONFIRMED or whose message gave a route or a time, whether
    it has a start date or not; and with [confirmed_only] every item
    returned is CONFIRMED, by the filter of [extract_all]. *)
Theorem undated_items_gate {L : Library} (self : EntityExtractor) (confirmed_only : bool) :
  Forall (fun it => category it = FLIGHT /\
                    (start_date it = None -> status it = CONFIRMED))
         (fst (_extract_flights self)) /\
  Forall (fun it => category it = TRANSFER /\
                    exists msg, source_messages it = [msg] /\
                      (status it = CONFIRMED \/
                       find_route_parts (PyStr.lower (content msg)) <> [] \/
                       find_time (content msg) <> None))
         (fst (_extract_transfers self)) /\
  Forall (fun it => category it = FLIGHT -> start_date it = None ->
                    status it = CONFIRMED)
         (fst (extract_all self confirmed_only)) /\
  Forall (fun it => status it = CONFIRMED) (fst (extract_all self true)).
Proof.
  assert (Hflight : forall s i msg it, flight_made s i msg it ->
            category it = FLIGHT /\ (start_date it = None -> status it = CONFIRMED)).
  { intros s i msg it (Hc & _ & _ & _ & _ & _ & _ & _ & Hgate).
    split; [exact Hc|]. intros Hd. destruct Hgate as [Hg|Hg]; [exact Hg|].
    rewrite Hd in Hg. discriminate. }
  split; [|split; [|split]].
  - destruct (extract_flights_run self) as (_ & _ & _ & Hf).
    eapply made_from_Forall; [|exact Hf].
    intros i msg it _. apply Hflight.
  - destruct (extract_transfers_run self) as (_ & _ & _ & Ht).
    eapply made_from_Forall; [|exact Ht].
    intros i msg it _ (Hc & Hs & _ & _ & _ & _ & _ & _ & Hgate).
    split; [exact Hc|]. exists msg. split; assumption.
  - apply List.Forall_forall. intros it Hit Hcat.
    apply extract_all_incl in Hit.
    destruct (detect_all_made self) as (hs & fs & ts & E & Hh & Hf & Ht).
    rewrite E in Hit. apply in_app_or in Hit. destruct Hit as [Hit|Hit].
    + assert (HQ : Forall (fun it => category it = HOTEL) hs).
      { eapply made_from_Forall; [|exact Hh]. intros i msg x _ Hx. apply Hx. }
      rewrite List.Forall_forall in HQ. rewrite (HQ it Hit) in Hcat. discriminate.
    + apply in_app_or in Hit. destruct Hit as [Hit|Hit].
      * assert (HQ : Forall (fun it => category it = FLIGHT /\
                               (start_date it = None -> status it = CONFIRMED)) fs).
        { eapply made_from_Forall; [|exact Hf]. intros i msg x _. apply Hflight. }
        rewrite List.Forall_forall in HQ. apply (HQ it Hit).
      * assert (HQ : Forall (fun it => category it = TRANSFER) ts).
        { eapply made_from_Forall; [|exact Ht]. intros i msg x _ Hx. apply Hx. }
        rewrite List.Forall_forall in HQ. rewrite (HQ it Hit) in Hcat. discriminate.
  - apply List.Forall_forall. intros it Hit.
    rewrite extract_all_unfold in Hit. simpl in Hit.
    apply (Permutation_in _ (sort_by_key_perm _)) in Hit.
    apply dedupe_incl, List.filter_In in Hit. destruct Hit as [_ Hc].
    unfold is_confirmed in Hc. destruct (status it); [reflexivity|discriminate].
Qed.

(** ** The location pass of [extract_all] *)


(** ** The order of the list of [extract_all] *)

Section Validity.

Context {L : Library}.

Lemma first_date_valid (l : list Message) (d : date) :
  first_date l = Some d -> valid_date d = true.
Proof.
  induction l as [|msg l IH]; simpl; [discriminate|].
  destruct (pattern_search DATE_PATTERN (content msg)) as [m|]; [|exact IH].
  destruct (date_of_match m) as [d'|] eqn:E; [|exact IH].
  intros H. injection H as <-. unfold date_of_match in E.
  destruct (Re.group 1 m); [|discriminate].
  destruct (Re.group 2 m); [|discriminate].
  exact (dateparser_parse_valid _ _ E).
Qed.

Lemma context_date_valid (self : EntityExtractor) (i w : nat) (d : date) :
  _extract_date_from_context self i w = Some d -> valid_date d = true.
Proof. apply first_date_valid. Qed.

Lemma query_date_valid (params : gmap string (string * list string)) (key : string)
    (d : date) :
  query_date params key = Some d -> valid_date d = true.
Proof.
  unfold query_date. destruct (params !! key) as [[v vs]|]; [|discriminate].
  apply date_fromisoformat_valid.
Qed.

Lemma first_checkin_valid (urls : list string) (d : date) :
  first_checkin urls = Some d -> valid_date d = true.
Proof.
  induction urls as [|url urls IH]; simpl; [discriminate|].
  destruct (query_date (parse_qs (urlparse_query url)) "checkin") as [d'|] eqn:E;
    [|exact IH].
  intros H. injection H as <-. exact (query_date_valid _ _ _ E).
Qed.

Lemma hotel_urls_valid (urls : list string) (loc : hotel_locals) (d : date) :
  (forall d0, check_in loc = Some d0 -> valid_date d0 = true) ->
  check_in (fold_left hotel_url_step urls loc) = Some d -> valid_date d = true.
Proof.
  revert loc. induction urls as [|url urls IH]; intros loc Hloc; simpl.
  - apply Hloc.
  - apply IH. intros d0. unfold hotel_url_step, _extract_dates_from_booking_url.
    destruct (query_date (parse_qs (urlparse_query url)) "checkin") as [d'|] eqn:E; simpl.
    + intros H. injection H as <-. exact (query_date_valid _ _ _ E).
    + apply Hloc.
Qed.

Lemma hotel_scan_valid (self : EntityExtractor) (i : nat) (msg : Message) (d : date) :
  check_in (hotel_scan self i msg) = Some d -> valid_date d = true.
Proof.
  unfold hotel_scan.
  match goal with
  | |- context [fold_left hotel_url_step ?urls ?loc0] =>
      pose proof (hotel_urls_valid urls loc0) as Hurls;
      destruct (check_in (fold_left hotel_url_step urls loc0)) as [d'|] eqn:E; simpl
  end.
  - rewrite E. intros H. injection H as <-. apply (Hurls d'); [discriminate|reflexivity].
  - apply context_date_valid.
Qed.

Lemma flight_date_valid (self : EntityExtractor) (i : nat) (msg : Message) (d : date) :
  flight_date_of self i msg = Some d -> valid_date d = true.
Proof.
  unfold flight_date_of, _extract_date_from_booking_url_in_text, or_date.
  match goal with
  | |- context [first_checkin ?urls] =>
      destruct (first_checkin urls) as [d'|] eqn:E
  end.
  - intros H. injection H as <-. exact (first_checkin_valid _ _ E).
  - apply context_date_valid.
Qed.

(** Every start date of an item of [detect_all] is a date the library
    built, hence within the bounds of [date]. *)
Lemma detect_all_valid (self : EntityExtractor) :
  Forall valid_start (fst (detect_all self)).
Proof.
  destruct (detect_all_made self) as (hs & fs & ts & E & Hh & Hf & Ht).
  rewrite E. apply Forall_app. split; [|apply Forall_app; split].
  - eapply made_from_Forall; [|exact Hh].
    intros i msg it _ (_ & _ & _ & _ & _ & Hd & _). unfold valid_start.
    destruct (start_date it) as [d|] eqn:Ed; [|exact I].
    symmetry in Hd. exact (hotel_scan_valid _ _ _ _ Hd).
  - eapply made_from_Forall; [|exact Hf].
    intros i msg it _ (_ & _ & _ & _ & _ & _ & Hd & _). unfold valid_start.
    destruct (start_date it) as [d|] eqn:Ed; [|exact I].
    symmetry in Hd. exact (flight_date_valid _ _ _ _ Hd).
  - eapply made_from_Forall; [|exact Ht].
    intros i msg it _ (_ & _ & _ & _ & _ & _ & Hd & _). unfold valid_start.
    destruct (start_date it) as [d|] eqn:Ed; [|exact I].
    symmetry in Hd. exact (context_date_valid _ _ _ _ Hd).
Qed.

End Validity.

Lemma date_le_antisym (a b : date) : date_le a b -> date_le b a -> a = b.
Proof.
  unfold date_le. rewrite !date_leb_iff, !date_ltb_iff. intros H1 H2.
  destruct a as [y1 m1 d1], b as [y2 m2 d2]. simpl in *.
  assert (y1 = y2) by lia. assert (m1 = m2) by lia. assert (d1 = d2) by lia.
  congruence.
Qed.

Lemma sorted_lookup {A : Type} (R : A -> A -> Prop) (l : list A) (i j : nat) (x y : A) :
  StronglySorted R l -> i < j -> l !! i = Some x -> l !! j = Some y -> R x y.
Proof.
  intros Hs. revert i j. induction Hs as [|a l Hs IH Ha]; intros i j Hij Hi Hj.
  - rewrite lookup_nil in Hi. discriminate.
  - destruct j as [|j]; [lia|]. cbn in Hj. destruct i as [|i].
    + cbn in Hi. injection Hi as <-.
      rewrite List.Forall_forall in Ha. apply Ha.
      apply list_elem_of_In, list_elem_of_lookup. exists j. exact Hj.
    + cbn in Hi. apply (IH i j); [lia|exact Hi|exact Hj].
Qed.

(** C7, as stated, fails when an item is dated on the last day a [date]
    can hold, 9999-12-31, which is the sentinel [date.max] itself: the
    undated hotel and the ferry of that day have the same key, the sort is
    stable, and the hotel, detected first, stays before the ferry. *)
Lemma undated_before_last_day :
  ~ undated_last (fst (extract_all (L := Plain.library) (__init__ last_day_messages) false)).
Proof.
  assert (E : fst (extract_all (L := Plain.library) (__init__ last_day_messages) false)
              = [gamma_item; last_day_ferry]) by (vm_compute; reflexivity).
  rewrite E. intros H.
  specialize (H 0 1 gamma_item last_day_ferry eq_refl eq_refl eq_refl).
  assert (Hlt : 1 < 0) by (apply H; discriminate). lia.
Qed.

(** C7: the list [extract_all] returns holds the items the detectors made
    (those kept by the filter and the location pass in the confirmed-only
    mode), each once, in ascending order of the key "start date, or
    [date.max] for an item without one", the items of one key in the order
    of detection.  So the start dates ascend, and every item dated before
    9999-12-31 comes before every item without a date; an item dated
    9999-12-31 has the key of the undated items and keeps its place among
    them.  The conversation of the example gives 14th, 20th, undated, and
    so do the three items of the example from every order. *)
Theorem extract_all_sorted {L : Library} (self : EntityExtractor) (confirmed_only : bool) :
  let kept := kept_items confirmed_only (fst (detect_all self)) in
  let sorted := fst (extract_all self confirmed_only) in
  Permutation sorted kept /\
  StronglySorted key_le sorted /\
  (forall k,
     List.filter (fun y => date_eqb (sort_key y) k) sorted =
     List.filter (fun y => date_eqb (sort_key y) k) kept) /\
  (forall i j x y d e,
     sorted !! i = Some x -> sorted !! j = Some y -> i < j ->
     start_date x = Some d -> start_date y = Some e -> date_le d e) /\
  (forall i j x y d,
     sorted !! i = Some x -> sorted !! j = Some y ->
     start_date x = Some d -> d <> date_max -> start_date y = None -> i < j) /\
  List.map start_date
    (fst (extract_all (L := Plain.library) (__init__ sorted_messages) false)) =
    [Some (Date 2026 3 14); Some (Date 2026 3 20); None] /\
  Forall (fun l => sort_by_key l = [on_14th; on_20th; undated])
         [[on_14th; on_20th; undated]; [on_14th; undated; on_20th];
          [on_20th; on_14th; undated]; [on_20th; undated; on_14th];
          [undated; on_14th; on_20th]; [undated; on_20th; on_14th]].
Proof.
  intros kept sorted.
  assert (E : sorted = sort_by_key kept).
  { unfold sorted, kept, kept_items. rewrite extract_all_unfold. reflexivity. }
  assert (Hsorted : StronglySorted key_le sorted).
  { rewrite E. apply sort_by_key_sorted. }
  split; [rewrite E; apply sort_by_key_perm|]. split; [exact Hsorted|].
  split; [intros k; rewrite E; apply sort_by_key_stable|]. split; [|split; [|split]].
  - intros i j x y d e Hi Hj Hij Hx Hy.
    pose proof (sorted_lookup _ _ _ _ _ _ Hsorted Hij Hi Hj) as Hle.
    unfold key_le, sort_key in Hle. rewrite Hx, Hy in Hle. exact Hle.
  - intros i j x y d Hi Hj Hx Hd Hy.
    destruct (Nat.lt_trichotomy i j) as [Hlt|[Heq|Hgt]]; [exact Hlt| |].
    + subst j. rewrite Hi in Hj. injection Hj as <-. congruence.
    + exfalso. apply Hd.
      pose proof (sorted_lookup _ _ _ _ _ _ Hsorted Hgt Hj Hi) as Hle.
      unfold key_le, sort_key in Hle. rewrite Hx, Hy in Hle.
      apply date_le_antisym; [|exact Hle].
      assert (Hin : In x (fst (detect_all self))).
      { apply (extract_all_incl self confirmed_only).
        apply list_elem_of_In, list_elem_of_lookup. exists i. exact Hi. }
      pose proof (detect_all_valid self) as Hv. rewrite List.Forall_forall in Hv.
      specialize (Hv x Hin). unfold valid_start in Hv. rewrite Hx in Hv.
      apply valid_date_le_max, Hv.
  - vm_compute. reflexivity.
  - repeat constructor.
Qed.

(** ** The date range of [build_itinerary] *)

Lemma fold_min (l : list date) (x : date) :
  let r := fold_left (fun m y => if date_ltb y m then y else m) l x in
  In r (x :: l) /\ Forall (date_le r) (x :: l).
Proof.
  revert x. induction l as [|y l IH]; intros x; simpl.
  - split; [left; reflexivity|]. repeat constructor. apply date_le_refl.
  - destruct (date_ltb y x) eqn:E.
    + destruct (IH y) as [Hin Hall]. split.
      * simpl in Hin. tauto.
      * inversion Hall as [|? ? Hy Hl]; subst.
        constructor; [|constructor; assumption].
        apply (date_le_trans _ y); [exact Hy|apply date_lt_le, E].
    + destruct (IH x) as [Hin Hall]. split.
      * simpl in Hin. simpl. tauto.
      * inversion Hall as [|? ? Hx Hl]; subst.
        constructor; [exact Hx|]. constructor; [|exact Hl].
        apply (date_le_trans _ x); [exact Hx|apply date_not_lt_le, E].
Qed.

Lemma fold_max (l : list date) (x : date) :
  let r := fold_left (fun m y => if date_ltb m y then y else m) l x in
  In r (x :: l) /\ Forall (fun d => date_le d r) (x :: l).
Proof.
  revert x. induction l as [|y l IH]; intros x; simpl.
  - split; [left; reflexivity|]. repeat constructor. apply date_le_refl.
  - destruct (date_ltb x y) eqn:E.
    + destruct (IH y) as [Hin Hall]. split.
      * simpl in Hin. tauto.
      * inversion Hall as [|? ? Hy Hl]; subst.
        constructor; [|constructor; assumption].
        apply (date_le_trans _ y); [apply date_lt_le, E|exact Hy].
    + destruct (IH x) as [Hin Hall]. split.
      * simpl in Hin. simpl. tauto.
      * inversion Hall as [|? ? Hx Hl]; subst.
        constructor; [exact Hx|]. constructor; [|exact Hl].
        apply (date_le_trans _ x); [apply date_not_lt_le, E|exact Hx].
Qed.

Lemma in_item_dates (items : list TravelItem) (d : date) :
  In d (item_dates items) <-> exists x, In x items /\ start_date x = Some d.
Proof.
  unfold item_dates. rewrite <- list_elem_of_In, list_elem_of_omap.
  split; intros (x & Hx & Hd); exists x; split; auto; apply list_elem_of_In; exact Hx.
Qed.

(** C8: [build_itinerary] returns an itinerary and raises nothing; the
    itinerary has the title and the participants given, the destination
    Thailand, and the list of [extract_all] as its items.  When no item has
    a start date (in particular when there is no item) the range is
    2026-03-14 to 2026-03-28.  When some item has one, the first day of the
    range is the start date of an item, and no item starts before it; the
    last day is the start date of an item, and no item starts after it.
    The conversation of the example, a ferry on the 14th, a flight on the
    20th and a hotel without a date, gives the range 2026-03-14 to
    2026-03-20; a conversation without any item gives the fixed range. *)
Theorem build_itinerary_returns {L : Library} (self : EntityExtractor) (title : string)
    (people : list string) (confirmed_only : bool) :
  (exists it self',
    build_itinerary self title people confirmed_only = Ok (it, self') /\
    it_title it = title /\ destination it = "Thailand" /\
    participants it = people /\
    items it = fst (extract_all self confirmed_only) /\
    self' = snd (extract_all self confirmed_only) /\
    ((forall x, In x (items it) -> start_date x = None) ->
     it_start_date it = Some (Date 2026 3 14) /\
     it_end_date it = Some (Date 2026 3 28)) /\
    (forall x d, In x (items it) -> start_date x = Some d ->
     exists lo hi first last,
       it_start_date it = Some lo /\ it_end_date it = Some hi /\
       In first (items it) /\ start_date first = Some lo /\
       In last (items it) /\ start_date last = Some hi /\
       forall y e, In y (items it) -> start_date y = Some e ->
                   date_le lo e /\ date_le e hi)) /\
  (exists it self',
    build_itinerary (L := Plain.library) (__init__ sorted_messages) "Trip" ["Ann"] false
      = Ok (it, self') /\
    List.map start_date (items it) = [Some (Date 2026 3 14); Some (Date 2026 3 20); None] /\
    it_start_date it = Some (Date 2026 3 14) /\
    it_end_date it = Some (Date 2026 3 20)) /\
  (exists it self',
    build_itinerary (L := Plain.library) (__init__ [said "ok"]) "Trip" ["Ann"] true
      = Ok (it, self') /\
    items it = [] /\
    it_start_date it = Some (Date 2026 3 14) /\
    it_end_date it = Some (Date 2026 3 28)).
Proof.
  split; [|split].
  - unfold build_itinerary.
    destruct (extract_all self confirmed_only) as [l self'] eqn:E. cbn [fst snd].
    destruct (item_dates l) as [|d0 ds] eqn:Ed.
    + cbn [bind]. eexists _, _. split; [reflexivity|]. cbn [it_title destination
        participants items it_start_date it_end_date].
      repeat (split; [reflexivity|]). split; [auto|].
      intros x d Hx Hd. exfalso.
      assert (Hin : In d (item_dates l)) by (apply in_item_dates; eauto).
      rewrite Ed in Hin. exact Hin.
    + cbn [py_min py_max bind].
      destruct (fold_min ds d0) as [Hin_lo Hlo]. destruct (fold_max ds d0) as [Hin_hi Hhi].
      cbv zeta in Hin_lo, Hlo, Hin_hi, Hhi.
      set (lo := fold_left (fun m y => if date_ltb y m then y else m) ds d0) in *.
      set (hi := fold_left (fun m y => if date_ltb m y then y else m) ds d0) in *.
      rewrite <- Ed in Hin_lo, Hlo, Hin_hi, Hhi.
      eexists _, _. split; [reflexivity|]. cbn [it_title destination
        participants items it_start_date it_end_date].
      repeat (split; [reflexivity|]). split.
      * intros Hnone. exfalso.
        assert (Hin : In d0 (item_dates l)) by (rewrite Ed; left; reflexivity).
        apply (proj1 (in_item_dates _ _)) in Hin. destruct Hin as (x & Hx & Hd).
        rewrite (Hnone x Hx) in Hd. discriminate.
      * intros _ _ _ _.
        apply (proj1 (in_item_dates _ _)) in Hin_lo. destruct Hin_lo as (first & Hf & Hfd).
        apply (proj1 (in_item_dates _ _)) in Hin_hi. destruct Hin_hi as (last & Hl & Hld).
        exists lo, hi, first, last. repeat (split; [first [reflexivity|assumption]|]).
        intros y e Hy He.
        assert (Hin : In e (item_dates l)) by (apply in_item_dates; eauto).
        rewrite List.Forall_forall in Hlo, Hhi. split; [apply Hlo, Hin|apply Hhi, Hin].
  - eexists _, _. split; [vm_compute; reflexivity|]. repeat split.
  - eexists _, _. split; [vm_compute; reflexivity|]. repeat split.
Qed.

(** ** The route of a transfer *)

Lemma existsb_first_occurrences {K : Type} (eqb : K -> K -> bool)
    (eqb_eq : forall a b, eqb a b = true <-> a = b) (k : K) (l : list K) :
  existsb (eqb k) (first_occurrences eqb l) = existsb (eqb k) l.
Proof.
  destruct (existsb (eqb k) l) eqn:E.
  - apply (existsb_true_iff eqb eqb_eq), (in_first_occurrences eqb eqb_eq),
      (existsb_true_iff eqb eqb_eq), E.
  - apply (existsb_false_iff eqb eqb_eq).
    rewrite (in_first_occurrences eqb eqb_eq).
    apply (existsb_false_iff eqb eqb_eq), E.
Qed.

(** A loop that appends what is not yet in the list collects the first
    occurrences. *)
Lemma fold_first_occurrences {A K : Type} (eqb : K -> K -> bool)
    (eqb_eq : forall a b, eqb a b = true <-> a = b)
    (hit : A -> bool) (f : A -> K) (l : list A) :
  fold_left (fun acc x =>
               if hit x
               then if existsb (eqb (f x)) acc then acc else (acc ++ [f x])%list
               else acc) l [] =
  first_occurrences eqb (List.map f (List.filter hit l)).
Proof.
  induction l as [|x l IH] using rev_ind; [reflexivity|].
  rewrite fold_left_app, filter_snoc. simpl. rewrite IH.
  destruct (hit x).
  - rewrite List.map_app. simpl.
    rewrite (first_occurrences_snoc eqb eqb_eq).
    rewrite (existsb_first_occurrences eqb eqb_eq). reflexivity.
  - rewrite app_nil_r. reflexivity.
Qed.

Lemma find_route_parts_table (content_lower : string) :
  find_route_parts content_lower = route_in_table_order content_lower.
Proof.
  apply (fold_first_occurrences String.eqb String.eqb_eq
           (fun island => PyStr.contains (PyStr.lower island) content_lower)
           (PyStr.replace "Koh " "")).
Qed.

(** C3, as stated, fails on "ferry from Koh Lanta to Koh Lipe": whatever
    the library returns, the item is not titled with Lanta first. *)
Lemma lanta_before_lipe_not_first :
  ~ (exists L : Library,
       List.map title (fst (_extract_transfers (L := L) (__init__ ferry_lanta_lipe))) =
       ["Ferry Lanta → Lipe"]).
Proof.
  intros [L H]. vm_compute in H. discriminate H.
Qed.

(** C3 (amended): every transfer item is titled with the route of its
    message, and that route lists the islands in the order of the fixed
    table of islands (the forms with "Koh" first), not in the order of the
    text: a text that contains both "koh lipe" and "koh lanta" has the route
    Lipe, Lanta whichever comes first, and both messages of the example are
    titled "Ferry Lipe → Lanta". *)
Theorem transfer_route_order {L : Library} (self : EntityExtractor) (content_lower : string) :
  made_from (transfer_made self) (messages self) (fst (_extract_transfers self)) /\
  find_route_parts content_lower = route_in_table_order content_lower /\
  (PyStr.contains "koh lipe" content_lower = true ->
   PyStr.contains "koh lanta" content_lower = true ->
   exists more, find_route_parts content_lower = "Lipe" :: "Lanta" :: more) /\
  List.map title (fst (_extract_transfers (__init__ ferry_lipe_lanta))) =
    ["Ferry Lipe → Lanta"] /\
  List.map title (fst (_extract_transfers (__init__ ferry_lanta_lipe))) =
    ["Ferry Lipe → Lanta"].
Proof.
  split; [apply extract_transfers_run|].
  split; [apply find_route_parts_table|].
  split; [|split; vm_compute; reflexivity].
  intros Hlipe Hlanta. rewrite find_route_parts_table.
  unfold route_in_table_order, islands.
  cbn [List.filter]. change (PyStr.lower "Koh Lipe") with "koh lipe".
  change (PyStr.lower "Koh Lanta") with "koh lanta".
  rewrite Hlipe, Hlanta. cbn [List.map first_occurrences].
  change (PyStr.replace "Koh " "" "Koh Lipe") with "Lipe".
  change (PyStr.replace "Koh " "" "Koh Lanta") with "Lanta".
  cbn [List.filter]. change (negb ("Lanta" =? "Lipe")%string) with true.
  cbv iota. eexists. reflexivity.
Qed.

(** ** The flight detector *)

Section FlightLoop.

Context {L : Library}.


Lemma flight_patterns_gated (i : nat) (msg : Message) (pat : pattern)
    (airline_name : string) (pats : list (pattern * string)) (st : detector) :
  found (pattern_search pat (content msg)) = true ->
  flight_key (self_ st) i msg airline_name ∉ seen st ->
  _check_confirmation (self_ st) i 8 = TENTATIVE ->
  flight_date_of (self_ st) i msg = None ->
  flight_patterns i msg ((pat, airline_name) :: pats) st =
  flight_patterns i msg pats
    (mkDetector (found_items st)
                ({[flight_key (self_ st) i msg airline_name]} ∪ seen st) (self_ st)).
Proof.
  intros Hfound Hin Hst Hd. cbn [flight_patterns]. rewrite Hfound.
  fold (flight_date_of (self_ st) i msg).
  fold (flight_key (self_ st) i msg airline_name).
  rewrite (bool_decide_eq_false_2 _ Hin), Hst, Hd. reflexivity.
Qed.


End FlightLoop.



(** C10: in the flight detector the key is registered before the gate: a
    matching pattern whose key is new and whose mention is TENTATIVE and
    undated makes no item and hands over to the next pattern with the key
    in the set.  On the nine messages of the example the first mention of Etihad is
    TENTATIVE and undated: it gives no item and leaves its key in the set;
    the last message names the same airline with the same (absent) route
    and no date and resolves to CONFIRMED, and gives no item either, so
    the detector returns nothing, while the last message alone gives a
    CONFIRMED item. *)
Theorem key_registered_before_gate {L : Library} :
  (forall i msg pat airline_name pats st,
     found (pattern_search pat (content msg)) = true ->
     flight_key (self_ st) i msg airline_name ∉ seen st ->
     _check_confirmation (self_ st) i 8 = TENTATIVE ->
     flight_date_of (self_ st) i msg = None ->
     flight_patterns i msg ((pat, airline_name) :: pats) st =
     flight_patterns i msg pats
       (mkDetector (found_items st)
                   ({[flight_key (self_ st) i msg airline_name]} ∪ seen st) (self_ st))) /\
  let self := __init__ tentative_then_confirmed in
  let first := said "Etihad flight" in
  let last := said "Etihad flight booked" in
  messages self !! 0 = Some first /\ messages self !! 8 = Some last /\
  first_airline (content first) = Some "Etihad" /\
  first_airline (content last) = Some "Etihad" /\
  _identify_route (content first) = None /\ _identify_route (content last) = None /\
  flight_date_of self 0 first = None /\ flight_date_of self 8 last = None /\
  _check_confirmation self 0 8 = TENTATIVE /\
  _check_confirmation self 8 8 = CONFIRMED /\
  found_items (flight_body 0 first (mkDetector [] ∅ self)) = [] /\
  bool_decide ("Etihad-unknown-nodate" ∈ seen (flight_body 0 first (mkDetector [] ∅ self)))
    = true /\
  fst (_extract_flights self) = [] /\
  fst (_extract_flights (__init__ confirmed_alone)) = [confirmed_alone_item].
Proof.
  split; [exact flight_patterns_gated|].
  repeat split; vm_compute; reflexivity.
Qed.

(** ** The hotel detector *)

Lemma for_enumerate_inv {St : Type} (body : nat -> Message -> St -> St)
    (Inv : nat -> St -> Prop) (msgs : list Message) :
  (forall i msg st, msgs !! i = Some msg -> Inv i st -> Inv (S i) (body i msg st)) ->
  forall st, Inv 0 st -> Inv (length msgs) (for_enumerate body 0 msgs st).
Proof.
  intros Hstep.
  assert (H : forall l i st,
             (forall j msg, l !! j = Some msg -> msgs !! (i + j) = Some msg) ->
             Inv i st -> Inv (i + length l) (for_enumerate body i l st)).
  { induction l as [|x l IH]; intros i st Hl Hinv; simpl.
    - rewrite Nat.add_0_r. exact Hinv.
    - replace (i + S (length l)) with (S i + length l) by lia. apply IH.
      + intros j msg Hj. replace (S i + j) with (i + S j) by lia. apply Hl. exact Hj.
      + apply Hstep; [|exact Hinv]. rewrite <- (Nat.add_0_r i). apply Hl. reflexivity. }
  intros st Hinv. apply (H msgs 0 st); auto.
Qed.

Section Hotels.

Context {L : Library}.

Lemma hotels_inv_skip (self : EntityExtractor) (i : nat) (st : detector) :
  hotels_inv self i st ->
  (forall k, mentions self k i -> k ∈ seen st) ->
  hotels_inv self (S i) st.
Proof.
  intros (Hm & Hseen & Hkeys & Huniq) Hnew.
  split; [exact Hm|]. split; [|split; [exact Hkeys|]].
  - intros k. split.
    + intros Hk. apply Hseen in Hk. destruct Hk as (j & Hj & Hmen).
      exists j. split; [lia|exact Hmen].
    + intros (j & Hj & Hmen). destruct (Nat.eq_dec j i) as [->|Hne].
      * apply Hnew, Hmen.
      * apply Hseen. exists j. split; [lia|exact Hmen].
  - intros k Hk. destruct (Huniq k Hk) as (it & j & msg & Hf & Hj & Hmade & Hkey & Hlt & Hfirst).
    exists it, j, msg.
    split; [exact Hf|]. split; [exact Hj|]. split; [exact Hmade|].
    split; [exact Hkey|]. split; [lia|exact Hfirst].
Qed.

Lemma hotel_body_inv (self : EntityExtractor) (i : nat) (msg : Message) (st : detector) :
  messages self !! i = Some msg ->
  hotels_inv self i st -> hotels_inv self (S i) (hotel_body i msg st).
Proof.
  intros Hi Hinv.
  assert (Hment : forall k, mentions self k i ->
            exists name, named_hotel self i msg = Some name /\ hotel_key name = k).
  { intros k (msg' & name & Hi' & Hn & Hk). rewrite Hi in Hi'. injection Hi' as <-. eauto. }
  pose proof Hinv as (Hm & Hseen & Hkeys & Huniq).
  unfold hotel_body.
  rewrite (hotel_scan_messages (self_ st) self i msg Hm).
  rewrite (check_confirmation_messages (self_ st) self i 8 Hm).
  unfold named_hotel in Hment.
  destruct (hotel_name (hotel_scan self i msg)) as [name|] eqn:En.
  2: { apply hotels_inv_skip; [exact Hinv|].
       intros k Hk. destruct (Hment k Hk) as (n & Hn & _). discriminate. }
  destruct (PyStr.falsy name) eqn:Ef.
  { apply hotels_inv_skip; [exact Hinv|].
    intros k Hk. destruct (Hment k Hk) as (n & Hn & _). discriminate. }
  fold (hotel_key name).
  destruct (bool_decide (hotel_key name ∈ seen st)) eqn:Hin.
  { apply bool_decide_eq_true in Hin. apply hotels_inv_skip; [exact Hinv|].
    intros k Hk. destruct (Hment k Hk) as (n & Hn & <-). injection Hn as <-. exact Hin. }
  apply bool_decide_eq_false in Hin.
  cbv beta iota zeta delta [_generate_id].
  match goal with
  | |- hotels_inv _ _ {| found_items := _ ++ [?x]; seen := _; self_ := _ |} =>
      set (it := x)
  end.
  assert (Hnamed : named_hotel self i msg = Some name).
  { unfold named_hotel. rewrite En, Ef. reflexivity. }
  assert (Hmade : hotel_made self i msg it).
  { unfold hotel_made. rewrite Hnamed. repeat split; reflexivity. }
  assert (Hnone : List.filter (keyed_as (hotel_key name)) (found_items st) = []).
  { destruct (List.filter (keyed_as (hotel_key name)) (found_items st)) as [|x xs] eqn:E;
      [reflexivity|].
    exfalso.
    assert (Hx : In x (List.filter (keyed_as (hotel_key name)) (found_items st)))
      by (rewrite E; left; reflexivity).
    apply List.filter_In in Hx. destruct Hx as [Hx Hk].
    apply Hin. unfold keyed_as in Hk. apply String.eqb_eq in Hk.
    rewrite <- Hk. apply Hkeys, Hx. }
  split; [exact Hm|]. split; [|split].
  - intros k. cbn [seen]. rewrite elem_of_union, elem_of_singleton. split.
    + intros [->|Hk].
      * exists i. split; [lia|]. exists msg, name. auto.
      * apply Hseen in Hk. destruct Hk as (j & Hj & Hmen).
        exists j. split; [lia|exact Hmen].
    + intros (j & Hj & Hmen). destruct (Nat.eq_dec j i) as [->|Hne].
      * left. destruct (Hment k Hmen) as (n & Hn & <-).
        injection Hn as <-. reflexivity.
      * right. apply Hseen. exists j. split; [lia|exact Hmen].
  - intros x Hx. cbn [seen found_items] in *.
    apply in_app_or in Hx. apply elem_of_union. destruct Hx as [Hx|[<-|[]]].
    + right. apply Hkeys, Hx.
    + left. apply elem_of_singleton. reflexivity.
  - intros k Hk. cbn [seen found_items] in *. rewrite filter_snoc.
    destruct (String.eqb_spec (hotel_key name) k) as [<-|Hne].
    + exists it, i, msg. rewrite Hnone.
      assert (Hkey : keyed_as (hotel_key name) it = true) by apply String.eqb_refl.
      rewrite Hkey.
      split; [reflexivity|]. split; [exact Hi|]. split; [exact Hmade|].
      split; [reflexivity|]. split; [lia|].
      intros j' Hj' Hmen. apply Hin, Hseen. exists j'. split; assumption.
    + apply elem_of_union in Hk. destruct Hk as [Hk|Hk];
        [apply elem_of_singleton in Hk; congruence|].
      destruct (Huniq k Hk) as (it0 & j & msg0 & Hf & Hj & Hmade0 & Hkey0 & Hlt & Hfirst).
      exists it0, j, msg0.
      assert (Hkey : keyed_as k it = false) by (apply String.eqb_neq; exact Hne).
      rewrite Hkey, app_nil_r.
      split; [exact Hf|]. split; [exact Hj|]. split; [exact Hmade0|].
      split; [exact Hkey0|]. split; [lia|exact Hfirst].
Qed.

Lemma extract_hotels_inv (self : EntityExtractor) :
  hotels_inv self (length (messages self))
    (for_enumerate hotel_body 0 (messages self) (mkDetector [] ∅ self)).
Proof.
  apply (for_enumerate_inv hotel_body (hotels_inv self) (messages self)).
  - intros i msg st. apply hotel_body_inv.
  - split; [reflexivity|]. split; [|split].
    + intros k. split.
      * intros H. exfalso. revert H. apply not_elem_of_empty.
      * intros (j & Hj & _). lia.
    + intros it [].
    + intros k H. exfalso. revert H. apply not_elem_of_empty.
Qed.

End Hotels.

(** C5: when two messages name the same hotel (the names are equal after
    lower-casing and stripping), the hotel detector returns exactly one
    item whose title has that key; it is a HOTEL item made from the first
    message that names the hotel, which is at or before the first of the
    two, so the later mention gives no item. *)
Theorem hotel_named_once {L : Library} (self : EntityExtractor) (i1 i2 : nat)
    (m1 m2 : Message) (n1 n2 : string) :
  messages self !! i1 = Some m1 ->
  messages self !! i2 = Some m2 ->
  i1 < i2 ->
  named_hotel self i1 m1 = Some n1 ->
  named_hotel self i2 m2 = Some n2 ->
  hotel_key n1 = hotel_key n2 ->
  exists it j msg,
    List.filter (keyed_as (hotel_key n1)) (fst (_extract_hotels self)) = [it] /\
    category it = HOTEL /\
    j <= i1 /\
    messages self !! j = Some msg /\
    source_messages it = [msg] /\
    named_hotel self j msg = Some (title it) /\
    hotel_key (title it) = hotel_key n1 /\
    forall j' msg' n',
      j' < j -> messages self !! j' = Some msg' ->
      named_hotel self j' msg' = Some n' -> hotel_key n' <> hotel_key n1.
Proof.
  intros H1 H2 Hlt Hn1 Hn2 Hkey.
  destruct (extract_hotels_inv self) as (_ & Hseen & _ & Huniq).
  assert (Hmen : mentions self (hotel_key n1) i1) by (exists m1, n1; auto).
  assert (Hk : hotel_key n1 ∈
               seen (for_enumerate hotel_body 0 (messages self) (mkDetector [] ∅ self))).
  { apply Hseen. exists i1. split; [|exact Hmen].
    apply lookup_lt_Some in H1. exact H1. }
  destruct (Huniq _ Hk) as (it & j & msg & Hf & Hj & Hmade & Hkeyit & _ & Hfirst).
  exists it, j, msg.
  destruct Hmade as (Hc & Hsrc & _ & Hnamed & _).
  split; [exact Hf|]. split; [exact Hc|]. split.
  { destruct (Nat.le_gt_cases j i1) as [Hle|Hgt]; [exact Hle|].
    exfalso. exact (Hfirst i1 Hgt Hmen). }
  split; [exact Hj|]. split; [exact Hsrc|]. split; [exact Hnamed|].
  split; [exact Hkeyit|].
  intros j' msg' n' Hj' Hmsg' Hn' Hk'. apply (Hfirst j' Hj').
  exists msg', n'. auto.
Qed.

(** The hotel detector on two messages that name "The Reef", the second
    one in lower case and with one more blank. *)
Lemma hotel_named_once_witness :
  let self := __init__ reef_messages in
  named_hotel (L := Plain.library) self 0 (said "Check out The Reef on Booking.com")
    = Some "The Reef" /\
  named_hotel (L := Plain.library) self 1 (said "check out the reef  on booking.com")
    = Some "the reef" /\
  exists it j msg,
    List.filter (keyed_as (hotel_key "The Reef"))
      (fst (_extract_hotels (L := Plain.library) self)) = [it] /\
    category it = HOTEL /\
    j <= 0 /\
    messages self !! j = Some msg /\
    source_messages it = [msg] /\
    named_hotel (L := Plain.library) self j msg = Some (title it) /\
    hotel_key (title it) = hotel_key "The Reef" /\
    forall j' msg' n',
      j' < j -> messages self !! j' = Some msg' ->
      named_hotel (L := Plain.library) self j' msg' = Some n' ->
      hotel_key n' <> hotel_key "The Reef".
Proof.
  split; [reflexivity|]. split; [reflexivity|].
  apply (hotel_named_once (L := Plain.library) (__init__ reef_messages) 0 1
           (said "Check out The Reef on Booking.com")
           (said "check out the reef  on booking.com") "The Reef" "the reef");
    [reflexivity|reflexivity|lia|reflexivity|reflexivity|reflexivity].
Defined.

(** ** Reproducibility *)

Lemma for_enumerate_same (body : nat -> Message -> detector -> detector) :
  (forall i msg st st', same_content st st' ->
                        same_content (body i msg st) (body i msg st')) ->
  forall l i st st',
    same_content st st' ->
    same_content (for_enumerate body i l st) (for_enumerate body i l st').
Proof.
  intros Hbody. induction l as [|x l IH]; intros i st st' H; simpl; [exact H|].
  apply IH, Hbody, H.
Qed.

Lemma same_content_snoc (items items' : list TravelItem) (x x' : TravelItem)
    (s : gset string) (e e' : EntityExtractor) :
  List.map erase_id items = List.map erase_id items' ->
  erase_id x = erase_id x' ->
  messages e = messages e' ->
  same_content (mkDetector (items ++ [x]) s e) (mkDetector (items' ++ [x']) s e').
Proof.
  intros Hi Hx Hm. split; [|split; [reflexivity|exact Hm]].
  simpl. rewrite !List.map_app, Hi. simpl. rewrite Hx. reflexivity.
Qed.

Section Reproducible.

Context {L : Library}.

Lemma hotel_body_same (i : nat) (msg : Message) (st st' : detector) :
  same_content st st' -> same_content (hotel_body i msg st) (hotel_body i msg st').
Proof.
  intros H. pose proof H as (Hi & Hs & Hm). unfold hotel_body.
  rewrite (hotel_scan_messages (self_ st) (self_ st') i msg Hm).
  rewrite (check_confirmation_messages (self_ st) (self_ st') i 8 Hm).
  rewrite Hs.
  destruct (hotel_name (hotel_scan (self_ st') i msg)) as [name|]; [|exact H].
  destruct (PyStr.falsy name); [exact H|].
  destruct (bool_decide _); [exact H|].
  cbv beta iota zeta delta [_generate_id].
  apply same_content_snoc; [exact Hi|erased|exact Hm].
Qed.

Lemma flight_patterns_same (i : nat) (msg : Message) (pats : list (pattern * string))
    (st st' : detector) :
  same_content st st' ->
  same_content (flight_patterns i msg pats st) (flight_patterns i msg pats st').
Proof.
  revert st st'. induction pats as [|[pat airline_name] pats IH]; intros st st' H;
    [exact H|].
  pose proof H as (Hi & Hs & Hm). cbn [flight_patterns].
  rewrite (check_confirmation_messages (self_ st) (self_ st') i 8 Hm).
  rewrite (date_from_context_messages (self_ st) (self_ st') i 5 Hm).
  rewrite Hs.
  destruct (found (pattern_search pat (content msg))); [|apply IH, H].
  destruct (bool_decide _); [apply IH, H|].
  destruct (negb _ && negb _).
  - apply IH. split; [exact Hi|]. split; [reflexivity|exact Hm].
  - cbv beta iota zeta delta [_generate_id]. cbn [found_items seen self_].
    apply same_content_snoc; [exact Hi|erased|exact Hm].
Qed.

Lemma flight_body_same (i : nat) (msg : Message) (st st' : detector) :
  same_content st st' -> same_content (flight_body i msg st) (flight_body i msg st').
Proof.
  intros H. unfold flight_body.
  destruct (negb (has_flight_context (PyStr.lower (content msg)))); [exact H|].
  apply flight_patterns_same, H.
Qed.

Lemma transfer_keywords_same (i : nat) (msg : Message) (keywords : list string)
    (st st' : detector) :
  same_content st st' ->
  same_content (transfer_keywords i msg keywords st)
               (transfer_keywords i msg keywords st').
Proof.
  revert st st'. induction keywords as [|keyword keywords IH]; intros st st' H;
    [exact H|].
  pose proof H as (Hi & Hs & Hm). cbn [transfer_keywords].
  rewrite (check_confirmation_messages (self_ st) (self_ st') i 8 Hm).
  rewrite (date_from_context_messages (self_ st) (self_ st') i 5 Hm).
  rewrite Hs.
  destruct (PyStr.contains keyword (PyStr.lower (content msg))); [|apply IH, H].
  destruct (negb _ && negb _); [apply IH, H|].
  destruct (bool_decide _); [apply IH, H|].
  cbv beta iota zeta delta [_generate_id].
  apply same_content_snoc; [exact Hi|erased|exact Hm].
Qed.

Lemma transfer_body_same (i : nat) (msg : Message) (st st' : detector) :
  same_content st st' ->
  same_content (transfer_body i msg st) (transfer_body i msg st').
Proof. apply transfer_keywords_same. Qed.

(** A detector run on two extractors with the same messages. *)
Lemma detector_same (body : nat -> Message -> detector -> detector)
    (s1 s2 : EntityExtractor) :
  (forall i msg st st', same_content st st' ->
                        same_content (body i msg st) (body i msg st')) ->
  messages s1 = messages s2 ->
  same_content (for_enumerate body 0 (messages s1) (mkDetector [] ∅ s1))
               (for_enumerate body 0 (messages s2) (mkDetector [] ∅ s2)).
Proof.
  intros Hbody Hm. rewrite Hm. apply for_enumerate_same; [exact Hbody|].
  split; [reflexivity|]. split; [reflexivity|exact Hm].
Qed.

Lemma detect_all_same (s1 s2 : EntityExtractor) :
  messages s1 = messages s2 ->
  List.map erase_id (fst (detect_all s1)) = List.map erase_id (fst (detect_all s2)).
Proof.
  intros Hm. rewrite !detect_all_unfold. cbn [fst].
  destruct (detector_same hotel_body s1 s2 hotel_body_same Hm) as (Hh & _ & Hm1).
  destruct (detector_same flight_body _ _ flight_body_same Hm1) as (Hf & _ & Hm2).
  destruct (detector_same transfer_body _ _ transfer_body_same Hm2) as (Ht & _ & _).
  rewrite !List.map_app. unfold _extract_hotels, _extract_flights, _extract_transfers.
  cbn [fst snd]. rewrite Hh, Hf, Ht. reflexivity.
Qed.

End Reproducible.

(** The filter, the location pass and the sort of [extract_all] do not
    look at the ids. *)
Lemma filter_confirmed_erase (l : list TravelItem) :
  List.map erase_id (List.filter is_confirmed l) =
  List.filter is_confirmed (List.map erase_id l).
Proof.
  induction l as [|x l IH]; simpl; [reflexivity|].
  change (is_confirmed (erase_id x)) with (is_confirmed x).
  destruct (is_confirmed x); simpl; rewrite IH; reflexivity.
Qed.

Lemma dedupe_step_erase (res : list TravelItem) (s : gset string) (x : TravelItem) :
  dedupe_step (List.map erase_id res, s) (erase_id x) =
  (List.map erase_id (fst (dedupe_step (res, s) x)), snd (dedupe_step (res, s) x)).
Proof.
  unfold dedupe_step.
  change (category (erase_id x)) with (category x).
  change (location_of (erase_id x)) with (location_of x).
  destruct (negb (category_eqb (category x) HOTEL)); simpl.
  - rewrite List.map_app. reflexivity.
  - destruct (location_of x) as [loc|]; simpl.
    + destruct (bool_decide (loc ∈ s)); simpl; [reflexivity|].
      rewrite List.map_app. reflexivity.
    + rewrite List.map_app. reflexivity.
Qed.

Lemma dedupe_fold_erase (l res : list TravelItem) (s : gset string) :
  fold_left dedupe_step (List.map erase_id l) (List.map erase_id res, s) =
  (List.map erase_id (fst (fold_left dedupe_step l (res, s))),
   snd (fold_left dedupe_step l (res, s))).
Proof.
  revert res s. induction l as [|x l IH]; intros res s; [reflexivity|].
  cbn [fold_left List.map]. rewrite dedupe_step_erase.
  destruct (dedupe_step (res, s) x) as [res' s']. apply IH.
Qed.

Lemma dedupe_erase (l : list TravelItem) :
  List.map erase_id (_dedupe_by_location l) = _dedupe_by_location (List.map erase_id l).
Proof.
  unfold _dedupe_by_location.
  rewrite (dedupe_fold_erase l [] ∅). reflexivity.
Qed.

Lemma insert_by_key_erase (x : TravelItem) (l : list TravelItem) :
  List.map erase_id (insert_by_key x l) = insert_by_key (erase_id x) (List.map erase_id l).
Proof.
  induction l as [|y l IH]; simpl; [reflexivity|].
  change (sort_key (erase_id x)) with (sort_key x).
  change (sort_key (erase_id y)) with (sort_key y).
  destruct (date_ltb (sort_key x) (sort_key y)); simpl; [reflexivity|].
  rewrite IH. reflexivity.
Qed.

Lemma sort_from_erase (l acc : list TravelItem) :
  List.map erase_id (fold_left (fun acc x => insert_by_key x acc) l acc) =
  fold_left (fun acc x => insert_by_key x acc) (List.map erase_id l)
            (List.map erase_id acc).
Proof.
  revert acc. induction l as [|x l IH]; intros acc; simpl; [reflexivity|].
  rewrite IH, insert_by_key_erase. reflexivity.
Qed.

Lemma sort_by_key_erase (l : list TravelItem) :
  List.map erase_id (sort_by_key l) = sort_by_key (List.map erase_id l).
Proof. apply (sort_from_erase l []). Qed.

Lemma ids_from_app (c n m : nat) :
  ids_from c (n + m) = (ids_from c n ++ ids_from (c + n) m)%list.
Proof.
  unfold ids_from. rewrite seq_app, List.map_app. reflexivity.
Qed.

Section Runs.

Context {L : Library}.

Lemma extract_all_same (s1 s2 : EntityExtractor) (confirmed_only : bool) :
  messages s1 = messages s2 ->
  List.map erase_id (fst (extract_all s1 confirmed_only)) =
  List.map erase_id (fst (extract_all s2 confirmed_only)).
Proof.
  intros Hm. rewrite !extract_all_unfold. cbn [fst].
  rewrite !sort_by_key_erase. f_equal.
  destruct confirmed_only.
  - rewrite !dedupe_erase, !filter_confirmed_erase, (detect_all_same s1 s2 Hm).
    reflexivity.
  - apply detect_all_same, Hm.
Qed.

(** The ids of the items of [detect_all] continue the counter, in the
    order in which the items were made. *)
Lemma detect_all_ids (self : EntityExtractor) :
  List.map id (fst (detect_all self)) =
  ids_from (item_counter self) (length (fst (detect_all self))).
Proof.
  rewrite detect_all_unfold. cbn [fst].
  destruct (extract_hotels_run self) as (_ & Hc1 & Hid1 & _).
  destruct (extract_flights_run (snd (_extract_hotels self))) as (_ & Hc2 & Hid2 & _).
  destruct (extract_transfers_run (snd (_extract_flights (snd (_extract_hotels self)))))
    as (_ & _ & Hid3 & _).
  rewrite !List.map_app, !length_app, !ids_from_app.
  rewrite Hid1, Hid2, Hid3, Hc2, Hc1. reflexivity.
Qed.

End Runs.

(** *** From one day to another *)

Lemma slice_incl {A : Type} (start stop : nat) (l : list A) (x : A) :
  In x (slice start stop l) -> In x l.
Proof.
  unfold slice. intros H. apply list_elem_of_In. apply list_elem_of_In in H.
  apply (elem_of_sublist _ _ _ H).
  etransitivity; [apply sublist_take|apply sublist_drop].
Qed.

Lemma loop_agrees {St : Type} (Inv : St -> Prop)
    (body1 body2 : nat -> Message -> St -> St) :
  (forall i msg st, Inv st -> body1 i msg st = body2 i msg st) ->
  (forall i msg st, Inv st -> Inv (body1 i msg st)) ->
  forall l i st, Inv st -> for_enumerate body1 i l st = for_enumerate body2 i l st.
Proof.
  intros Hsame Hkeep. induction l as [|x l IH]; intros i st Hst; [reflexivity|].
  cbn [for_enumerate]. rewrite <- (Hsame i x st Hst). apply IH, Hkeep, Hst.
Qed.

Section Days.

Context {C : Calendar}.

Variables (day1 day2 : date) (msgs : list Message).

Hypothesis same_dates :
  forall msg, In msg msgs ->
    message_date (L := library_on day1) msg = message_date (L := library_on day2) msg.

Lemma first_date_days (l : list Message) :
  incl l msgs ->
  first_date (L := library_on day1) l = first_date (L := library_on day2) l.
Proof.
  induction l as [|msg l IH]; intros Hl; [reflexivity|].
  cbn [first_date].
  pose proof (same_dates msg (Hl msg (or_introl eq_refl))) as Hmsg.
  unfold message_date in Hmsg.
  rewrite (IH (fun x Hx => Hl x (or_intror Hx))).
  destruct (pattern_search DATE_PATTERN (content msg)) as [m|]; [|reflexivity].
  rewrite Hmsg. reflexivity.
Qed.

Lemma date_from_context_days (self : EntityExtractor) (i w : nat) :
  messages self = msgs ->
  _extract_date_from_context (L := library_on day1) self i w =
  _extract_date_from_context (L := library_on day2) self i w.
Proof.
  intros Hm. unfold _extract_date_from_context. apply first_date_days.
  intros x Hx. rewrite <- Hm. exact (slice_incl _ _ _ _ Hx).
Qed.

Lemma hotel_scan_days (self : EntityExtractor) (i : nat) (msg : Message) :
  messages self = msgs ->
  hotel_scan (L := library_on day1) self i msg =
  hotel_scan (L := library_on day2) self i msg.
Proof.
  intros Hm. unfold hotel_scan. rewrite (date_from_context_days self i 5 Hm).
  reflexivity.
Qed.

Lemma hotel_body_days (i : nat) (msg : Message) (st : detector) :
  messages (self_ st) = msgs ->
  hotel_body (L := library_on day1) i msg st = hotel_body (L := library_on day2) i msg st.
Proof.
  intros Hm. unfold hotel_body. rewrite (hotel_scan_days (self_ st) i msg Hm).
  reflexivity.
Qed.

Lemma flight_patterns_days (i : nat) (msg : Message) (pats : list (pattern * string))
    (st : detector) :
  messages (self_ st) = msgs ->
  flight_patterns (L := library_on day1) i msg pats st =
  flight_patterns (L := library_on day2) i msg pats st.
Proof.
  revert st. induction pats as [|[pat airline_name] pats IH]; intros st Hm;
    [reflexivity|].
  cbn [flight_patterns].
  rewrite (date_from_context_days (self_ st) i 5 Hm).
  change (_extract_date_from_booking_url_in_text (L := library_on day1))
    with (_extract_date_from_booking_url_in_text (L := library_on day2)).
  destruct (found (pattern_search pat (content msg))); [|apply IH, Hm].
  destruct (bool_decide _); [apply IH, Hm|].
  destruct (negb _ && negb _); [|reflexivity].
  apply IH. exact Hm.
Qed.

Lemma flight_body_days (i : nat) (msg : Message) (st : detector) :
  messages (self_ st) = msgs ->
  flight_body (L := library_on day1) i msg st = flight_body (L := library_on day2) i msg st.
Proof.
  intros Hm. unfold flight_body.
  destruct (negb (has_flight_context (PyStr.lower (content msg)))); [reflexivity|].
  apply flight_patterns_days, Hm.
Qed.

Lemma transfer_keywords_days (i : nat) (msg : Message) (keywords : list string)
    (st : detector) :
  messages (self_ st) = msgs ->
  transfer_keywords (L := library_on day1) i msg keywords st =
  transfer_keywords (L := library_on day2) i msg keywords st.
Proof.
  revert st. induction keywords as [|keyword keywords IH]; intros st Hm; [reflexivity|].
  cbn [transfer_keywords].
  rewrite (date_from_context_days (self_ st) i 5 Hm).
  destruct (PyStr.contains keyword (PyStr.lower (content msg))); [|apply IH, Hm].
  destruct (negb _ && negb _); [apply IH, Hm|].
  destruct (bool_decide _); [apply IH, Hm|reflexivity].
Qed.

Lemma transfer_body_days (i : nat) (msg : Message) (st : detector) :
  messages (self_ st) = msgs ->
  transfer_body (L := library_on day1) i msg st =
  transfer_body (L := library_on day2) i msg st.
Proof. apply transfer_keywords_days. Qed.

Lemma extract_hotels_days (self : EntityExtractor) :
  messages self = msgs ->
  _extract_hotels (L := library_on day1) self = _extract_hotels (L := library_on day2) self.
Proof.
  intros Hm. unfold _extract_hotels.
  rewrite (loop_agrees (fun st => messages (self_ st) = msgs) _
             (hotel_body (L := library_on day2)) hotel_body_days); [reflexivity| |exact Hm].
  intros i msg st Hst. rewrite <- Hm in *.
  apply (hotel_body_appends (L := library_on day1) self i msg st Hst).
Qed.

Lemma extract_flights_days (self : EntityExtractor) :
  messages self = msgs ->
  _extract_flights (L := library_on day1) self = _extract_flights (L := library_on day2) self.
Proof.
  intros Hm. unfold _extract_flights.
  rewrite (loop_agrees (fun st => messages (self_ st) = msgs) _
             (flight_body (L := library_on day2)) flight_body_days); [reflexivity| |exact Hm].
  intros i msg st Hst. rewrite <- Hm in *.
  apply (flight_body_appends (L := library_on day1) self i msg st Hst).
Qed.

Lemma extract_transfers_days (self : EntityExtractor) :
  messages self = msgs ->
  _extract_transfers (L := library_on day1) self =
  _extract_transfers (L := library_on day2) self.
Proof.
  intros Hm. unfold _extract_transfers.
  rewrite (loop_agrees (fun st => messages (self_ st) = msgs) _
             (transfer_body (L := library_on day2)) transfer_body_days);
    [reflexivity| |exact Hm].
  intros i msg st Hst. rewrite <- Hm in *.
  apply (transfer_body_appends (L := library_on day1) self i msg st Hst).
Qed.

Lemma detect_all_days (self : EntityExtractor) :
  messages self = msgs ->
  detect_all (L := library_on day1) self = detect_all (L := library_on day2) self.
Proof.
  intros Hm. rewrite !detect_all_unfold.
  destruct (extract_hotels_run (L := library_on day2) self) as (Hm1 & _).
  destruct (extract_flights_run (L := library_on day2)
              (snd (_extract_hotels (L := library_on day2) self))) as (Hm2 & _).
  rewrite (extract_hotels_days self Hm).
  rewrite (extract_flights_days _ (eq_trans Hm1 Hm)).
  rewrite (extract_transfers_days _ (eq_trans Hm2 (eq_trans Hm1 Hm))).
  reflexivity.
Qed.

Lemma extract_all_days (self : EntityExtractor) (confirmed_only : bool) :
  messages self = msgs ->
  extract_all (L := library_on day1) self confirmed_only =
  extract_all (L := library_on day2) self confirmed_only.
Proof.
  intros Hm. rewrite !extract_all_unfold, (detect_all_days self Hm). reflexivity.
Qed.

End Days.

(** C9, as stated, fails: a fresh extractor on the one message "ferry to
    Koh Lipe 1500 March" dates the ferry on the 4th of March on a run of
    the 4th of November and on the 5th of March on a run of the day after:
    the date string is "00 March 2026", and the day of the month is that of
    the day of the run. *)
Lemma extraction_depends_on_the_day :
  fst (extract_all (L := library_on (C := plain_calendar) (Date 2026 11 4))
         (__init__ price_messages) false) <>
  fst (extract_all (L := library_on (C := plain_calendar) (Date 2026 11 5))
         (__init__ price_messages) false).
Proof.
  assert (E1 : fst (extract_all (L := library_on (C := plain_calendar) (Date 2026 11 4))
                      (__init__ price_messages) false) = [ferry_on 4])
    by (vm_compute; reflexivity).
  assert (E2 : fst (extract_all (L := library_on (C := plain_calendar) (Date 2026 11 5))
                      (__init__ price_messages) false) = [ferry_on 5])
    by (vm_compute; reflexivity).
  rewrite E1, E2. discriminate.
Qed.

(** C9: two fresh extractors have the counter at zero, and on the same
    messages they return the same list, the same items in the same order
    with the same ids, and end in the same state, also when they run on
    different days, provided no message that is not a system message holds
    a date phrase that is read differently on the two days.  The ids number
    the items from 1 in the order of their making, and beside the day the
    counter is the only state that reaches the output: an extractor on the
    same messages whose counter is not zero returns the same items in the
    same order, up to their ids. *)
Theorem extraction_reproducible {C : Calendar} (msgs : list Message)
    (confirmed_only : bool) (day1 day2 : date) (counter : nat) :
  (forall msg, In msg msgs -> is_system msg = false ->
     message_date (L := library_on day1) msg = message_date (L := library_on day2) msg) ->
  let first := __init__ msgs in
  let second := __init__ msgs in
  item_counter first = 0 /\ item_counter second = 0 /\
  extract_all (L := library_on day1) first confirmed_only =
    extract_all (L := library_on day2) second confirmed_only /\
  List.map id (fst (detect_all (L := library_on day1) first)) =
    ids_from 0 (length (fst (detect_all (L := library_on day2) second))) /\
  List.map erase_id
    (fst (extract_all (L := library_on day2) (mkExtractor (messages second) counter)
            confirmed_only)) =
  List.map erase_id (fst (extract_all (L := library_on day1) first confirmed_only)).
Proof.
  intros Hdates. cbv zeta. set (first := __init__ msgs).
  assert (Hin : forall msg, In msg (messages first) ->
            message_date (L := library_on day1) msg =
            message_date (L := library_on day2) msg).
  { intros msg Hmsg. apply List.filter_In in Hmsg. destruct Hmsg as [Hmsg Hsys].
    apply Hdates; [exact Hmsg|]. destruct (is_system msg); [discriminate|reflexivity]. }
  pose proof (extract_all_days day1 day2 (messages first) Hin) as Hall.
  pose proof (detect_all_days day1 day2 (messages first) Hin first eq_refl) as Hdet.
  split; [reflexivity|]. split; [reflexivity|]. split; [|split].
  - apply Hall. reflexivity.
  - rewrite <- Hdet. apply (detect_all_ids first).
  - rewrite (Hall first confirmed_only eq_refl).
    apply extract_all_same. reflexivity.
Qed.

Lemma extraction_reproducible_witness :
  extract_all (L := library_on (C := plain_calendar) (Date 2026 11 4))
    (__init__ dated_messages) false =
  extract_all (L := library_on (C := plain_calendar) (Date 2026 11 5))
    (__init__ dated_messages) false.
Proof.
  apply (extraction_reproducible (C := plain_calendar) dated_messages false
           (Date 2026 11 4) (Date 2026 11 5) 0).
  intros msg [<-|[<-|[]]] _; vm_compute; reflexivity.
Defined.

(** * Further properties of the extractor *)

(** ** The windows of messages *)

Lemma slice_lookup {A : Type} (start stop : nat) (l : list A) (x : A) :
  In x (slice start stop l) <->
  exists j, start <= j /\ j < stop /\ l !! j = Some x.
Proof.
  unfold slice. rewrite <- list_elem_of_In, list_elem_of_lookup. split.
  - intros [k Hk].
    assert (Hlt : k < stop - start).
    { apply lookup_lt_Some in Hk. rewrite length_take in Hk. lia. }
    rewrite lookup_take_lt in Hk by exact Hlt.
    rewrite lookup_drop in Hk.
    exists (start + k). split; [lia|]. split; [lia|exact Hk].
  - intros (j & H1 & H2 & Hj).
    exists (j - start).
    rewrite lookup_take_lt by lia.
    rewrite lookup_drop. replace (start + (j - start)) with j by lia. exact Hj.
Qed.

(** X1 ([_check_confirmation]): the status is CONFIRMED exactly when some
    message at an index from [message_index - 3] (from 0 when that is
    negative) up to, and not including, [message_index + window] matches a
    confirmation pattern; messages further back or further on play no part. *)
Theorem confirmation_window (self : EntityExtractor) (message_index window : nat) :
  _check_confirmation self message_index window = CONFIRMED <->
  exists j msg,
    message_index - 3 <= j /\ j < message_index + window /\
    messages self !! j = Some msg /\ confirms msg = true.
Proof.
  unfold _check_confirmation.
  destruct (existsb confirms _) eqn:E.
  - split; [intros _|reflexivity].
    apply existsb_exists in E. destruct E as (msg & Hin & Hc).
    apply slice_lookup in Hin. destruct Hin as (j & H1 & H2 & Hj).
    exists j, msg. split; [lia|]. split; [lia|]. split; assumption.
  - split; [discriminate|].
    intros (j & msg & H1 & H2 & Hj & Hc). exfalso.
    assert (Hex : existsb confirms
                    (slice (Nat.max 0 (message_index - 3))
                       (Nat.min (length (messages self)) (message_index + window))
                       (messages self)) = true).
    { apply existsb_exists. exists msg. split; [|exact Hc].
      apply slice_lookup. exists j.
      pose proof (lookup_lt_Some _ _ _ Hj). split; [lia|]. split; [lia|exact Hj]. }
    rewrite Hex in E. discriminate.
Qed.

Section Windows.

Context {L : Library}.

Lemma first_date_spec (l : list Message) (d : date) :
  first_date l = Some d <->
  exists k msg,
    l !! k = Some msg /\ message_date msg = Some d /\
    forall k' msg', k' < k -> l !! k' = Some msg' -> message_date msg' = None.
Proof.
  induction l as [|m l IH].
  - split; [discriminate|]. intros (k & msg & Hk & _). rewrite lookup_nil in Hk. discriminate.
  - cbn [first_date]. fold (message_date m).
    assert (E : match pattern_search DATE_PATTERN (content m) with
                | Some m0 => match date_of_match m0 with
                             | Some d0 => Some d0
                             | None => first_date l
                             end
                | None => first_date l
                end = match message_date m with Some d0 => Some d0 | None => first_date l end).
    { unfold message_date. destruct (pattern_search DATE_PATTERN (content m)); reflexivity. }
    rewrite E. clear E.
    destruct (message_date m) as [d0|] eqn:Em.
    + split.
      * intros H. exists 0, m. split; [reflexivity|]. split; [congruence|].
        intros k' msg' Hlt. lia.
      * intros (k & msg & Hk & Hd & Hfirst).
        destruct k as [|k].
        -- cbn in Hk. congruence.
        -- specialize (Hfirst 0 m ltac:(lia) eq_refl). congruence.
    + rewrite IH. split.
      * intros (k & msg & Hk & Hd & Hfirst).
        exists (S k), msg. split; [exact Hk|]. split; [exact Hd|].
        intros [|k'] msg' Hlt Hk'.
        -- cbn in Hk'. congruence.
        -- apply (Hfirst k'); [lia|exact Hk'].
      * intros (k & msg & Hk & Hd & Hfirst).
        destruct k as [|k].
        -- cbn in Hk. congruence.
        -- exists k, msg. split; [exact Hk|]. split; [exact Hd|].
           intros k' msg' Hlt Hk'. apply (Hfirst (S k')); [lia|exact Hk'].
Qed.

(** X2 ([_extract_date_from_context]): the date is that of the first
    message, at an index from [message_index - window] (from 0 when that is
    negative) up to, and not including, [message_index + window], whose
    first date phrase the parser accepts; a message whose first date phrase
    the parser rejects is passed over, also when a later phrase of the same
    message would parse. *)
Theorem date_context_window (self : EntityExtractor) (message_index window : nat)
    (d : date) :
  _extract_date_from_context self message_index window = Some d <->
  exists j msg,
    message_index - window <= j /\ j < message_index + window /\
    messages self !! j = Some msg /\ message_date msg = Some d /\
    forall j' msg',
      message_index - window <= j' -> j' < j ->
      messages self !! j' = Some msg' -> message_date msg' = None.
Proof.
  unfold _extract_date_from_context. rewrite first_date_spec.
  set (start := Nat.max 0 (message_index - window)).
  set (stop := Nat.min (length (messages self)) (message_index + window)).
  assert (Hs : start = message_index - window) by (unfold start; lia).
  unfold slice. split.
  - intros (k & msg & Hk & Hd & Hfirst).
    assert (Hlt : k < stop - start).
    { apply lookup_lt_Some in Hk. rewrite length_take in Hk. lia. }
    rewrite lookup_take_lt in Hk by exact Hlt. rewrite lookup_drop in Hk.
    exists (start + k), msg.
    split; [lia|]. split; [unfold stop in Hlt; lia|]. split; [exact Hk|]. split; [exact Hd|].
    intros j' msg' H1 H2 Hj'.
    apply (Hfirst (j' - start)); [lia|].
    rewrite lookup_take_lt by lia. rewrite lookup_drop.
    replace (start + (j' - start)) with j' by lia. exact Hj'.
  - intros (j & msg & H1 & H2 & Hj & Hd & Hfirst).
    pose proof (lookup_lt_Some _ _ _ Hj) as Hlen.
    exists (j - start), msg. split.
    { rewrite lookup_take_lt by (unfold stop; lia). rewrite lookup_drop.
      replace (start + (j - start)) with j by lia. exact Hj. }
    split; [exact Hd|].
    intros k' msg' Hlt Hk'.
    assert (Hlt' : k' < stop - start).
    { apply lookup_lt_Some in Hk'. rewrite length_take in Hk'. lia. }
    rewrite lookup_take_lt in Hk' by exact Hlt'. rewrite lookup_drop in Hk'.
    apply (Hfirst (start + k')); [lia|lia|exact Hk'].
Qed.

End Windows.

(** ** The location pass only removes items *)

Lemma filter_sublist_of {A : Type} (f : A -> bool) (l : list A) :
  sublist (List.filter f l) l.
Proof.
  induction l as [|x l IH]; cbn [List.filter].
  - constructor.
  - destruct (f x); [apply sublist_skip|apply sublist_cons]; exact IH.
Qed.

Lemma sublist_NoDup_map {A B : Type} (f : A -> B) (l1 l2 : list A) :
  sublist l1 l2 -> List.NoDup (List.map f l2) -> List.NoDup (List.map f l1).
Proof.
  intros Hs Hn. apply NoDup_ListNoDup. apply NoDup_ListNoDup in Hn.
  exact (sublist_NoDup _ _ Hn (fmap_sublist f _ _ Hs)).
Qed.

Lemma dedupe_step_grows (st : list TravelItem * gset string) (x : TravelItem) :
  dedupe_step st x = st \/
  exists seen', dedupe_step st x = ((fst st ++ [x])%list, seen').
Proof.
  destruct st as [result seen_locations]. unfold dedupe_step.
  destruct (negb (category_eqb (category x) HOTEL)); [right; eexists; reflexivity|].
  destruct (location_of x) as [loc|]; [|right; eexists; reflexivity].
  destruct (bool_decide (loc ∈ seen_locations)); [left; reflexivity|].
  right. eexists. reflexivity.
Qed.

Lemma dedupe_sublist (l : list TravelItem) : sublist (_dedupe_by_location l) l.
Proof.
  unfold _dedupe_by_location.
  induction l as [|x l IH] using rev_ind; [constructor|].
  rewrite fold_left_app. cbn [fold_left].
  destruct (dedupe_step_grows (fold_left dedupe_step l ([], ∅)) x) as [E|[seen' E]];
    rewrite E.
  - apply sublist_inserts_r, IH.
  - cbn [fst]. apply sublist_app; [exact IH|reflexivity].
Qed.

Lemma dedupe_again (l : list TravelItem) :
  fold_left dedupe_step (fst (fold_left dedupe_step l ([], ∅))) ([], ∅) =
  fold_left dedupe_step l ([], ∅).
Proof.
  induction l as [|x l IH] using rev_ind; [reflexivity|].
  rewrite fold_left_app. cbn [fold_left].
  destruct (dedupe_step_grows (fold_left dedupe_step l ([], ∅)) x) as [E|[seen' E]].
  - rewrite E. exact IH.
  - rewrite E at 1. cbn [fst]. rewrite fold_left_app, IH. cbn [fold_left]. reflexivity.
Qed.

(** X3 ([_dedupe_by_location]): the pass only removes items, keeping the
    others in their order, and a second pass over its result removes
    nothing more. *)
Theorem location_pass_settles (l : list TravelItem) :
  sublist (_dedupe_by_location l) l /\
  _dedupe_by_location (_dedupe_by_location l) = _dedupe_by_location l.
Proof.
  split; [apply dedupe_sublist|].
  unfold _dedupe_by_location. rewrite dedupe_again. reflexivity.
Qed.

(** ** The ids of the items *)

Lemma of_nat_inj (a b : nat) : PyStr.of_nat a = PyStr.of_nat b -> a = b.
Proof.
  unfold PyStr.of_nat. intros H.
  apply (f_equal NilEmpty.uint_of_string) in H.
  rewrite !NilEmpty.usu in H. injection H as H.
  apply (f_equal Nat.of_uint) in H.
  rewrite !DecimalNat.Unsigned.of_to in H. exact H.
Qed.

Lemma item_id_inj (a b : nat) :
  "item-" ++ PyStr.of_nat a = "item-" ++ PyStr.of_nat b -> a = b.
Proof.
  intros H. cbn [String.append] in H. injection H as H. apply of_nat_inj, H.
Qed.

Lemma ids_from_NoDup (c n : nat) : List.NoDup (ids_from c n).
Proof.
  unfold ids_from. apply Finite.Injective_map_NoDup; [|apply seq_NoDup].
  intros a b. apply item_id_inj.
Qed.

Lemma ids_from_In (c n : nat) (s : string) :
  In s (ids_from c n) <->
  exists k, c < k /\ k <= c + n /\ s = "item-" ++ PyStr.of_nat k.
Proof.
  unfold ids_from. rewrite in_map_iff. split.
  - intros (k & <- & Hk). apply in_seq in Hk. exists k. repeat split; lia.
  - intros (k & H1 & H2 & ->). exists k. split; [reflexivity|]. apply in_seq. lia.
Qed.

Section Ids.

Context {L : Library}.

Lemma detect_all_state (self : EntityExtractor) :
  messages (snd (detect_all self)) = messages self /\
  item_counter (snd (detect_all self)) =
    item_counter self + length (fst (detect_all self)).
Proof.
  rewrite detect_all_unfold. cbn [fst snd].
  destruct (extract_hotels_run self) as (Hm1 & Hc1 & _).
  destruct (extract_flights_run (snd (_extract_hotels self))) as (Hm2 & Hc2 & _).
  destruct (extract_transfers_run (snd (_extract_flights (snd (_extract_hotels self)))))
    as (Hm3 & Hc3 & _).
  split; [congruence|]. rewrite !length_app. lia.
Qed.

Lemma extract_all_state (self : EntityExtractor) (confirmed_only : bool) :
  snd (extract_all self confirmed_only) = snd (detect_all self).
Proof. rewrite extract_all_unfold. reflexivity. Qed.

Lemma extract_all_ids (self : EntityExtractor) (confirmed_only : bool) :
  List.NoDup (List.map id (fst (extract_all self confirmed_only))) /\
  Forall (fun x => exists k,
            item_counter self < k /\
            k <= item_counter (snd (extract_all self confirmed_only)) /\
            id x = "item-" ++ PyStr.of_nat k)
         (fst (extract_all self confirmed_only)).
Proof.
  assert (Hall : List.NoDup (List.map id (fst (detect_all self)))).
  { rewrite detect_all_ids. apply ids_from_NoDup. }
  assert (Hsub : forall l, (forall x, In x l -> In x (fst (detect_all self))) ->
                 Forall (fun x => exists k,
                           item_counter self < k /\
                           k <= item_counter (snd (detect_all self)) /\
                           id x = "item-" ++ PyStr.of_nat k) l).
  { intros l Hl. apply List.Forall_forall. intros x Hx.
    assert (Hid : In (id x) (ids_from (item_counter self)
                               (length (fst (detect_all self))))).
    { rewrite <- detect_all_ids. apply in_map, Hl, Hx. }
    apply ids_from_In in Hid. destruct Hid as (k & H1 & H2 & H3).
    exists k. destruct (detect_all_state self) as [_ Hc]. rewrite Hc.
    repeat split; assumption. }
  split.
  - rewrite extract_all_unfold. cbn [fst].
    eapply Permutation.Permutation_NoDup.
    { apply Permutation_map. symmetry. apply sort_by_key_perm. }
    destruct confirmed_only; [|exact Hall].
    eapply sublist_NoDup_map; [|exact Hall].
    etransitivity; [apply dedupe_sublist|apply filter_sublist_of].
  - rewrite extract_all_state. apply Hsub. apply extract_all_incl.
Qed.

(** X4 ([_generate_id], [extract_all]): the items of one call have pairwise
    distinct ids, each of the form [item-k] for a [k] above the counter the
    extractor had before the call and up to the counter it has after it. *)
Theorem item_ids_unique (self : EntityExtractor) (confirmed_only : bool) :
  List.NoDup (List.map id (fst (extract_all self confirmed_only))) /\
  Forall (fun x => exists k,
            item_counter self < k /\
            k <= item_counter (snd (extract_all self confirmed_only)) /\
            id x = "item-" ++ PyStr.of_nat k)
         (fst (extract_all self confirmed_only)).
Proof. exact (extract_all_ids self confirmed_only). Qed.

End Ids.

(** ** Where the items come from *)

Lemma made_from_length (P : nat -> Message -> TravelItem -> Prop) (msgs : list Message)
    (new : list TravelItem) :
  made_from P msgs new -> length new <= length msgs.
Proof.
  intros (idx & Hs & Hf).
  rewrite <- (Forall2_length _ _ _ Hf).
  assert (Hb : Forall (fun i => i < length msgs) idx).
  { clear Hs. induction Hf as [|i it idx new (msg & Hi & _) _ IH]; constructor.
    - eapply lookup_lt_Some, Hi.
    - exact IH. }
  clear Hf. revert Hs Hb. generalize (length msgs) as n.
  induction idx as [|i idx IH]; intros n Hs Hb; [cbn; lia|].
  inversion Hs as [|? ? Hs' Hlt]; subst.
  inversion Hb as [|? ? Hi Hb']; subst.
  destruct n as [|n]; [lia|]. cbn [length].
  apply le_n_S. revert Hs' Hlt Hb'. clear.
  intros Hs' Hlt Hb'.
  assert (Hidx : forall m, Forall (fun j => i < j) idx -> Forall (fun j => j < S m) idx ->
                 StronglySorted lt idx -> length idx <= m - i).
  { clear. intros m. revert i. induction idx as [|a idx IH]; intros i H1 H2 H3; [cbn; lia|].
    inversion H1; inversion H2; inversion H3; subst. cbn [length].
    assert (length idx <= m - a) by (apply IH; assumption). lia. }
  specialize (Hidx n Hlt Hb' Hs'). lia.
Qed.

Section Provenance.

Context {L : Library}.

(** X5 (the three detectors): each detector makes at most one item from a
    message: its items come, in their order, from messages at strictly
    increasing indices, each item with that message as its only source and
    that message's sender as proposer; so a detector returns no more items
    than there are messages. *)
Theorem one_item_per_message (self : EntityExtractor) :
  Forall (fun items =>
            made_from (fun _ msg it => sourced_from msg it) (messages self) items /\
            length items <= length (messages self))
         [fst (_extract_hotels self);
          fst (_extract_flights self);
          fst (_extract_transfers self)].
Proof.
  assert (H : forall P items,
            (forall i msg it, P i msg it -> sourced_from msg it) ->
            made_from P (messages self) items ->
            made_from (fun _ msg it => sourced_from msg it) (messages self) items /\
            length items <= length (messages self)).
  { intros P items HP Hm. split.
    - eapply made_from_impl; [|exact Hm]. exact HP.
    - eapply made_from_length, Hm. }
  constructor; [|constructor; [|constructor; [|constructor]]].
  - apply (H (hotel_made self)); [|apply extract_hotels_run].
    intros i msg it (_ & Hs & Hp & _). split; assumption.
  - apply (H (flight_made self)); [|apply extract_flights_run].
    intros i msg it (_ & Hs & Hp & _). split; assumption.
  - apply (H (transfer_made self)); [|apply extract_transfers_run].
    intros i msg it (_ & Hs & Hp & _). split; assumption.
Qed.

Lemma detect_all_sourced (self : EntityExtractor) :
  Forall (fun it => exists msg, In msg (messages self) /\ sourced_from msg it)
         (fst (detect_all self)).
Proof.
  destruct (detect_all_made self) as (hotels & flights & transfers & -> & Hh & Hf & Ht).
  assert (Hin : forall i (msg : Message), messages self !! i = Some msg ->
                In msg (messages self)).
  { intros i msg Hi. apply list_elem_of_In, list_elem_of_lookup. exists i. exact Hi. }
  rewrite !Forall_app. repeat split.
  - eapply made_from_Forall; [|exact Hh].
    intros i msg it Hi (_ & Hs & Hp & _). exists msg. repeat split; eauto.
  - eapply made_from_Forall; [|exact Hf].
    intros i msg it Hi (_ & Hs & Hp & _). exists msg. repeat split; eauto.
  - eapply made_from_Forall; [|exact Ht].
    intros i msg it Hi (_ & Hs & Hp & _). exists msg. repeat split; eauto.
Qed.

Lemma extract_all_sources (msgs : list Message) (confirmed_only : bool) :
  Forall (fun it => exists msg,
            In msg msgs /\ is_system msg = false /\
            source_messages it = [msg] /\ proposed_by it = sender msg)
         (fst (extract_all (__init__ msgs) confirmed_only)).
Proof.
  apply List.Forall_forall. intros it Hit.
  apply extract_all_incl in Hit.
  pose proof (detect_all_sourced (__init__ msgs)) as H.
  rewrite List.Forall_forall in H. destruct (H it Hit) as (msg & Hin & Hs & Hp).
  cbn [__init__ messages] in Hin. apply List.filter_In in Hin. destruct Hin as [Hin Hsys].
  exists msg. split; [exact Hin|]. split; [|split; assumption].
  destruct (is_system msg); [discriminate|reflexivity].
Qed.

(** X6 ([__init__], [extract_all]): every item returned for a list of
    messages has exactly one source message, which is a message of that
    list that is not a system message, and is proposed by its sender; a
    system message is never the source of an item. *)
Theorem items_from_user_messages (msgs : list Message) (confirmed_only : bool) :
  Forall (fun it => exists msg,
            In msg msgs /\ is_system msg = false /\
            source_messages it = [msg] /\ proposed_by it = sender msg)
         (fst (extract_all (__init__ msgs) confirmed_only)).
Proof. exact (extract_all_sources msgs confirmed_only). Qed.

End Provenance.

(** ** The two modes of [extract_all] *)

Section Modes.

Context {L : Library}.

Lemma in_sort_by_key (l : list TravelItem) (x : TravelItem) :
  In x (sort_by_key l) <-> In x l.
Proof.
  split; apply Permutation_in; [|symmetry]; apply sort_by_key_perm.
Qed.

Lemma in_sort_by_key_inv (l : list TravelItem) (x : TravelItem) :
  In x (sort_by_key l) -> In x l.
Proof. apply in_sort_by_key. Qed.

Lemma in_sort_by_key_intro (l : list TravelItem) (x : TravelItem) :
  In x l -> In x (sort_by_key l).
Proof. apply in_sort_by_key. Qed.

(** X7 ([extract_all]): the list of the confirmed-only mode holds only
    confirmed items, each of which the other mode returns as well; it
    holds every confirmed flight and transfer the other mode returns (only
    hotels are removed by location); and both modes leave the extractor in
    the same state, so that the ids of the items left out are used up. *)
Theorem confirmed_only_view (self : EntityExtractor) :
  (forall x, In x (fst (extract_all self true)) ->
     status x = CONFIRMED /\ In x (fst (extract_all self false))) /\
  (forall x, In x (fst (extract_all self false)) ->
     status x = CONFIRMED -> category x <> HOTEL ->
     In x (fst (extract_all self true))) /\
  snd (extract_all self true) = snd (extract_all self false).
Proof.
  rewrite !extract_all_unfold. cbn [fst snd]. split; [|split; [|reflexivity]].
  - intros x Hx. apply in_sort_by_key_inv in Hx.
    apply dedupe_incl in Hx. apply List.filter_In in Hx. destruct Hx as [Hx Hc].
    split.
    + unfold is_confirmed in Hc. destruct (status x); [reflexivity|discriminate].
    + apply in_sort_by_key_intro. exact Hx.
  - intros x Hx Hc Hcat. apply in_sort_by_key_inv in Hx.
    apply in_sort_by_key_intro.
    assert (Hf : In x (List.filter (fun y => negb (is_hotel y))
                         (_dedupe_by_location
                            (List.filter is_confirmed (fst (detect_all self)))))).
    { unfold _dedupe_by_location.
      destruct (dedupe_fold (List.filter is_confirmed (fst (detect_all self))))
        as (Hnon & _).
      rewrite Hnon. apply List.filter_In. split.
      - apply List.filter_In. split; [exact Hx|].
        unfold is_confirmed. rewrite Hc. reflexivity.
      - unfold is_hotel. destruct (category x); try reflexivity. congruence. }
    apply List.filter_In in Hf. apply Hf.
Qed.

Lemma filter_sublist_mono {A : Type} (f : A -> bool) (l1 l2 : list A) :
  sublist l1 l2 -> sublist (List.filter f l1) (List.filter f l2).
Proof.
  induction 1 as [|x l1 l2 _ IH|x l1 l2 _ IH]; cbn [List.filter].
  - constructor.
  - destruct (f x); [apply sublist_skip|]; exact IH.
  - destruct (f x); [apply sublist_cons|]; exact IH.
Qed.

Lemma filter_filter_implied {A : Type} (p q : A -> bool) (l : list A) :
  (forall x, p x = true -> q x = true) ->
  List.filter p (List.filter q l) = List.filter p l.
Proof.
  intros H. induction l as [|x l IH]; [reflexivity|]. cbn [List.filter].
  destruct (q x) eqn:Eq; cbn [List.filter].
  - rewrite IH. reflexivity.
  - destruct (p x) eqn:Ep; [|exact IH]. rewrite (H x Ep) in Eq. discriminate.
Qed.

Lemma without_date_key (x : TravelItem) :
  without_date x = true -> date_eqb (sort_key x) date_max = true.
Proof.
  unfold without_date, sort_key. destruct (start_date x); [discriminate|reflexivity].
Qed.

Lemma kept_sublist (confirmed_only : bool) (made : list TravelItem) :
  sublist (kept_items confirmed_only made) made.
Proof.
  unfold kept_items. destruct confirmed_only; [|reflexivity].
  etransitivity; [apply dedupe_sublist|apply filter_sublist_of].
Qed.

(** X8 ([extract_all]): the sort is stable, in both modes.  In the list
    of either mode the items of one start date, and likewise the items
    without one, are the items of that day which the mode keeps, in the
    order of the detectors, hotels before flights before transfers, and
    within a detector in the order in which it made them; with
    [confirmed_only=False] all the items of the day are there. *)
Theorem same_day_in_detector_order (self : EntityExtractor) (confirmed_only : bool)
    (k : date) :
  let hotels := fst (_extract_hotels self) in
  let flights := fst (_extract_flights (snd (_extract_hotels self))) in
  let transfers :=
    fst (_extract_transfers (snd (_extract_flights (snd (_extract_hotels self))))) in
  let same_day := List.filter (fun y => date_eqb (sort_key y) k) in
  let kept := kept_items confirmed_only (hotels ++ flights ++ transfers)%list in
  same_day (fst (extract_all self false)) =
    (same_day hotels ++ same_day flights ++ same_day transfers)%list /\
  List.filter without_date (fst (extract_all self false)) =
    (List.filter without_date hotels ++ List.filter without_date flights ++
     List.filter without_date transfers)%list /\
  same_day (fst (extract_all self confirmed_only)) = same_day kept /\
  List.filter without_date (fst (extract_all self confirmed_only)) =
    List.filter without_date kept /\
  sublist kept (hotels ++ flights ++ transfers)%list /\
  sublist (same_day (fst (extract_all self confirmed_only)))
          (same_day hotels ++ same_day flights ++ same_day transfers)%list /\
  sublist (List.filter without_date (fst (extract_all self confirmed_only)))
          (List.filter without_date hotels ++ List.filter without_date flights ++
           List.filter without_date transfers)%list.
Proof.
  intros hotels flights transfers same_day kept.
  assert (Emade : fst (detect_all self) = (hotels ++ flights ++ transfers)%list).
  { rewrite detect_all_unfold. reflexivity. }
  assert (Esort : forall mode,
            fst (extract_all self mode) =
            sort_by_key (kept_items mode (hotels ++ flights ++ transfers)%list)).
  { intros mode. rewrite extract_all_unfold, <- Emade. reflexivity. }
  assert (Eday : forall mode,
            same_day (fst (extract_all self mode)) =
            same_day (kept_items mode (hotels ++ flights ++ transfers)%list)).
  { intros mode. rewrite Esort. apply sort_by_key_stable. }
  assert (Enone : forall mode,
            List.filter without_date (fst (extract_all self mode)) =
            List.filter without_date (kept_items mode (hotels ++ flights ++ transfers)%list)).
  { intros mode.
    rewrite <- (filter_filter_implied without_date
                  (fun y => date_eqb (sort_key y) date_max) (fst (extract_all self mode))
                  without_date_key).
    rewrite <- (filter_filter_implied without_date
                  (fun y => date_eqb (sort_key y) date_max)
                  (kept_items mode (hotels ++ flights ++ transfers)%list) without_date_key).
    rewrite Esort, sort_by_key_stable. reflexivity. }
  pose proof (kept_sublist confirmed_only (hotels ++ flights ++ transfers)%list) as Hsub.
  split; [|split; [|split; [|split; [|split; [|split]]]]].
  - rewrite (Eday false). unfold kept_items, same_day. rewrite !List.filter_app. reflexivity.
  - rewrite (Enone false). unfold kept_items. rewrite !List.filter_app. reflexivity.
  - apply Eday.
  - apply Enone.
  - exact Hsub.
  - rewrite Eday. unfold same_day. rewrite <- !List.filter_app.
    apply filter_sublist_mono, Hsub.
  - rewrite Enone. rewrite <- !List.filter_app. apply filter_sublist_mono, Hsub.
Qed.

(** X9 ([extract_all], twice on one extractor): the counter is never
    reset, so a second call returns the same items under new ids: the
    contents agree, and no id of the second call is an id of the first. *)
Theorem second_call_renumbers (self : EntityExtractor) (confirmed_only : bool) :
  let first := extract_all self confirmed_only in
  let second := extract_all (snd first) confirmed_only in
  List.map erase_id (fst second) = List.map erase_id (fst first) /\
  forall x y, In x (fst first) -> In y (fst second) -> id x <> id y.
Proof.
  intros first second. subst first second.
  destruct (detect_all_state self) as [Hm Hc].
  split.
  - apply extract_all_same. rewrite extract_all_state. exact Hm.
  - intros x y Hx Hy E.
    destruct (extract_all_ids self confirmed_only) as [_ H1].
    destruct (extract_all_ids (snd (extract_all self confirmed_only)) confirmed_only)
      as [_ H2].
    rewrite List.Forall_forall in H1, H2.
    destruct (H1 x Hx) as (k1 & _ & Hk1 & E1).
    destruct (H2 y Hy) as (k2 & Hk2 & _ & E2).
    rewrite E1, E2 in E. apply item_id_inj in E. lia.
Qed.

End Modes.

(** ** The itinerary *)

Section Range.

Context {L : Library}.

Lemma items_by_date_entry (it : Itinerary) (e : date * list TravelItem) :
  In e (items_by_date it) ->
  In (fst e) (item_dates (items it)) /\ snd e <> [].
Proof.
  rewrite items_by_date_unfold. intros He.
  apply (Permutation_in _ (sorted_entries_perm _)) in He.
  unfold grouping in He. apply in_map_iff in He. destruct He as (k & <- & Hk).
  apply (proj1 (in_first_occurrences date_eqb date_eqb_eq _ _)) in Hk. cbn [fst snd].
  split; [exact Hk|].
  apply (proj1 (in_item_dates _ _)) in Hk. destruct Hk as (x & Hx & Hd).
  intros Hnil.
  assert (Hin : In x (List.filter (keyed date_eqb start_date k) (items it))).
  { apply List.filter_In. split; [exact Hx|].
    unfold keyed. rewrite Hd. apply date_eqb_eq. reflexivity. }
  rewrite Hnil in Hin. exact Hin.
Qed.

(** X10 ([build_itinerary], [Itinerary.items_by_date]): building never
    raises; the itinerary has both dates, the start not after the end; and
    every day of its day-by-day view lies between them and has at least one
    item. *)
Theorem itinerary_range (self : EntityExtractor) (title : string)
    (participants : list string) (confirmed_only : bool) :
  match build_itinerary self title participants confirmed_only with
  | Raise _ => False
  | Ok (it, _) =>
      exists lo hi,
        it_start_date it = Some lo /\ it_end_date it = Some hi /\
        date_le lo hi /\
        Forall (fun e => date_le lo (fst e) /\ date_le (fst e) hi /\ snd e <> [])
               (items_by_date it)
  end.
Proof.
  unfold build_itinerary.
  destruct (extract_all self confirmed_only) as [its self'].
  pose proof (fun d => items_by_date_entry
                (mkItinerary title "Thailand" participants (Some d.1) (Some d.2) its))
    as Hentry.
  cbn [items] in Hentry.
  destruct (item_dates its) as [|d l] eqn:Ed.
  - cbn [bind]. exists (Date 2026 3 14), (Date 2026 3 28).
    split; [reflexivity|]. split; [reflexivity|]. split; [reflexivity|].
    apply List.Forall_forall. intros e He.
    destruct (Hentry (Date 2026 3 14, Date 2026 3 28) e He) as [[] _].
  - cbn [py_min py_max bind].
    destruct (fold_min l d) as [_ Hlo]. destruct (fold_max l d) as [_ Hhi].
    cbv zeta in Hlo, Hhi.
    set (lo := fold_left (fun m y => if date_ltb y m then y else m) l d) in *.
    set (hi := fold_left (fun m y => if date_ltb m y then y else m) l d) in *.
    rewrite List.Forall_forall in Hlo, Hhi.
    exists lo, hi. split; [reflexivity|]. split; [reflexivity|]. split.
    + apply date_le_trans with d; [apply Hlo|apply Hhi]; left; reflexivity.
    + apply List.Forall_forall. intros e He.
      destruct (Hentry (lo, hi) e He) as [Hin Hne].
      split; [apply Hlo, Hin|]. split; [apply Hhi, Hin|exact Hne].
Qed.

Lemma for_enumerate_nil {St : Type} (body : nat -> Message -> St -> St) (i : nat) (st : St) :
  for_enumerate body i [] st = st.
Proof. reflexivity. Qed.

(** X11 ([__init__], [build_itinerary]): of a chat that holds system
    messages only, or no message at all, the itinerary has no item and the
    dates of the trip, 14 to 28 March 2026; the counter stays at 0. *)
Theorem system_chat_gives_defaults (msgs : list Message) (title : string)
    (participants : list string) (confirmed_only : bool) :
  Forall (fun m => is_system m = true) msgs ->
  build_itinerary (__init__ msgs) title participants confirmed_only =
  Ok (mkItinerary title "Thailand" participants
        (Some (Date 2026 3 14)) (Some (Date 2026 3 28)) [],
      mkExtractor [] 0).
Proof.
  intros Hsys.
  assert (E : __init__ msgs = mkExtractor [] 0).
  { unfold __init__. f_equal.
    induction Hsys as [|m l Hm _ IH]; [reflexivity|].
    cbn [List.filter]. rewrite Hm. exact IH. }
  rewrite E. unfold build_itinerary. rewrite extract_all_unfold, detect_all_unfold.
  unfold _extract_hotels, _extract_flights, _extract_transfers.
  cbn [messages for_enumerate found_items self_ fst snd app].
  destruct confirmed_only; reflexivity.
Qed.

End Range.

Lemma system_chat_gives_defaults_witness :
  build_itinerary (L := Plain.library)
    (__init__ [mkMessage 0 "Ann" "Ann created group" true]) "Trip" ["Ann"] true =
  Ok (mkItinerary "Trip" "Thailand" ["Ann"]
        (Some (Date 2026 3 14)) (Some (Date 2026 3 28)) [],
      mkExtractor [] 0).
Proof.
  apply (system_chat_gives_defaults (L := Plain.library)).
  repeat constructor.
Defined.

(** ** What an item holds *)

Lemma for_enumerate_keeps {St : Type} (Inv : St -> Prop)
    (body : nat -> Message -> St -> St) :
  (forall i msg st, Inv st -> Inv (body i msg st)) ->
  forall l i st, Inv st -> Inv (for_enumerate body i l st).
Proof.
  intros Hbody l. induction l as [|m l IH]; intros i st Hst; [exact Hst|].
  cbn [for_enumerate]. apply IH, Hbody, Hst.
Qed.

Section Shapes.

Context {L : Library}.

Lemma for_enumerate_Forall (Q : TravelItem -> Prop)
    (body : nat -> Message -> detector -> detector) :
  (forall i msg st, Forall Q (found_items st) -> Forall Q (found_items (body i msg st))) ->
  forall l i st,
    Forall Q (found_items st) -> Forall Q (found_items (for_enumerate body i l st)).
Proof. apply (for_enumerate_keeps (fun st => Forall Q (found_items st))). Qed.

Lemma hotel_body_shaped (i : nat) (msg : Message) (st : detector) :
  Forall well_shaped (found_items st) ->
  Forall well_shaped (found_items (hotel_body i msg st)).
Proof.
  intros Hst. unfold hotel_body.
  destruct (hotel_name (hotel_scan (self_ st) i msg)) as [name|]; [|exact Hst].
  destruct (PyStr.falsy name); [exact Hst|].
  destruct (bool_decide _); [exact Hst|].
  cbv beta iota zeta delta [_generate_id]. cbn [found_items].
  apply Forall_app. split; [exact Hst|]. constructor; [|constructor].
  unfold well_shaped. cbn [category details booking_links].
  split; [reflexivity|].
  destruct (booking_link (hotel_scan (self_ st) i msg)) as [url|]; [|cbn; lia].
  destruct (PyStr.falsy url); cbn; lia.
Qed.

Lemma flight_patterns_shaped (i : nat) (msg : Message) (pats : list (pattern * string)) :
  forall st,
    Forall well_shaped (found_items st) ->
    Forall well_shaped (found_items (flight_patterns i msg pats st)).
Proof.
  induction pats as [|[pat airline_name] pats IH]; intros st Hst; [exact Hst|].
  cbn [flight_patterns].
  destruct (found (pattern_search pat (content msg))); [|apply IH, Hst].
  destruct (bool_decide _); [apply IH, Hst|].
  destruct (negb _ && negb _); [apply IH; exact Hst|].
  cbv beta iota zeta delta [_generate_id]. cbn [found_items].
  apply Forall_app. split; [exact Hst|]. constructor; [|constructor].
  unfold well_shaped. cbn [category details booking_links end_date].
  split; [reflexivity|]. split; [reflexivity|].
  destruct (List.map (Re.group 1) (pattern_findall COST_PATTERN (content msg)))
    as [|[c|] costs]; [left; reflexivity| |left; reflexivity].
  destruct (PyStr.falsy c); [left; reflexivity|right; exists c; reflexivity].
Qed.

Lemma transfer_keywords_shaped (i : nat) (msg : Message) (keywords : list string) :
  forall st,
    Forall well_shaped (found_items st) ->
    Forall well_shaped (found_items (transfer_keywords i msg keywords st)).
Proof.
  induction keywords as [|keyword keywords IH]; intros st Hst; [exact Hst|].
  cbn [transfer_keywords].
  destruct (PyStr.contains keyword (PyStr.lower (content msg))); [|apply IH, Hst].
  destruct (negb _ && negb _); [apply IH, Hst|].
  destruct (bool_decide _); [apply IH, Hst|].
  cbv beta iota zeta delta [_generate_id]. cbn [found_items].
  apply Forall_app. split; [exact Hst|]. constructor; [|constructor].
  unfold well_shaped. cbn [category details booking_links end_date].
  split; [reflexivity|]. split; [reflexivity|].
  destruct (find_time (content msg)) as [t|]; [|left; reflexivity].
  destruct (PyStr.falsy t); [left; reflexivity|right; exists t; reflexivity].
Qed.

(** X12 (the three detectors, [extract_all]): no item is an activity; a
    hotel has no details and at most one booking link; a flight or a
    transfer has no end date and no booking link, and its details are empty
    or hold one entry, the cost of the flight in pounds or the time of the
    transfer. *)
Theorem items_well_shaped (self : EntityExtractor) (confirmed_only : bool) :
  Forall well_shaped (fst (extract_all self confirmed_only)).
Proof.
  apply List.Forall_forall. intros x Hx. apply extract_all_incl in Hx.
  revert x Hx. apply List.Forall_forall.
  rewrite detect_all_unfold. cbn [fst].
  unfold _extract_hotels, _extract_flights, _extract_transfers. cbn [fst].
  rewrite !Forall_app. split; [|split].
  - apply for_enumerate_Forall; [apply hotel_body_shaped|constructor].
  - apply for_enumerate_Forall; [|constructor].
    intros i msg st Hst. unfold flight_body.
    destruct (negb _); [exact Hst|]. apply flight_patterns_shaped, Hst.
  - apply for_enumerate_Forall; [|constructor].
    intros i msg st Hst. apply transfer_keywords_shaped, Hst.
Qed.

End Shapes.

(** ** The route of a flight *)

Lemma filter_first_two {A : Type} (f : A -> bool) (l : list A) (a b : A) (rest : list A) :
  List.filter f l = a :: b :: rest ->
  exists before between after,
    l = (before ++ a :: between ++ b :: after)%list /\
    f a = true /\ f b = true /\
    Forall (fun c => f c = false) (before ++ between).
Proof.
  intros H.
  assert (H1 : forall l x tl, List.filter f l = x :: tl ->
               exists before after,
                 l = (before ++ x :: after)%list /\ f x = true /\
                 Forall (fun c => f c = false) before /\ List.filter f after = tl).
  { clear. intros l x tl. induction l as [|y l IH]; [discriminate|].
    cbn [List.filter]. destruct (f y) eqn:Ey.
    - intros E. injection E as E1 E2. subst y tl. exists [], l. repeat split; auto.
    - intros E. destruct (IH E) as (before & after & -> & Hx & Hb & Ha).
      exists (y :: before), after. repeat split; auto. }
  destruct (H1 _ _ _ H) as (before & l' & -> & Ha & Hb & H').
  destruct (H1 _ _ _ H') as (between & after & -> & Hb' & Hbt & _).
  exists before, between, after. repeat split; auto.
  apply Forall_app. split; assumption.
Qed.

Lemma filter_none {A : Type} (f : A -> bool) (l : list A) :
  Forall (fun c => f c = false) l -> List.filter f l = [].
Proof.
  induction 1 as [|x l Hx _ IH]; [reflexivity|]. cbn [List.filter]. rewrite Hx. exact IH.
Qed.

(** X13 ([_identify_route]): a route is found exactly when the text names
    at least two airports of the table, and it runs from the first to the
    second of them in the order of the table, whatever their order in the
    text (a text that names BKK before LHR still gives the route from LHR
    to BKK); the route shows the keys of the table, not the city names. *)
Theorem route_follows_table (text r : string) :
  _identify_route text = Some r <->
  exists before a between b after,
    List.map fst airports = (before ++ a :: between ++ b :: after)%list /\
    names_airport text a = true /\ names_airport text b = true /\
    Forall (fun c => names_airport text c = false) (before ++ between) /\
    r = a ++ " → " ++ b.
Proof.
  unfold _identify_route. fold (names_airport text).
  change (fun code => PyStr.contains (PyStr.upper code) (PyStr.upper text))
    with (names_airport text).
  split.
  - destruct (List.filter (names_airport text) (List.map fst airports))
      as [|a [|b rest]] eqn:E; try discriminate.
    intros Hr. injection Hr as <-.
    destruct (filter_first_two _ _ _ _ _ E) as (before & between & after & El & Ha & Hb & Hn).
    exists before, a, between, b, after. repeat split; assumption.
  - intros (before & a & between & b & after & El & Ha & Hb & Hn & ->).
    rewrite El. apply Forall_app in Hn. destruct Hn as [Hn1 Hn2].
    rewrite List.filter_app, (filter_none _ _ Hn1). cbn [app List.filter]. rewrite Ha.
    rewrite List.filter_app, (filter_none _ _ Hn2). cbn [app List.filter]. rewrite Hb.
    reflexivity.
Qed.

(** ** What the hotel detector reads from a message *)

Section Scan.

Context {L : Library}.

Lemma hotel_urls_link (urls : list string) (init : hotel_locals) :
  booking_link (fold_left hotel_url_step urls init) =
  match last urls with Some url => Some url | None => booking_link init end.
Proof.
  induction urls as [|url urls IH] using rev_ind; [reflexivity|].
  rewrite fold_left_app, last_snoc. cbn [fold_left]. unfold hotel_url_step.
  destruct (_extract_dates_from_booking_url url) as [ci co].
  destruct (is_some ci); reflexivity.
Qed.

Lemma hotel_urls_dates (urls : list string) (init : hotel_locals) :
  let loc := fold_left hotel_url_step urls init in
  match last (List.filter has_check_in urls) with
  | Some url =>
      check_in loc = fst (_extract_dates_from_booking_url url) /\
      check_out loc = snd (_extract_dates_from_booking_url url)
  | None => check_in loc = check_in init /\ check_out loc = check_out init
  end.
Proof.
  induction urls as [|url urls IH] using rev_ind; [cbn; auto|].
  cbv zeta in *. rewrite fold_left_app, filter_snoc. cbn [fold_left].
  set (loc0 := fold_left hotel_url_step urls init) in *.
  unfold hotel_url_step, has_check_in at 2.
  destruct (_extract_dates_from_booking_url url) as [ci co] eqn:E. cbn [fst snd].
  destruct (is_some ci).
  - rewrite last_snoc, E. cbn [check_in check_out]. auto.
  - rewrite app_nil_r. cbn [check_in check_out]. exact IH.
Qed.

Lemma hotel_urls_name (urls : list string) :
  forall init,
    hotel_name (fold_left hotel_url_step urls init) =
    if truthy (hotel_name init) then hotel_name init
    else match List.filter names_hotel urls with
         | url :: _ => _extract_hotel_name_from_url url
         | [] => hotel_name init
         end.
Proof.
  induction urls as [|url urls IH]; intros init.
  - cbn. destruct (truthy (hotel_name init)); reflexivity.
  - cbn [fold_left List.filter]. rewrite IH. unfold hotel_url_step at 1 2 3.
    unfold names_hotel at 2.
    destruct (_extract_dates_from_booking_url url) as [ci co].
    destruct (truthy (hotel_name init)) eqn:Ei.
    + rewrite andb_false_r.
      destruct (is_some ci); cbn [hotel_name]; rewrite Ei; reflexivity.
    + rewrite andb_true_r.
      destruct (truthy (_extract_hotel_name_from_url url)) eqn:Eu.
      * destruct (is_some ci); cbn [hotel_name]; rewrite Eu; reflexivity.
      * destruct (is_some ci); cbn [hotel_name]; rewrite Ei; reflexivity.
Qed.

(** X14 ([_extract_hotels], the reading of a message): the name of the
    phrase "Check out ... on Booking.com" wins over the names in the URLs,
    of which the first counts; the booking link is the last booking.com URL
    of the message; the check-in and the check-out both come from the last
    URL that carries a check-in date, so that a check-out of another URL is
    not used; and only when no URL carries a check-in date is the date of
    the nearby messages taken, without a check-out. *)
Theorem hotel_scan_choices (self : EntityExtractor) (i : nat) (msg : Message) :
  let loc := hotel_scan self i msg in
  hotel_name loc =
    (if truthy (phrase_hotel msg) then phrase_hotel msg
     else match List.filter names_hotel (booking_urls msg) with
          | url :: _ => _extract_hotel_name_from_url url
          | [] => phrase_hotel msg
          end) /\
  booking_link loc = last (booking_urls msg) /\
  match last (List.filter has_check_in (booking_urls msg)) with
  | Some url =>
      check_in loc = fst (_extract_dates_from_booking_url url) /\
      check_out loc = snd (_extract_dates_from_booking_url url) /\
      is_some (check_in loc) = true
  | None =>
      check_in loc = _extract_date_from_context self i 5 /\ check_out loc = None
  end.
Proof.
  cbv zeta. unfold hotel_scan.
  fold (booking_urls msg). fold (phrase_hotel msg).
  set (init := mkLocals (phrase_hotel msg) None None None).
  pose proof (hotel_urls_name (booking_urls msg) init) as Hn.
  pose proof (hotel_urls_link (booking_urls msg) init) as Hl.
  pose proof (hotel_urls_dates (booking_urls msg) init) as Hd.
  cbv zeta in Hd. cbn [hotel_name booking_link check_in check_out init] in Hn, Hl, Hd.
  assert (Hlast : forall url, last (List.filter has_check_in (booking_urls msg)) = Some url ->
                  is_some (fst (_extract_dates_from_booking_url url)) = true).
  { intros url Hu.
    assert (Hin : In url (List.filter has_check_in (booking_urls msg))).
    { apply last_Some in Hu. destruct Hu as [l' ->].
      apply in_or_app. right. left. reflexivity. }
    apply List.filter_In in Hin. apply Hin. }
  destruct (last (List.filter has_check_in (booking_urls msg))) as [url|] eqn:Elast.
  - destruct Hd as [Hi Ho]. specialize (Hlast url eq_refl).
    rewrite Hi, Hlast. split; [exact Hn|]. split.
    + rewrite Hl. destruct (last (booking_urls msg)); reflexivity.
    + split; [exact Hi|]. split; [exact Ho|]. rewrite Hi. exact Hlast.
  - destruct Hd as [Hi Ho]. rewrite Hi. cbn [is_some hotel_name booking_link check_in check_out].
    split; [exact Hn|]. split.
    + rewrite Hl. destruct (last (booking_urls msg)); reflexivity.
    + split; [reflexivity|exact Ho].
Qed.

(** X15 ([_extract_date_from_booking_url_in_text]): the date that the
    flight detector takes from the booking.com URLs of a text is the
    check-in of the first URL that carries one, where the hotel detector
    takes the last; a check-out alone gives no date. *)
Theorem booking_url_date_first (text : string) :
  _extract_date_from_booking_url_in_text text =
  match List.filter has_check_in
          (List.map Re.whole (pattern_findall BOOKING_URL_PATTERN text)) with
  | url :: _ => fst (_extract_dates_from_booking_url url)
  | [] => None
  end.
Proof.
  unfold _extract_date_from_booking_url_in_text.
  induction (List.map Re.whole (pattern_findall BOOKING_URL_PATTERN text))
    as [|url urls IH]; [reflexivity|].
  cbn [first_checkin List.filter]. unfold has_check_in at 1.
  destruct (fst (_extract_dates_from_booking_url url)) as [d|] eqn:E; cbn [is_some].
  - rewrite E. reflexivity.
  - exact IH.
Qed.

End Scan.

(** ** No item twice *)

Lemma NoDup_map_eq {A B : Type} (f : A -> B) (l : list A) (x y : A) :
  List.NoDup (List.map f l) -> In x l -> In y l -> f x = f y -> x = y.
Proof.
  induction l as [|a l IH]; [intros _ []|].
  cbn [List.map]. intros Hn Hx Hy E. inversion Hn as [|? ? Hnot Hn']; subst.
  destruct Hx as [<-|Hx]; destruct Hy as [<-|Hy]; auto.
  - exfalso. apply Hnot. rewrite E. apply in_map, Hy.
  - exfalso. apply Hnot. rewrite <- E. apply in_map, Hx.
Qed.

Lemma singleton_filters_NoDup {A : Type} (key : A -> string) (l : list A) :
  (forall x, In x l -> exists y, List.filter (fun z => String.eqb (key z) (key x)) l = [y]) ->
  List.NoDup (List.map key l).
Proof.
  induction l as [|a l IH]; intros H; [constructor|].
  cbn [List.map]. constructor.
  - intros Hin. apply in_map_iff in Hin. destruct Hin as (b & Eb & Hb).
    destruct (H a (or_introl eq_refl)) as (y & Hy).
    cbn [List.filter] in Hy. rewrite String.eqb_refl in Hy.
    assert (Hb' : In b (List.filter (fun z => String.eqb (key z) (key a)) l)).
    { apply List.filter_In. split; [exact Hb|]. apply String.eqb_eq. exact Eb. }
    injection Hy as _ Hy. rewrite Hy in Hb'. exact Hb'.
  - apply IH. intros x Hx.
    destruct (H x (or_intror Hx)) as (y & Hy). cbn [List.filter] in Hy.
    destruct (String.eqb (key a) (key x)) eqn:E.
    + exfalso.
      assert (Hx' : In x (List.filter (fun z => String.eqb (key z) (key x)) l)).
      { apply List.filter_In. split; [exact Hx|]. apply String.eqb_refl. }
      injection Hy as _ Hy. rewrite Hy in Hx'. exact Hx'.
    + exists y. exact Hy.
Qed.

Section Distinct.

Context {L : Library}.

Lemma hotel_keys_distinct (self : EntityExtractor) :
  List.NoDup (List.map (fun it => hotel_key (title it)) (fst (_extract_hotels self))).
Proof.
  unfold _extract_hotels. cbn [fst].
  destruct (extract_hotels_inv self) as (_ & _ & Hin & Hone).
  apply singleton_filters_NoDup. intros x Hx.
  destruct (Hone _ (Hin x Hx)) as (it & _ & _ & Hf & _).
  exists it. exact Hf.
Qed.

Lemma airline_first_letter (a a' x x' : string) :
  In a (List.map snd AIRLINE_PATTERNS) -> In a' (List.map snd AIRLINE_PATTERNS) ->
  a ++ " " ++ x = a' ++ " " ++ x' -> a = a' /\ x = x'.
Proof.
  cbn [AIRLINE_PATTERNS List.map snd In].
  intros Ha Ha' E.
  repeat match goal with H : _ \/ _ |- _ => destruct H as [H|H] end;
    try contradiction; subst a a';
    cbn [String.append] in E; try discriminate;
    (split; [reflexivity|]);
    repeat (injection E as E); exact E.
Qed.

Lemma route_not_flight (text r : string) : _identify_route text = Some r -> r <> "Flight".
Proof.
  unfold _identify_route.
  destruct (List.filter _ (List.map fst airports)) as [|a [|b rest]] eqn:E; try discriminate.
  intros H. injection H as <-.
  assert (Ha : In a (List.map fst airports)).
  { assert (Hin : In a (a :: b :: rest)) by (left; reflexivity).
    rewrite <- E in Hin. apply List.filter_In in Hin. apply Hin. }
  cbn [airports List.map fst In] in Ha.
  repeat match goal with H : _ \/ _ |- _ => destruct H as [H|H] end;
    try contradiction; subst a; discriminate.
Qed.

Lemma flight_title_inj (a a' text text' : string) :
  In a (List.map snd AIRLINE_PATTERNS) -> In a' (List.map snd AIRLINE_PATTERNS) ->
  flight_title a (_identify_route text) = flight_title a' (_identify_route text') ->
  forall d, flight_key_of a (_identify_route text) d =
            flight_key_of a' (_identify_route text') d.
Proof.
  intros Ha Ha'. unfold flight_title, flight_key_of.
  destruct (_identify_route text) as [r|] eqn:Er;
    destruct (_identify_route text') as [r'|] eqn:Er';
    cbn [truthy default from_option Datatypes.id]; unfold Datatypes.id.
  - destruct (PyStr.falsy r) eqn:Fr; destruct (PyStr.falsy r') eqn:Fr'; cbn [negb];
      intros E d.
    + destruct (airline_first_letter _ _ _ _ Ha Ha' E) as [-> _]. reflexivity.
    + destruct (airline_first_letter _ _ _ _ Ha Ha' E) as [-> E'].
      exfalso. apply (route_not_flight _ _ Er'). congruence.
    + destruct (airline_first_letter _ _ _ _ Ha Ha' E) as [-> E'].
      exfalso. apply (route_not_flight _ _ Er). congruence.
    + destruct (airline_first_letter _ _ _ _ Ha Ha' E) as [-> ->]. reflexivity.
  - destruct (PyStr.falsy r) eqn:Fr; cbn [negb]; intros E d.
    + destruct (airline_first_letter _ _ _ _ Ha Ha' E) as [-> _]. reflexivity.
    + destruct (airline_first_letter _ _ _ _ Ha Ha' E) as [-> E'].
      exfalso. apply (route_not_flight _ _ Er). congruence.
  - destruct (PyStr.falsy r') eqn:Fr'; cbn [negb]; intros E d.
    + destruct (airline_first_letter _ _ _ _ Ha Ha' E) as [-> _]. reflexivity.
    + destruct (airline_first_letter _ _ _ _ Ha Ha' E) as [-> E'].
      exfalso. apply (route_not_flight _ _ Er'). congruence.
  - intros E d. destruct (airline_first_letter _ _ _ _ Ha Ha' E) as [-> _]. reflexivity.
Qed.

Lemma flights_inv_seen (st : detector) (k : string) :
  flights_inv st ->
  flights_inv (mkDetector (found_items st) ({[k]} ∪ seen st) (self_ st)).
Proof.
  intros [Hn Hf]. split; [exact Hn|]. cbn [found_items seen].
  eapply List.Forall_impl; [|exact Hf].
  intros it (a & text & Ha & Ht & Hk). exists a, text.
  split; [exact Ha|]. split; [exact Ht|]. apply elem_of_union. right. exact Hk.
Qed.

Lemma flight_patterns_inv (i : nat) (msg : Message) (pats : list (pattern * string)) :
  (forall p, In p pats -> In p AIRLINE_PATTERNS) ->
  forall st, flights_inv st -> flights_inv (flight_patterns i msg pats st).
Proof.
  induction pats as [|[pat airline_name] pats IH]; intros Hin st Hst; [exact Hst|].
  assert (Hin' : forall p, In p pats -> In p AIRLINE_PATTERNS).
  { intros p Hp. apply Hin. right. exact Hp. }
  assert (Ha : In airline_name (List.map snd AIRLINE_PATTERNS)).
  { apply (in_map snd _ (pat, airline_name)). apply Hin. left. reflexivity. }
  specialize (IH Hin'). cbn [flight_patterns].
  destruct (found (pattern_search pat (content msg))); [|apply IH, Hst].
  set (flight_date := or_date _ _).
  fold (flight_key_of airline_name (_identify_route (content msg)) flight_date).
  set (key := flight_key_of airline_name (_identify_route (content msg)) flight_date).
  destruct (bool_decide (key ∈ seen st)) eqn:Eseen; [apply IH, Hst|].
  apply bool_decide_eq_false in Eseen.
  destruct (negb _ && negb _); [apply IH, flights_inv_seen, Hst|].
  cbv beta iota zeta delta [_generate_id]. cbn [found_items seen self_].
  fold (flight_title airline_name (_identify_route (content msg))).
  destruct Hst as [Hn Hf]. split; cbn [found_items seen].
  - rewrite List.map_app. cbn [List.map title start_date].
    apply NoDup_ListNoDup, NoDup_app. split; [apply NoDup_ListNoDup, Hn|].
    split; [|apply NoDup_singleton].
    intros pair Hpair Hnew. apply list_elem_of_singleton in Hnew. subst pair.
    apply list_elem_of_In, in_map_iff in Hpair. destruct Hpair as (it & Eit & Hit).
    injection Eit as Et Ed.
    rewrite List.Forall_forall in Hf. destruct (Hf it Hit) as (a & text & Ha' & Ht & Hk).
    apply Eseen. unfold key.
    rewrite <- (flight_title_inj a airline_name text (content msg) Ha' Ha); [|congruence].
    rewrite <- Ed. exact Hk.
  - apply Forall_app. split.
    + eapply List.Forall_impl; [|exact Hf].
      intros it (a & text & Ha' & Ht & Hk). exists a, text.
      split; [exact Ha'|]. split; [exact Ht|]. apply elem_of_union. right. exact Hk.
    + constructor; [|constructor]. exists airline_name, (content msg).
      cbn [title start_date]. split; [exact Ha|]. split; [reflexivity|].
      apply elem_of_union. left. apply elem_of_singleton. reflexivity.
Qed.

Lemma flights_pairs_distinct (self : EntityExtractor) :
  List.NoDup (List.map (fun it => (title it, start_date it)) (fst (_extract_flights self))).
Proof.
  unfold _extract_flights. cbn [fst].
  apply (for_enumerate_keeps flights_inv flight_body).
  - intros i msg st Hst. unfold flight_body.
    destruct (negb _); [exact Hst|]. apply flight_patterns_inv; auto.
  - split; constructor.
Qed.

Lemma detect_all_by_category (self : EntityExtractor) (x : TravelItem) :
  In x (fst (detect_all self)) ->
  match category x with
  | HOTEL => In x (fst (_extract_hotels self))
  | FLIGHT => In x (fst (_extract_flights (snd (_extract_hotels self))))
  | TRANSFER =>
      In x (fst (_extract_transfers (snd (_extract_flights (snd (_extract_hotels self))))))
  | ACTIVITY => False
  end.
Proof.
  rewrite detect_all_unfold. cbn [fst]. intros Hx.
  destruct (extract_hotels_run self) as (_ & _ & _ & Hh).
  destruct (extract_flights_run (snd (_extract_hotels self))) as (_ & _ & _ & Hf).
  destruct (extract_transfers_run (snd (_extract_flights (snd (_extract_hotels self)))))
    as (_ & _ & _ & Ht).
  apply (made_from_Forall _ (fun it => category it = HOTEL)) in Hh;
    [|intros i msg it _ H; apply H].
  apply (made_from_Forall _ (fun it => category it = FLIGHT)) in Hf;
    [|intros i msg it _ H; apply H].
  apply (made_from_Forall _ (fun it => category it = TRANSFER)) in Ht;
    [|intros i msg it _ H; apply H].
  rewrite List.Forall_forall in Hh, Hf, Ht.
  apply in_app_or in Hx. destruct Hx as [Hx|Hx].
  { rewrite (Hh x Hx). exact Hx. }
  apply in_app_or in Hx. destruct Hx as [Hx|Hx].
  { rewrite (Hf x Hx). exact Hx. }
  rewrite (Ht x Hx). exact Hx.
Qed.

(** X16 ([_extract_hotels], [extract_all]): no hotel is listed twice: two
    hotel items of one call whose titles are equal, letter case and
    surrounding blanks apart, are the same item. *)
Theorem hotels_distinct (self : EntityExtractor) (confirmed_only : bool)
    (x y : TravelItem) :
  In x (fst (extract_all self confirmed_only)) ->
  In y (fst (extract_all self confirmed_only)) ->
  category x = HOTEL -> category y = HOTEL ->
  hotel_key (title x) = hotel_key (title y) ->
  x = y.
Proof.
  intros Hx Hy Cx Cy E.
  apply extract_all_incl, detect_all_by_category in Hx.
  apply extract_all_incl, detect_all_by_category in Hy.
  rewrite Cx in Hx. rewrite Cy in Hy.
  exact (NoDup_map_eq _ _ x y (hotel_keys_distinct self) Hx Hy E).
Qed.

(** X17 ([_extract_flights], [extract_all]): no flight is listed twice:
    two flight items of one call with the same title (airline and route)
    and the same start date are the same item. *)
Theorem flights_distinct (self : EntityExtractor) (confirmed_only : bool)
    (x y : TravelItem) :
  In x (fst (extract_all self confirmed_only)) ->
  In y (fst (extract_all self confirmed_only)) ->
  category x = FLIGHT -> category y = FLIGHT ->
  title x = title y -> start_date x = start_date y ->
  x = y.
Proof.
  intros Hx Hy Cx Cy Et Ed.
  apply extract_all_incl, detect_all_by_category in Hx.
  apply extract_all_incl, detect_all_by_category in Hy.
  rewrite Cx in Hx. rewrite Cy in Hy.
  apply (NoDup_map_eq _ _ x y (flights_pairs_distinct _) Hx Hy).
  cbn beta. congruence.
Qed.

End Distinct.

(** * Texts and regular expressions *)

(** ** Strings *)

Lemma append_nil_r (s : string) : s ++ "" = s.
Proof. induction s as [|c s IH]; [reflexivity|]. exact (f_equal (String c) IH). Qed.

Lemma append_assoc (a b c : string) : (a ++ b) ++ c = a ++ (b ++ c).
Proof.
  induction a as [|x a IH]; [reflexivity|]. exact (f_equal (String x) IH).
Qed.

Lemma join_cons (sep p : string) (ps : list string) :
  ps <> [] -> PyStr.join sep (p :: ps) = p ++ sep ++ PyStr.join sep ps.
Proof. destruct ps; [congruence|reflexivity]. Qed.

Lemma join_app (sep : string) (l1 l2 : list string) :
  l1 <> [] -> l2 <> [] ->
  PyStr.join sep (l1 ++ l2) = PyStr.join sep l1 ++ sep ++ PyStr.join sep l2.
Proof.
  intros H1 H2. induction l1 as [|p l1 IH]; [congruence|].
  destruct l1 as [|q l1].
  - cbn [app]. rewrite join_cons by exact H2. reflexivity.
  - change ((p :: q :: l1) ++ l2)%list with (p :: ((q :: l1) ++ l2))%list.
    rewrite join_cons by discriminate. rewrite IH by discriminate.
    rewrite (join_cons sep p (q :: l1)) by discriminate.
    rewrite !append_assoc. reflexivity.
Qed.

Lemma split_acc_not_nil (sep : ascii) (s cur : string) : Plain.split_acc sep cur s <> [].
Proof.
  revert cur. induction s as [|c s IH]; intros cur; cbn [Plain.split_acc]; [discriminate|].
  destruct (Ascii.eqb c sep); [discriminate|apply IH].
Qed.

Lemma join_split_acc (s cur : string) :
  PyStr.join newline (Plain.split_acc "010" cur s) = cur ++ s.
Proof.
  revert cur. induction s as [|c s IH]; intros cur; cbn [Plain.split_acc].
  - cbn [PyStr.join]. rewrite append_nil_r. reflexivity.
  - destruct (Ascii.eqb c "010") eqn:E.
    + apply Ascii.eqb_eq in E. subst c.
      rewrite join_cons by apply split_acc_not_nil. rewrite IH. reflexivity.
    + rewrite IH, append_assoc. reflexivity.
Qed.

(** Joining the lines of a text gives the text back. *)
Lemma join_split_lines (content : string) :
  PyStr.join newline (split_lines content) = content.
Proof. apply (join_split_acc content ""). Qed.

(** ** Regular expressions of fixed shape *)

Lemma window_exact (p : ascii -> bool) (n : nat) :
  forall pv s cs,
    window n (Some n) (run p pv s cs) = one (walk (repeat p n) (Cursor pv s cs)).
Proof.
  unfold window. induction n as [|n IH]; intros pv s cs.
  - destruct s; reflexivity.
  - cbn [repeat walk rest caps]. destruct s as [|c t].
    + cbn. destruct n; reflexivity.
    + cbn [run]. destruct (p c).
      * change (firstn (S (S n)) (Cursor pv (String c t) cs :: run p (Some c) t cs))
          with (Cursor pv (String c t) cs :: firstn (S n) (run p (Some c) t cs)).
        cbn [skipn]. apply IH.
      * cbn. destruct n; reflexivity.
Qed.

Lemma rev_one {A : Type} (o : option A) : rev (one o) = one o.
Proof. destruct o; reflexivity. Qed.

Lemma walk_app (a b : shape) (k : cursor) :
  walk (a ++ b)%list k = match walk a k with Some k1 => walk b k1 | None => None end.
Proof.
  revert k. induction a as [|p a IH]; intros k; [reflexivity|].
  cbn [app walk]. destruct (rest k) as [|c t]; [reflexivity|].
  destruct (p c); [apply IH|reflexivity].
Qed.

Lemma outcomes_shape (r : regex) :
  forall sh, shape_of r = Some sh ->
  forall k, outcomes false r k = one (walk sh k).
Proof.
  induction r as [|c|p|r1 IH1 r2 IH2|r1 IH1 r2 IH2|g lo hi p|n r1 IH1| |r1 IH1];
    intros sh Hsh k; cbn [shape_of] in Hsh; try discriminate.
  - injection Hsh as <-. reflexivity.
  - injection Hsh as <-. cbn [outcomes walk]. unfold char_eq.
    destruct (rest k) as [|d t]; [reflexivity|].
    rewrite Ascii.eqb_sym. destruct (Ascii.eqb d c); reflexivity.
  - injection Hsh as <-. cbn [outcomes walk].
    destruct (rest k) as [|d t]; [reflexivity|]. destruct (p d); reflexivity.
  - destruct (shape_of r1) as [a|]; [|discriminate].
    destruct (shape_of r2) as [b|]; [|discriminate].
    injection Hsh as <-. cbn [outcomes]. rewrite (IH1 a eq_refl), walk_app.
    destruct (walk a k) as [k1|]; [|reflexivity].
    cbn [one flat_map]. rewrite app_nil_r. apply (IH2 b eq_refl).
  - destruct hi as [hi|]; [|discriminate].
    destruct (Nat.eqb lo hi) eqn:E; [|discriminate].
    apply Nat.eqb_eq in E. subst hi. injection Hsh as <-.
    cbn [outcomes]. rewrite window_exact.
    destruct k as [pv s cs]. cbn [prev rest caps].
    destruct g; [apply rev_one|reflexivity].
Qed.

Lemma outcomes_seq_shape (r1 r2 : regex) (sh : shape) (k : cursor) :
  shape_of r1 = Some sh ->
  outcomes false (RSeq r1 r2) k =
  match walk sh k with Some k1 => outcomes false r2 k1 | None => [] end.
Proof.
  intros Hsh. cbn [outcomes]. rewrite (outcomes_shape r1 sh Hsh).
  destruct (walk sh k); [|reflexivity]. cbn [one flat_map]. apply app_nil_r.
Qed.

Lemma outcomes_seq_group (n : nat) (r1 r2 : regex) (sh : shape) (k : cursor) :
  shape_of r1 = Some sh ->
  outcomes false (RSeq (RGroup n r1) r2) k =
  match walk sh k with
  | Some k1 => outcomes false r2 (with_group n k k1)
  | None => []
  end.
Proof.
  intros Hsh. cbn [outcomes]. rewrite (outcomes_shape r1 sh Hsh).
  destruct (walk sh k); [|reflexivity]. cbn [one List.map flat_map]. apply app_nil_r.
Qed.

(** ** Positions and texts *)

Lemma walk_rest (sh : shape) (k : cursor) :
  option_map rest (walk sh k) = fit sh (rest k).
Proof.
  revert k. induction sh as [|p sh IH]; intros k; [reflexivity|].
  cbn [walk fit]. destruct (rest k) as [|c t]; [reflexivity|].
  destruct (p c); [apply IH|reflexivity].
Qed.

Lemma walk_caps (sh : shape) (k k' : cursor) : walk sh k = Some k' -> caps k' = caps k.
Proof.
  revert k. induction sh as [|p sh IH]; intros k; cbn [walk].
  - intros E. injection E as <-. reflexivity.
  - destruct (rest k) as [|c t]; [discriminate|].
    destruct (p c); [|discriminate]. intros E. apply IH in E. exact E.
Qed.

(** A step of the shape [sh]: both sides move on together. *)
Lemma walk_fit (sh : shape) (k : cursor) :
  match walk sh k, fit sh (rest k) with
  | Some k', Some t => rest k' = t /\ caps k' = caps k
  | None, None => True
  | _, _ => False
  end.
Proof.
  pose proof (walk_rest sh k) as H. pose proof (walk_caps sh k) as Hc.
  destruct (walk sh k) as [k'|]; destruct (fit sh (rest k)); cbn in H; try discriminate; auto.
  injection H as H. auto.
Qed.

Lemma fit_split (sh : shape) (s t : string) :
  fit sh s = Some t ->
  exists pre, s = pre ++ t /\ has_shape sh pre = true /\ String.length pre = length sh.
Proof.
  unfold has_shape. revert s. induction sh as [|p sh IH]; intros s; cbn [fit].
  - intros E. injection E as ->. exists "". repeat split.
  - destruct s as [|c s]; [discriminate|]. destruct (p c) eqn:Ep; [|discriminate].
    intros E. destruct (IH s E) as (pre & -> & Hs & Hl).
    exists (String c pre). cbn [fit String.length length]. rewrite Ep.
    split; [reflexivity|]. split; [exact Hs|]. rewrite Hl. reflexivity.
Qed.

Lemma fit_app (sh : shape) (pre t : string) :
  has_shape sh pre = true -> fit sh (pre ++ t) = Some t.
Proof.
  unfold has_shape. revert pre. induction sh as [|p sh IH]; intros pre.
  - cbn [fit]. destruct pre; [reflexivity|discriminate].
  - destruct pre as [|c pre]; [discriminate|].
    change (String c pre ++ t) with (String c (pre ++ t)). cbn [fit].
    destruct (p c); [apply IH|discriminate].
Qed.

Lemma length_append (a b : string) :
  String.length (a ++ b) = String.length a + String.length b.
Proof.
  induction a as [|c a IH]; [reflexivity|].
  change (String c a ++ b) with (String c (a ++ b)). cbn [String.length]. rewrite IH. reflexivity.
Qed.

Lemma substring_prefix (a b : string) :
  String.substring 0 (String.length a) (a ++ b) = a.
Proof.
  induction a as [|c a IH]; [destruct b; reflexivity|].
  change (String c a ++ b) with (String c (a ++ b)).
  cbn [String.length String.substring]. rewrite IH. reflexivity.
Qed.

Lemma consumed_prefix (k k' : cursor) (pre : string) :
  rest k = pre ++ rest k' -> consumed k k' = pre.
Proof.
  intros E. unfold consumed. rewrite E, length_append, Nat.add_sub. apply substring_prefix.
Qed.

Lemma span_app (p : ascii -> bool) (s : string) :
  s = fst (span p s) ++ snd (span p s).
Proof.
  induction s as [|c s IH]; [reflexivity|]. cbn [span].
  destruct (p c); cbn [fst snd]; [|reflexivity].
  change (String c (fst (span p s)) ++ snd (span p s))
    with (String c (fst (span p s) ++ snd (span p s))).
  rewrite <- IH. reflexivity.
Qed.

(** The positions of a repetition: the last one is after the longest
    prefix in the class; each of the others is followed by a character of
    the class. *)
Lemma run_shape (p : ascii -> bool) (s : string) :
  forall pv cs,
  exists front pv',
    run p pv s cs = (front ++ [Cursor pv' (snd (span p s)) cs])%list /\
    (front = [] <-> fst (span p s) = EmptyString) /\
    Forall (fun k => exists c t, rest k = String c t /\ p c = true) front.
Proof.
  induction s as [|c s IH]; intros pv cs.
  - exists [], pv. cbn. repeat split; auto.
  - cbn [run span]. destruct (p c) eqn:Ep.
    + destruct (IH (Some c) cs) as (front & pv' & E & _ & Hf).
      exists (Cursor pv (String c s) cs :: front), pv'. cbn [fst snd].
      rewrite E. split; [reflexivity|]. split; [split; discriminate|].
      constructor; [|exact Hf]. exists c, s. split; [reflexivity|exact Ep].
    + exists [], pv. cbn. repeat split; auto.
Qed.

Lemma flat_map_nil {A B : Type} (f : A -> list B) (l : list A) :
  Forall (fun x => f x = []) l -> flat_map f l = [].
Proof.
  induction 1 as [|x l Hx _ IH]; [reflexivity|]. cbn [flat_map]. rewrite Hx, IH. reflexivity.
Qed.

(** A greedy repetition of at least one character, recorded as the group
    [n] and followed by [r]: when [r] cannot start with a character of the
    class, only the longest repetition can be followed by [r]. *)
Lemma outcomes_greedy_group (n : nat) (p : ascii -> bool) (r : regex) (k : cursor) :
  (forall k', (exists c t, rest k' = String c t /\ p c = true) -> outcomes false r k' = []) ->
  exists pv',
    outcomes false (RSeq (RGroup n (RRep true 1 None p)) r) k =
    if PyStr.falsy (fst (span p (rest k))) then []
    else outcomes false r
           (with_group n k (Cursor pv' (snd (span p (rest k))) (caps k))).
Proof.
  intros Hr. cbn [outcomes]. unfold window. cbn [skipn].
  destruct (run_shape p (rest k) (prev k) (caps k)) as (front & pv' & E & Hnil & Hf).
  exists pv'. rewrite E.
  destruct front as [|k0 front].
  - destruct Hnil as [Hnil _]. rewrite (Hnil eq_refl). reflexivity.
  - destruct (fst (span p (rest k))) as [|c a] eqn:Ea.
    { destruct Hnil as [_ Hnil]. specialize (Hnil eq_refl). discriminate. }
    cbn [app skipn PyStr.falsy]. rewrite ?skipn_O, rev_app_distr. cbn [rev app List.map flat_map].
    rewrite flat_map_nil; [apply app_nil_r|].
    inversion Hf as [|? ? _ Hf']; subst.
    apply List.Forall_forall. intros x Hx. apply in_map_iff in Hx.
    destruct Hx as (y & <- & Hy). apply in_rev in Hy.
    rewrite List.Forall_forall in Hf'. apply Hr. cbn [with_group rest]. apply Hf', Hy.
Qed.

Lemma span_any (s : string) : span any_char s = (s, EmptyString).
Proof.
  induction s as [|c s IH]; [reflexivity|]. cbn [span any_char]. rewrite IH. reflexivity.
Qed.

Lemma at_end_here (k : cursor) : rest k = EmptyString -> outcomes false at_end k = [k].
Proof. intros E. unfold at_end. cbn [outcomes]. rewrite E. reflexivity. Qed.

(** The content: a greedy repetition of any character up to the end. *)
Lemma outcomes_content (n : nat) (k : cursor) :
  exists pv' more,
    outcomes false (RSeq (RGroup n (RRep true 1 None any_char)) at_end) k =
    if PyStr.falsy (rest k) then []
    else (Cursor pv' EmptyString ((n, rest k) :: caps k) :: more).
Proof.
  cbn [outcomes]. unfold window. cbn [skipn].
  destruct (run_shape any_char (rest k) (prev k) (caps k)) as (front & pv' & E & Hnil & _).
  rewrite span_any in E, Hnil. cbn [fst snd] in E, Hnil. rewrite E.
  destruct front as [|k0 front].
  - destruct Hnil as [Hnil _]. rewrite (Hnil eq_refl). exists pv', []. reflexivity.
  - destruct (rest k) as [|c s] eqn:Er.
    { destruct Hnil as [_ Hnil]. specialize (Hnil eq_refl). discriminate. }
    cbn [app skipn PyStr.falsy]. rewrite ?skipn_O, rev_app_distr. cbn [rev app List.map flat_map].
    rewrite at_end_here by reflexivity.
    assert (Ec : consumed k (Cursor pv' "" (caps k)) = String c s).
    { apply consumed_prefix. cbn [rest]. rewrite Er, append_nil_r. reflexivity. }
    cbn [prev rest caps app]. rewrite Ec.
    eexists pv', _. reflexivity.
Qed.

(** * The time of a transfer *)

Lemma search_from_at (ic : bool) (r : regex) (s : string) :
  forall pv m,
    search_from ic r pv s = Some m ->
    exists k, caps k = [] /\ match_at ic r k = Some m.
Proof.
  induction s as [|c s IH]; intros pv m; cbn [search_from].
  - destruct (match_at ic r (Cursor pv "" [])) as [m'|] eqn:E; [|discriminate].
    intros H. injection H as <-. exists (Cursor pv "" []). split; [reflexivity|exact E].
  - destruct (match_at ic r (Cursor pv (String c s) [])) as [m'|] eqn:E.
    + intros H. injection H as <-. exists (Cursor pv (String c s) []).
      split; [reflexivity|exact E].
    + apply IH.
Qed.

(** The positions after one or two characters of a class. *)
Lemma one_or_two (p : ascii -> bool) (k k0 : cursor) :
  In k0 (window 1 (Some 2) (run p (prev k) (rest k) (caps k))) ->
  caps k0 = caps k /\
  exists pre, rest k = pre ++ rest k0 /\
              (has_shape [p] pre = true \/ has_shape [p; p] pre = true).
Proof.
  unfold window, has_shape. destruct (rest k) as [|a [|b t]]; cbn [run firstn skipn].
  - intros [].
  - destruct (p a) eqn:Ea; cbn [run firstn skipn]; [|intros []].
    intros [<-|[]]. split; [reflexivity|]. exists (String a "").
    split; [reflexivity|]. left. cbn [fit]. rewrite Ea. reflexivity.
  - destruct (p a) eqn:Ea; cbn [run firstn skipn]; [|intros []].
    destruct (p b) eqn:Eb.
    + assert (E : firstn 1 (run p (Some b) t (caps k)) = [Cursor (Some b) t (caps k)]).
      { destruct t; reflexivity. }
      cbn [firstn]. rewrite E. intros [<-|[<-|[]]].
      * split; [reflexivity|]. exists (String a "").
        split; [reflexivity|]. left. cbn [fit]. rewrite Ea. reflexivity.
      * split; [reflexivity|]. exists (String a (String b "")).
        split; [reflexivity|]. right. cbn [fit]. rewrite Ea, Eb. reflexivity.
    + cbn [firstn]. intros [<-|[]].
      split; [reflexivity|]. exists (String a "").
      split; [reflexivity|]. left. cbn [fit]. rewrite Ea. reflexivity.
Qed.

(** X18 (the time of [_extract_transfers]): the time recorded for a
    transfer is one or two digits, a colon and two digits; the separator of
    the text, a colon or a dot, is written as a colon, and the digits are
    not checked to be an hour and a minute. *)
Theorem time_reads_digits (text t : string) :
  find_time text = Some t ->
  exists h mi,
    t = h ++ ":" ++ mi /\
    (has_shape [digit] h = true \/ has_shape [digit; digit] h = true) /\
    has_shape [digit; digit] mi = true.
Proof.
  unfold find_time, pattern_search, search.
  destruct (search_from _ _ None text) as [m|] eqn:Es; [|discriminate].
  destruct (search_from_at _ _ _ _ _ Es) as (k & Hk & Hm). clear Es.
  unfold match_at in Hm.
  destruct (outcomes (ignorecase time_pattern) (re time_pattern) k) as [|k' l] eqn:Eo;
    [discriminate|].
  injection Hm as <-. unfold group. cbn [captured].
  assert (Hin : In k' (outcomes (ignorecase time_pattern) (re time_pattern) k)).
  { rewrite Eo. left. reflexivity. }
  clear Eo. unfold time_pattern in Hin. cbn [re ignorecase RSeqs outcomes] in Hin.
  apply in_flat_map in Hin. destruct Hin as (k1 & Hk1 & Hin).
  apply in_map_iff in Hk1. destruct Hk1 as (k0 & <- & Hk0).
  assert (Hw : In k0 (window 1 (Some 2) (run PyStr.is_digit (prev k) (rest k) (caps k)))).
  { apply in_rev. exact Hk0. }
  apply one_or_two in Hw. destruct Hw as (Hc0 & h & Eh & Hh).
  apply in_flat_map in Hin. destruct Hin as (k2 & Hk2 & Hin).
  apply in_map_iff in Hin. destruct Hin as (k3 & <- & Hk3).
  pose proof (consumed_prefix k k0 h Eh) as Ec.
  assert (Hc2 : caps k2 = (1, h) :: caps k).
  { cbn [rest caps prev] in Hk2.
    destruct (rest k0) as [|c r0]; [destruct Hk2|].
    destruct (negb (not_in ":.:" c)); [|destruct Hk2].
    destruct Hk2 as [<-|[]]. cbn [caps].
    rewrite Ec, Hc0. reflexivity. }
  assert (H3 : outcomes false (digits 2 2) k2 = one (walk [digit; digit] k2)).
  { apply outcomes_shape. reflexivity. }
  rewrite H3 in Hk3.
  destruct (walk [digit; digit] k2) as [k3'|] eqn:Ew; [|destruct Hk3].
  destruct Hk3 as [<-|[]].
  pose proof (walk_rest [digit; digit] k2) as Hr. rewrite Ew in Hr. cbn [option_map] in Hr.
  symmetry in Hr. destruct (fit_split _ _ _ Hr) as (mi & Emi & Hmi & _).
  cbn [caps]. rewrite (consumed_prefix k2 k3' mi Emi), (walk_caps _ _ _ Ew), Hc2.
  cbn [assoc Nat.eqb]. intros H. injection H as <-.
  exists h, mi. split; [reflexivity|]. split; [exact Hh|exact Hmi].
Qed.

Lemma time_reads_digits_witness :
  find_time "ferry at 10.45" = Some "10:45" /\
  exists h mi,
    "10:45" = h ++ ":" ++ mi /\
    (has_shape [digit] h = true \/ has_shape [digit; digit] h = true) /\
    has_shape [digit; digit] mi = true.
Proof.
  split; [vm_compute; reflexivity|].
  apply (time_reads_digits "ferry at 10.45" "10:45"). vm_compute. reflexivity.
Defined.

(** * Properties of the parser *)

(** ** The messages of the export *)

Lemma is_chunk_not_nil (ch : list string) : is_chunk ch -> ch <> [].
Proof. intros (h & cont & -> & _). discriminate. Qed.

Lemma split_fold (lines : list string) :
  let st := fold_left split_step lines ([], []) in
  exists preamble chunks,
    Forall (fun l => is_header l = false) preamble /\
    Forall is_chunk chunks /\
    fst st = List.map (PyStr.join newline) chunks /\
    ((snd st = [] /\ chunks = [] /\ lines = preamble) \/
     (is_chunk (snd st) /\ lines = (preamble ++ concat chunks ++ snd st)%list)).
Proof.
  induction lines as [|line lines IH] using rev_ind.
  - exists [], []. cbn. repeat split; auto.
  - cbv zeta in *. rewrite fold_left_app. cbn [fold_left].
    destruct (fold_left split_step lines ([], [])) as [messages current].
    destruct IH as (preamble & chunks & Hp & Hc & Hm & Hcur). cbn [fst snd] in *.
    unfold split_step. destruct (is_header line) eqn:Eh.
    + destruct Hcur as [(-> & -> & ->)|(Hch & ->)].
      * exists preamble, []. cbn [fst snd]. repeat split; auto.
        right. split; [exists line, []; repeat split; auto|]. reflexivity.
      * pose proof (is_chunk_not_nil _ Hch) as Hne.
        destruct current as [|c0 current]; [congruence|].
        exists preamble, (chunks ++ [c0 :: current])%list. cbn [fst snd].
        split; [exact Hp|].
        split; [apply Forall_app; split; [exact Hc|repeat constructor; exact Hch]|].
        split; [rewrite List.map_app, Hm; reflexivity|].
        right. split; [exists line, []; repeat split; auto|].
        rewrite concat_app. cbn [concat]. rewrite app_nil_r, <- !app_assoc. reflexivity.
    + destruct Hcur as [(-> & -> & ->)|(Hch & ->)].
      * exists (preamble ++ [line])%list, []. cbn [fst snd].
        split; [apply Forall_app; split; [exact Hp|repeat constructor; exact Eh]|].
        repeat split; auto.
      * pose proof (is_chunk_not_nil _ Hch) as Hne.
        destruct current as [|c0 current]; [congruence|].
        exists preamble, chunks. cbn [fst snd].
        split; [exact Hp|]. split; [exact Hc|]. split; [exact Hm|].
        right. split.
        -- destruct Hch as (h & cont & E & Hh & Hcont). injection E as -> ->.
           exists h, (cont ++ [line])%list. split; [reflexivity|]. split; [exact Hh|].
           apply Forall_app. split; [exact Hcont|repeat constructor; exact Eh].
        -- rewrite <- !app_assoc. reflexivity.
Qed.

Lemma split_messages_chunks_lemma (content : string) :
  exists preamble chunks,
    split_lines content = (preamble ++ concat chunks)%list /\
    Forall (fun l => is_header l = false) preamble /\
    Forall is_chunk chunks /\
    _split_messages content = List.map (PyStr.join newline) chunks.
Proof.
  unfold _split_messages.
  pose proof (split_fold (split_lines content)) as H. cbv zeta in H.
  destruct (fold_left split_step (split_lines content) ([], [])) as [messages current].
  destruct H as (preamble & chunks & Hp & Hc & Hm & Hcur). cbn [fst snd] in *.
  destruct Hcur as [(-> & -> & E)|(Hch & E)].
  - exists preamble, []. cbn [concat]. rewrite app_nil_r. repeat split; auto.
  - pose proof (is_chunk_not_nil _ Hch) as Hne.
    destruct current as [|c0 current]; [congruence|].
    exists preamble, (chunks ++ [c0 :: current])%list.
    split; [rewrite E, concat_app; cbn [concat]; rewrite app_nil_r; reflexivity|].
    split; [exact Hp|].
    split; [apply Forall_app; split; [exact Hc|repeat constructor; exact Hch]|].
    rewrite List.map_app, Hm. reflexivity.
Qed.

(** X19 ([_split_messages]): the lines of the text are a preamble without
    a line that starts a message, followed by the messages, each a line
    that starts with a bracketed date and time followed by the lines up to
    the next such line; the function returns these messages, their lines
    joined by newlines, and drops the preamble. *)
Theorem split_messages_chunks (content : string) :
  exists preamble chunks,
    split_lines content = (preamble ++ concat chunks)%list /\
    Forall (fun l => is_header l = false) preamble /\
    Forall is_chunk chunks /\
    _split_messages content = List.map (PyStr.join newline) chunks.
Proof. exact (split_messages_chunks_lemma content). Qed.

Lemma join_chunks (chunks : list (list string)) :
  Forall is_chunk chunks ->
  PyStr.join newline (List.map (PyStr.join newline) chunks) =
  PyStr.join newline (concat chunks).
Proof.
  induction 1 as [|ch chunks Hch Hrest IH]; [reflexivity|].
  pose proof (is_chunk_not_nil _ Hch) as Hne.
  destruct chunks as [|ch' chunks].
  - cbn. rewrite app_nil_r. reflexivity.
  - assert (Hne' : concat (ch' :: chunks) <> []).
    { inversion Hrest as [|? ? Hch' _]; subst.
      destruct Hch' as (h & cont & -> & _). discriminate. }
    cbn [concat] in *. rewrite join_app by assumption.
    change (List.map (PyStr.join newline) (ch :: ch' :: chunks))
      with (PyStr.join newline ch :: List.map (PyStr.join newline) (ch' :: chunks)).
    rewrite join_cons by discriminate. rewrite IH. reflexivity.
Qed.

(** X20 ([_split_messages]): no text is lost from the first message on:
    when the first line of the text starts a message, the messages joined
    by newlines are the text. *)
Theorem split_messages_round_trip (content : string) :
  is_header (hd "" (split_lines content)) = true ->
  PyStr.join newline (_split_messages content) = content.
Proof.
  intros Hfirst.
  destruct (split_messages_chunks_lemma content) as (preamble & chunks & E & Hp & Hc & ->).
  rewrite (join_chunks _ Hc).
  destruct preamble as [|p preamble].
  - cbn [app] in E. rewrite <- E. apply join_split_lines.
  - rewrite E in Hfirst. cbn [app hd] in Hfirst.
    inversion Hp as [|? ? Hp0 _]; subst. congruence.
Qed.

(** ** The pattern of a message *)

Lemma consumed_fit (sh : shape) (k k' : cursor) :
  fit sh (rest k) = Some (rest k') ->
  consumed k k' = String.substring 0 (length sh) (rest k).
Proof.
  intros E. destruct (fit_split _ _ _ E) as (pre & Er & _ & Hl).
  rewrite (consumed_prefix k k' pre Er), Er, <- Hl, substring_prefix. reflexivity.
Qed.

Lemma colon_not_in (c : ascii) : not_in ":" c = true -> c <> ":"%char.
Proof. intros H ->. discriminate. Qed.

Lemma needs_colon (r : regex) (k : cursor) :
  (exists c t, rest k = String c t /\ not_in ":" c = true) ->
  outcomes false (RSeq (RStr ": ") r) k = [].
Proof.
  intros (c & t & E & Hc). apply colon_not_in in Hc.
  rewrite (outcomes_seq_shape (RStr ": ") r [just ":"; just " "] k eq_refl).
  cbn [walk]. rewrite E. unfold just at 1.
  destruct (Ascii.eqb ":" c) eqn:Ec; [|reflexivity].
  apply Ascii.eqb_eq in Ec. congruence.
Qed.

(** The groups of a match of [MESSAGE_PATTERN], read off the text. *)
Lemma message_pattern_groups (s : string) :
  option_map captured (pattern_match MESSAGE_PATTERN s) = message_groups s.
Proof.
  unfold pattern_match, MESSAGE_PATTERN, match_at, message_groups.
  cbn [re ignorecase RSeqs].
  set (k0 := Cursor None s []).
  change (fit [just "["] s) with (fit [just "["] (rest k0)).
  rewrite (outcomes_seq_shape (RLit "[") _ [just "["] k0 eq_refl).
  stage walk_fit [just "["] k0 k Ef Hc.
  rewrite (outcomes_seq_group 1 date_stamp _ date_shape k eq_refl).
  stage walk_fit date_shape k k1 Ef0 Hc0.
  assert (E1 : consumed k k1 = String.substring 0 10 (rest k)).
  { apply (consumed_fit date_shape). exact Ef0. }
  set (k1' := with_group 1 k k1).
  change (rest k1) with (rest k1').
  rewrite (outcomes_seq_shape (RStr ", ") _ [just ","; just " "] k1' eq_refl).
  stage walk_fit [just ","; just " "] k1' k2 Ef1 Hc1.
  rewrite (outcomes_seq_group 2 time_stamp _ time_shape k2 eq_refl).
  stage walk_fit time_shape k2 k3 Ef2 Hc2.
  assert (E2 : consumed k2 k3 = String.substring 0 8 (rest k2)).
  { apply (consumed_fit time_shape). exact Ef2. }
  set (k3' := with_group 2 k2 k3).
  change (rest k3) with (rest k3').
  rewrite (outcomes_seq_shape (RStr "] ") _ [just "]"; just " "] k3' eq_refl).
  stage walk_fit [just "]"; just " "] k3' k4 Ef3 Hc3.
  destruct (outcomes_greedy_group 3 (not_in ":")
              (RSeq (RStr ": ") (RSeq (RGroup 4 (RRep true 1 None any_char)) at_end)) k4
              (needs_colon _)) as (pv5 & ->).
  destruct (PyStr.falsy (fst (span (not_in ":") (rest k4)))); [reflexivity|].
  set (k5 := Cursor pv5 (snd (span (not_in ":") (rest k4))) (caps k4)).
  assert (E3 : consumed k4 k5 = fst (span (not_in ":") (rest k4))).
  { apply consumed_prefix. apply span_app. }
  set (k5' := with_group 3 k4 k5).
  change (snd (span (not_in ":") (rest k4))) with (rest k5').
  rewrite (outcomes_seq_shape (RStr ": ") _ [just ":"; just " "] k5' eq_refl).
  stage walk_fit [just ":"; just " "] k5' k6 Ef4 Hc4.
  destruct (outcomes_content 4 k6) as (pv7 & more & ->).
  destruct (PyStr.falsy (rest k6)); [reflexivity|].
  cbn [option_map captured caps]. rewrite Hc4.
  subst k5' k5 k3' k1'. cbn [with_group caps]. rewrite E3, Hc3.
  cbn [with_group caps]. rewrite E2, Hc2, Hc1.
  cbn [with_group caps]. rewrite E1, Hc0, Hc. reflexivity.
Qed.

Lemma not_in_colon (c : ascii) : not_in ":" c = negb (Ascii.eqb c ":").
Proof.
  unfold not_in. cbn [PyStr.contains String.prefix].
  destruct (ascii_dec c ":") as [->|Hne]; [reflexivity|].
  apply Ascii.eqb_neq in Hne. rewrite Hne. reflexivity.
Qed.

Lemma contains_colon_cons (c : ascii) (t : string) :
  PyStr.contains ":" (String c t) = Ascii.eqb c ":" || PyStr.contains ":" t.
Proof.
  cbn [PyStr.contains String.prefix].
  destruct (ascii_dec ":" c) as [<-|Hne].
  - destruct t; reflexivity.
  - assert (E : Ascii.eqb c ":" = false) by (apply Ascii.eqb_neq; congruence).
    rewrite E. reflexivity.
Qed.

Lemma span_no_colon (s : string) :
  PyStr.contains ":" (fst (span (not_in ":") s)) = false.
Proof.
  induction s as [|c s IH]; [reflexivity|]. cbn [span].
  destruct (not_in ":" c) eqn:E; [|reflexivity]. cbn [fst].
  rewrite contains_colon_cons, IH. rewrite not_in_colon in E.
  destruct (Ascii.eqb c ":"); [discriminate|reflexivity].
Qed.

Lemma span_to_colon (a t : string) :
  PyStr.contains ":" a = false ->
  span (not_in ":") (a ++ String ":" t) = (a, String ":" t).
Proof.
  induction a as [|c a IH]; intros H; [reflexivity|].
  rewrite contains_colon_cons in H. apply orb_false_iff in H. destruct H as [Hc Ha].
  change (String c a ++ String ":" t) with (String c (a ++ String ":" t)).
  cbn [span]. rewrite not_in_colon, Hc. cbn [negb]. rewrite (IH Ha). reflexivity.
Qed.

Lemma has_shape_length (sh : shape) (s : string) :
  has_shape sh s = true -> String.length s = length sh.
Proof.
  unfold has_shape. intros H. destruct (fit sh s) as [t|] eqn:E; [|discriminate].
  destruct t; [|discriminate].
  destruct (fit_split _ _ _ E) as (pre & -> & _ & Hl). rewrite append_nil_r. exact Hl.
Qed.

Lemma literal_shape (lit s : string) :
  has_shape (List.map just (list_ascii_of_string lit)) s = true -> s = lit.
Proof.
  unfold has_shape. revert s. induction lit as [|c lit IH]; intros s.
  - cbn. destruct s; [reflexivity|discriminate].
  - cbn [list_ascii_of_string List.map fit]. destruct s as [|d s]; [discriminate|].
    unfold just at 1. destruct (Ascii.eqb c d) eqn:E; [|discriminate].
    apply Ascii.eqb_eq in E. subst d. intros H. rewrite (IH s H). reflexivity.
Qed.

Lemma fit_literal (lit s t : string) :
  fit (List.map just (list_ascii_of_string lit)) s = Some t -> s = lit ++ t.
Proof.
  intros E. destruct (fit_split _ _ _ E) as (pre & -> & Hs & _).
  rewrite (literal_shape lit pre Hs). reflexivity.
Qed.

Lemma falsy_false (s : string) : PyStr.falsy s = false <-> s <> "".
Proof. destruct s; cbn; split; congruence. Qed.

(** The texts that [MESSAGE_PATTERN] matches, and the groups of the match. *)
Lemma message_groups_spec (s : string) (groups : list (nat * string)) :
  message_groups s = Some groups <->
  exists date_str time_str sender content,
    s = "[" ++ date_str ++ ", " ++ time_str ++ "] " ++ sender ++ ": " ++ content /\
    has_shape date_shape date_str = true /\
    has_shape time_shape time_str = true /\
    sender <> "" /\ PyStr.contains ":" sender = false /\ content <> "" /\
    groups = [(4, content); (3, sender); (2, time_str); (1, date_str)].
Proof.
  unfold message_groups. split.
  - destruct (fit [just "["] s) as [s1|] eqn:E0; [|discriminate].
    destruct (fit date_shape s1) as [s2|] eqn:E1; [|discriminate].
    destruct (fit [just ","; just " "] s2) as [s3|] eqn:E2; [|discriminate].
    destruct (fit time_shape s3) as [s4|] eqn:E3; [|discriminate].
    destruct (fit [just "]"; just " "] s4) as [s5|] eqn:E4; [|discriminate].
    destruct (PyStr.falsy (fst (span (not_in ":") s5))) eqn:Ea; [discriminate|].
    destruct (fit [just ":"; just " "] (snd (span (not_in ":") s5))) as [content|] eqn:E5;
      [|discriminate].
    destruct (PyStr.falsy content) eqn:Ec; [discriminate|].
    intros H. injection H as <-.
    apply (fit_literal "[") in E0. apply (fit_literal ", ") in E2.
    apply (fit_literal "] ") in E4. apply (fit_literal ": ") in E5.
    destruct (fit_split _ _ _ E1) as (date_str & -> & Hd & Hdl).
    destruct (fit_split _ _ _ E3) as (time_str & -> & Ht & Htl).
    exists date_str, time_str, (fst (span (not_in ":") s5)), content.
    split.
    { rewrite E0, E2, E4. rewrite (span_app (not_in ":") s5) at 1. rewrite E5.
      reflexivity. }
    split; [exact Hd|]. split; [exact Ht|].
    split; [apply falsy_false, Ea|]. split; [apply span_no_colon|].
    split; [apply falsy_false, Ec|].
    change 10 with (length date_shape). rewrite <- Hdl, substring_prefix.
    change 8 with (length time_shape). rewrite <- Htl, substring_prefix. reflexivity.
  - intros (date_str & time_str & sender & content & -> & Hd & Ht & Hs & Hc & Hn & ->).
    change ("[" ++ date_str ++ ", " ++ time_str ++ "] " ++ sender ++ ": " ++ content)
      with (String "[" (date_str ++ ", " ++ time_str ++ "] " ++ sender ++ ": " ++ content)).
    cbn [fit]. unfold just at 1. cbn [Ascii.eqb Bool.eqb].
    rewrite (fit_app date_shape date_str _ Hd).
    change (", " ++ time_str ++ "] " ++ sender ++ ": " ++ content)
      with (String "," (String " " (time_str ++ "] " ++ sender ++ ": " ++ content))).
    cbn [fit]. unfold just at 1 2. cbn [Ascii.eqb Bool.eqb].
    rewrite (fit_app time_shape time_str _ Ht).
    change ("] " ++ sender ++ ": " ++ content)
      with (String "]" (String " " (sender ++ ": " ++ content))).
    cbn [fit]. unfold just at 1 2. cbn [Ascii.eqb Bool.eqb].
    change (": " ++ content) with (String ":" (String " " content)).
    rewrite (span_to_colon sender _ Hc). cbn [fst snd].
    apply falsy_false in Hs. rewrite Hs.
    cbn [fit]. unfold just at 1 2. cbn [Ascii.eqb Bool.eqb].
    apply falsy_false in Hn. rewrite Hn.
    pose proof (substring_prefix date_str
                  (String "," (String " " (time_str ++
                     String "]" (String " " (sender ++ String ":" (String " " content)))))))
      as Sd.
    rewrite (has_shape_length _ _ Hd) in Sd.
    pose proof (substring_prefix time_str
                  (String "]" (String " " (sender ++ String ":" (String " " content)))))
      as St.
    rewrite (has_shape_length _ _ Ht) in St.
    change (length date_shape) with 10 in Sd. change (length time_shape) with 8 in St.
    rewrite Sd, St. reflexivity.
Qed.

(** ** Lines and messages *)

Lemma is_header_fit (line : string) :
  is_header line = is_some (fit header_shape line).
Proof.
  unfold is_header, pattern_match, match_at.
  change (ignorecase HEADER_PATTERN) with false.
  rewrite (outcomes_shape (re HEADER_PATTERN) header_shape eq_refl).
  pose proof (walk_fit header_shape (Cursor None line [])) as H. cbn [rest] in H.
  destruct (walk header_shape _); destruct (fit header_shape line);
    try contradiction; reflexivity.
Qed.

(** X21 (the test of [_split_messages] for the start of a message): a
    line starts a message exactly when it begins with a bracketed stamp
    [[DD/MM/YYYY, HH:MM:SS]] of digits; whatever follows the bracket plays
    no part, nor does the value of the date. *)
Theorem header_lines (line : string) :
  is_header line = true <->
  exists stamp rest, line = stamp ++ rest /\ has_shape header_shape stamp = true.
Proof.
  rewrite is_header_fit. split.
  - destruct (fit header_shape line) as [t|] eqn:E; [|discriminate].
    intros _. destruct (fit_split _ _ _ E) as (pre & -> & Hs & _).
    exists pre, t. split; [reflexivity|exact Hs].
  - intros (stamp & t & -> & Hs). rewrite (fit_app _ _ t Hs). reflexivity.
Qed.

Section ParserProperties.

Variable strptime : string -> option nat.

(** X22 ([_parse_message]): a raw message is parsed exactly when, the
    left-to-right marks removed, it reads
    [[date, time] sender: content] with a date of the shape [DD/MM/YYYY],
    a time of the shape [HH:MM:SS], a sender that is not empty and holds
    no colon, a content that is not empty, and a date and time that
    [strptime] accepts; the message then has the sender and the content
    stripped of surrounding blanks, and it is a system message when the
    content, before stripping, holds one of the indicators. *)
Theorem parse_message_reads (raw : string) (msg : Message) :
  _parse_message strptime raw = Some msg <->
  exists date_str time_str sender content timestamp,
    PyStr.replace left_to_right_mark "" raw =
      "[" ++ date_str ++ ", " ++ time_str ++ "] " ++ sender ++ ": " ++ content /\
    has_shape date_shape date_str = true /\
    has_shape time_shape time_str = true /\
    sender <> "" /\ PyStr.contains ":" sender = false /\ content <> "" /\
    strptime (date_str ++ " " ++ time_str) = Some timestamp /\
    msg = mkMessage timestamp (PyStr.strip sender) (PyStr.strip content)
            (existsb (fun indicator => PyStr.contains indicator content)
                     SYSTEM_INDICATORS).
Proof.
  unfold _parse_message.
  set (text := PyStr.replace left_to_right_mark "" raw).
  pose proof (message_pattern_groups text) as Hg.
  pose proof (message_groups_spec text) as Hspec.
  destruct (pattern_match MESSAGE_PATTERN text) as [m|]; cbn [option_map] in Hg.
  - symmetry in Hg. pose proof (proj1 (Hspec _) Hg) as Hm.
    destruct Hm as (date_str & time_str & sender & content & E & Hd & Ht & Hs & Hc & Hn & Hcap).
    unfold group. rewrite Hcap. cbn [assoc Nat.eqb].
    split.
    + destruct (strptime (date_str ++ " " ++ time_str)) as [timestamp|] eqn:Et;
        [|discriminate].
      intros H. injection H as <-.
      exists date_str, time_str, sender, content, timestamp. repeat split; assumption.
    + intros (d' & t' & s' & c' & timestamp & E' & Hd' & Ht' & Hs' & Hc' & Hn' & Et & ->).
      assert (Hg' : message_groups text = Some [(4, c'); (3, s'); (2, t'); (1, d')]).
      { apply Hspec. exists d', t', s', c'. repeat split; assumption. }
      rewrite Hg' in Hg. rewrite Hcap in Hg. injection Hg as -> -> -> ->.
      rewrite Et. reflexivity.
  - split; [discriminate|].
    intros (d' & t' & s' & c' & timestamp & E' & Hd' & Ht' & Hs' & Hc' & Hn' & Et & ->).
    assert (Hg' : message_groups text = Some [(4, c'); (3, s'); (2, t'); (1, d')]).
    { apply Hspec. exists d', t', s', c'. repeat split; assumption. }
    rewrite Hg' in Hg. discriminate.
Qed.

End ParserProperties.

(** ** The left-to-right mark *)

Lemma marked_replace (line : string) :
  PyStr.replace left_to_right_mark "" (left_to_right_mark ++ line) =
  PyStr.replace left_to_right_mark "" line.
Proof.
  assert (E : String.prefix left_to_right_mark (left_to_right_mark ++ line) = true).
  { destruct line; reflexivity. }
  unfold PyStr.replace. change (PyStr.falsy left_to_right_mark) with false. cbv iota.
  set (mark := left_to_right_mark) in *.
  change (mark ++ line)
    with (String (ascii_of_nat 226) (String (ascii_of_nat 128)
            (String (ascii_of_nat 142) line))) in *.
  cbn [PyStr.replace_from]. rewrite E. reflexivity.
Qed.

(** X23 ([_split_messages] with [_parse_message]): the mark is removed
    only when a message is parsed, after the text has been split: a line
    that begins with the left-to-right mark does not start a message, so it
    stays with the message before it, although the same text would be
    parsed like the text without the mark. *)
Theorem marked_line_continues (strptime : string -> option nat) (line : string) :
  is_header (left_to_right_mark ++ line) = false /\
  _parse_message strptime (left_to_right_mark ++ line) = _parse_message strptime line.
Proof.
  split.
  - rewrite is_header_fit. reflexivity.
  - unfold _parse_message. rewrite marked_replace. reflexivity.
Qed.

(** ** The list of [parse] *)

Lemma chunk_headers (chunks : list (list string)) :
  Forall is_chunk chunks ->
  length (List.filter is_header (concat chunks)) = length chunks.
Proof.
  induction 1 as [|ch chunks (h & cont & -> & Hh & Hc) _ IH]; [reflexivity|].
  cbn [concat app List.filter length]. rewrite Hh, List.filter_app.
  rewrite (filter_none _ _ Hc). cbn [app length]. rewrite IH. reflexivity.
Qed.

Lemma omap_length_le {A B : Type} (f : A -> option B) (l : list A) :
  length (omap f l) <= length l.
Proof.
  induction l as [|x l IH]; [reflexivity|]. cbn [omap list_omap length].
  destruct (f x); cbn [length]; lia.
Qed.

(** X24 ([parse]): the messages returned are at most as many as the lines
    of the text that start a message; a text without such a line gives no
    message. *)
Theorem parse_at_most_headers (strptime : string -> option nat) (content : string) :
  length (parse strptime content) <=
  length (List.filter is_header (split_lines content)).
Proof.
  unfold parse.
  destruct (split_messages_chunks_lemma content) as (preamble & chunks & E & Hp & Hc & ->).
  rewrite E, List.filter_app, (filter_none _ _ Hp). cbn [app].
  rewrite (chunk_headers _ Hc).
  etransitivity; [apply omap_length_le|]. rewrite length_map. reflexivity.
Qed.

(** ** The participants *)

Lemma string_lt_trans (a b c : string) : string_lt a b -> string_lt b c -> string_lt a c.
Proof.
  unfold string_lt, String.ltb. intros H1 H2.
  destruct (String.compare a b) eqn:E1; try discriminate.
  destruct (String.compare b c) eqn:E2; try discriminate.
  apply OrderedTypeEx.String_as_OT.cmp_lt in E1, E2.
  pose proof (OrderedTypeEx.String_as_OT.lt_trans _ _ _ E1 E2) as E3.
  apply OrderedTypeEx.String_as_OT.cmp_lt in E3.
  unfold OrderedTypeEx.String_as_OT.cmp in E3. rewrite E3. reflexivity.
Qed.

Lemma string_lt_cases (a b : string) : string_lt a b \/ a = b \/ string_lt b a.
Proof.
  unfold string_lt, String.ltb.
  destruct (String.compare a b) eqn:E.
  - right. left. apply String.compare_eq_iff, E.
  - left. reflexivity.
  - right. right. rewrite String.compare_antisym, E. reflexivity.
Qed.

Lemma string_lt_irrefl (a : string) : ~ string_lt a a.
Proof.
  unfold string_lt, String.ltb. intros H.
  destruct (String.compare a a) eqn:E; try discriminate.
  pose proof (String.compare_antisym a a) as Ha. rewrite E in Ha. discriminate.
Qed.

(** The order of [sorted]: [a] does not come after [b]. *)
Lemma not_after_trans (a b c : string) :
  String.ltb b a = false -> String.ltb c b = false -> String.ltb c a = false.
Proof.
  intros H1 H2. destruct (String.ltb c a) eqn:E; [|reflexivity]. exfalso.
  destruct (string_lt_cases a b) as [H|[H|H]].
  - pose proof (string_lt_trans _ _ _ E H) as H3. unfold string_lt in H3. congruence.
  - subst b. congruence.
  - unfold string_lt in H. congruence.
Qed.

Lemma insert_str_perm (x : string) (l : list string) : Permutation (PyStr.insert_str x l) (x :: l).
Proof.
  induction l as [|y l IH]; cbn [PyStr.insert_str]; [reflexivity|].
  destruct (String.ltb x y); [reflexivity|].
  etransitivity; [apply perm_skip, IH|apply perm_swap].
Qed.

Lemma insert_str_sorted (x : string) (l : list string) :
  StronglySorted (fun a b => String.ltb b a = false) l ->
  StronglySorted (fun a b => String.ltb b a = false) (PyStr.insert_str x l).
Proof.
  induction 1 as [|y l Hs IH Hy]; cbn [PyStr.insert_str].
  - repeat constructor.
  - destruct (String.ltb x y) eqn:E.
    + assert (Hxy : String.ltb y x = false).
      { destruct (String.ltb y x) eqn:E'; [|reflexivity]. exfalso.
        apply (string_lt_irrefl x). exact (string_lt_trans _ _ _ E E'). }
      constructor; [constructor; assumption|].
      constructor; [exact Hxy|].
      eapply List.Forall_impl; [|exact Hy]. intros z Hz.
      exact (not_after_trans _ _ _ Hxy Hz).
    + constructor; [exact IH|].
      eapply Permutation.Permutation_Forall; [symmetry; apply insert_str_perm|].
      constructor; assumption.
Qed.

Lemma sorted_perm (l : list string) : Permutation (PyStr.sorted l) l.
Proof.
  unfold PyStr.sorted. rewrite (Permutation_rev l) at 2.
  induction (rev l) as [|x r IH]; [reflexivity|]. cbn [fold_right].
  etransitivity; [apply insert_str_perm|]. apply perm_skip, IH.
Qed.

Lemma sorted_sorted (l : list string) :
  StronglySorted (fun a b => String.ltb b a = false) (PyStr.sorted l).
Proof.
  unfold PyStr.sorted. induction (rev l) as [|x r IH]; [constructor|].
  cbn [fold_right]. apply insert_str_sorted, IH.
Qed.

Lemma sorted_strict (l : list string) :
  List.NoDup l ->
  StronglySorted (fun a b => String.ltb b a = false) l -> StronglySorted string_lt l.
Proof.
  intros Hn Hs. induction Hs as [|x l Hs IH Hx]; [constructor|].
  inversion Hn as [|? ? Hnot Hn']; subst.
  constructor; [apply IH, Hn'|].
  rewrite List.Forall_forall in Hx |- *. intros y Hy.
  destruct (string_lt_cases x y) as [H|[H|H]]; [exact H| |].
  - subst y. contradiction.
  - specialize (Hx y Hy). unfold string_lt in H. congruence.
Qed.

Lemma participants_fold (messages : list Message) (s : string) :
  s ∈ fold_left participants_step messages ∅ <->
  exists msg, In msg messages /\ is_system msg = false /\
              sender msg = s /\ s <> "Birkencrocs Crew".
Proof.
  induction messages as [|m messages IH] using rev_ind.
  - cbn. split; [intros H; apply not_elem_of_empty in H; contradiction|].
    intros (msg & [] & _).
  - rewrite fold_left_app. cbn [fold_left]. unfold participants_step at 1.
    unfold system_senders.
    destruct (is_system m) eqn:Es; cbn [negb andb].
    + rewrite IH. split; intros (msg & Hin & H); exists msg; (split; [|exact H]).
      * apply in_or_app. left. exact Hin.
      * apply in_app_or in Hin. destruct Hin as [Hin|[<-|[]]]; [exact Hin|].
        destruct H as [H _]. congruence.
    + destruct (bool_decide (sender m ∈ {["Birkencrocs Crew"]})) eqn:Eb; cbn [negb].
      * apply bool_decide_eq_true in Eb. apply elem_of_singleton in Eb.
        rewrite IH. split; intros (msg & Hin & H); exists msg; (split; [|exact H]).
        -- apply in_or_app. left. exact Hin.
        -- apply in_app_or in Hin. destruct Hin as [Hin|[<-|[]]]; [exact Hin|].
           destruct H as (_ & H1 & H2). congruence.
      * apply bool_decide_eq_false in Eb. rewrite elem_of_singleton in Eb.
        rewrite elem_of_union, elem_of_singleton, IH. split.
        -- intros [->|(msg & Hin & H)].
           ++ exists m. split; [apply in_or_app; right; left; reflexivity|].
              repeat split; auto.
           ++ exists msg. split; [apply in_or_app; left; exact Hin|exact H].
        -- intros (msg & Hin & H). apply in_app_or in Hin.
           destruct Hin as [Hin|[<-|[]]].
           ++ right. exists msg. split; assumption.
           ++ left. destruct H as (_ & H & _). symmetry. exact H.
Qed.

Lemma get_participants_In (messages : list Message) (s : string) :
  In s (get_participants messages) <->
  exists msg, In msg messages /\ is_system msg = false /\
              sender msg = s /\ s <> "Birkencrocs Crew".
Proof.
  unfold get_participants.
  rewrite <- participants_fold, <- elem_of_elements, list_elem_of_In.
  split; apply Permutation_in; [|symmetry]; apply sorted_perm.
Qed.

(** X25 ([get_participants]): the participants are the senders of the
    messages that are not system messages, the group name
    [Birkencrocs Crew] left out, each once, in the increasing order of the
    strings. *)
Theorem participants_sorted (messages : list Message) :
  StronglySorted string_lt (get_participants messages) /\
  forall s,
    In s (get_participants messages) <->
    exists msg, In msg messages /\ is_system msg = false /\
                sender msg = s /\ s <> "Birkencrocs Crew".
Proof.
  split; [|apply get_participants_In].
  unfold get_participants.
  apply sorted_strict; [|apply sorted_sorted].
  eapply Permutation.Permutation_NoDup; [symmetry; apply sorted_perm|].
  apply NoDup_ListNoDup, NoDup_elements.
Qed.

(** ** The participants and the proposers *)

Section Pipeline.

Context {L : Library}.

(** X26 ([get_participants] with [extract_all]): for one list of
    messages, whoever proposed an item is among the participants, unless
    the proposer is the group name [Birkencrocs Crew], which
    [get_participants] leaves out and the extractor does not. *)
Theorem proposers_among_participants (msgs : list Message) (confirmed_only : bool) :
  Forall (fun it =>
            proposed_by it = "Birkencrocs Crew" \/
            In (proposed_by it) (get_participants msgs))
         (fst (extract_all (__init__ msgs) confirmed_only)).
Proof.
  eapply List.Forall_impl; [|apply extract_all_sources].
  intros it (msg & Hin & Hsys & _ & Hp).
  destruct (String.eqb (proposed_by it) "Birkencrocs Crew") eqn:E.
  - left. apply String.eqb_eq, E.
  - right. apply get_participants_In. exists msg.
    split; [exact Hin|]. split; [exact Hsys|]. split; [symmetry; exact Hp|].
    apply String.eqb_neq, E.
Qed.

End Pipeline.

(** ** The parser on examples *)

(** These agree with Python's [re] and [str] on the same texts. *)
Example split_messages_example :
  _split_messages ("WhatsApp export" ++ newline ++ two_message_chat) =
  ["[12/03/2026, 10:45:00] Ann: ferry at 10.45" ++ newline ++ "from Koh Lipe";
   "[12/03/2026, 10:46:00] Bob : image omitted"].
Proof. vm_compute. reflexivity. Qed.

Example parse_example :
  parse minute_of_day two_message_chat =
  [mkMessage 645 "Ann" ("ferry at 10.45" ++ newline ++ "from Koh Lipe") false;
   mkMessage 646 "Bob" "image omitted" true].
Proof. vm_compute. reflexivity. Qed.

Example parse_message_rejects :
  List.map (_parse_message minute_of_day)
    ["[12/03/2026, 10:45:00] Ann:hi"; "[12/03/2026, 10:45:00] Ann: ";
     "[12/3/2026, 10:45:00] Ann: hi"; "[12/03/2026, 10:45:00] Ann joined";
     "[12/03/2026, 25:45:00] Ann: hi"] =
  [None; None; None; None; None].
Proof. vm_compute. reflexivity. Qed.

Example get_participants_example :
  get_participants
    [mkMessage 0 "Bob" "hi" false; mkMessage 1 "Ann" "hello" false;
     mkMessage 2 "Bob" "again" false; mkMessage 3 "Cy" "image omitted" true;
     mkMessage 4 "Birkencrocs Crew" "welcome" false] =
  ["Ann"; "Bob"].
Proof. vm_compute. reflexivity. Qed.

(** ** The further properties on examples *)

Lemma split_messages_round_trip_witness :
  is_header (hd "" (split_lines two_message_chat)) = true /\
  PyStr.join newline (_split_messages two_message_chat) = two_message_chat.
Proof.
  split; [vm_compute; reflexivity|].
  apply (split_messages_round_trip two_message_chat). vm_compute. reflexivity.
Defined.

Lemma hotels_distinct_witness :
  let items := fst (extract_all (L := Plain.library) (__init__ reef_messages) false) in
  In reef_item items /\ In (nth 0 items reef_item) items /\
  category reef_item = HOTEL /\ category (nth 0 items reef_item) = HOTEL /\
  hotel_key (title reef_item) = hotel_key (title (nth 0 items reef_item)) /\
  reef_item = nth 0 items reef_item.
Proof.
  assert (Hin : In reef_item
                  (fst (extract_all (L := Plain.library) (__init__ reef_messages) false))).
  { vm_compute. left. reflexivity. }
  assert (Hin' : In (nth 0 (fst (extract_all (L := Plain.library)
                                  (__init__ reef_messages) false)) reef_item)
                   (fst (extract_all (L := Plain.library) (__init__ reef_messages) false))).
  { vm_compute. left. reflexivity. }
  split; [exact Hin|]. split; [exact Hin'|].
  split; [reflexivity|]. split; [vm_compute; reflexivity|].
  split; [vm_compute; reflexivity|].
  apply (hotels_distinct (L := Plain.library) (__init__ reef_messages) false
           reef_item _ Hin Hin'); vm_compute; reflexivity.
Defined.

Lemma flights_distinct_witness :
  let items := fst (extract_all (L := Plain.library) (__init__ confirmed_alone) true) in
  In confirmed_alone_item items /\ In (nth 0 items confirmed_alone_item) items /\
  category confirmed_alone_item = FLIGHT /\
  category (nth 0 items confirmed_alone_item) = FLIGHT /\
  title confirmed_alone_item = title (nth 0 items confirmed_alone_item) /\
  start_date confirmed_alone_item = start_date (nth 0 items confirmed_alone_item) /\
  confirmed_alone_item = nth 0 items confirmed_alone_item.
Proof.
  assert (Hin : In confirmed_alone_item
                  (fst (extract_all (L := Plain.library) (__init__ confirmed_alone) true))).
  { vm_compute. left. reflexivity. }
  assert (Hin' : In (nth 0 (fst (extract_all (L := Plain.library)
                                  (__init__ confirmed_alone) true)) confirmed_alone_item)
                   (fst (extract_all (L := Plain.library) (__init__ confirmed_alone) true))).
  { vm_compute. left. reflexivity. }
  split; [exact Hin|]. split; [exact Hin'|].
  split; [reflexivity|]. split; [vm_compute; reflexivity|].
  split; [vm_compute; reflexivity|]. split; [vm_compute; reflexivity|].
  apply (flights_distinct (L := Plain.library) (__init__ confirmed_alone) true
           confirmed_alone_item _ Hin Hin'); vm_compute; reflexivity.
Defined.
